(** * cf-purge-worker: dependency analysis, deletion planning and execution

    A shallow embedding of the Go packages [pkg/types], [internal/api],
    [internal/analyzer] and [internal/deleter], followed by the properties
    of the resource index, the risk classifier, the deletion planner and
    the deletion executor.

    Go strings are [string], slices are [list], the
    [map[string]*types.ResourceUsage] of the analyzer is a
    [gmap string ResourceUsage.t] that is threaded through the loops (the
    pointers stored in the Go map alias its entries, so a write through
    such a pointer is a write to the map).  Remote calls go through a
    record of functions standing for the Cloudflare SDK; the delete calls
    thread an abstract remote state and are logged. *)

From stdpp Require Import gmap strings list fin_maps.
From Stdlib Require Import ZArith Lia.

Open Scope string_scope.
Open Scope list_scope.
Open Scope Z_scope.

(** ** Go's [error] values

    [RemoteNotFound] and [RemoteError] are what the SDK hands back;
    [Wrapf msg e] is [fmt.Errorf(msg + ": %w", e)] and [Errorf msg] a
    fresh error built with [fmt.Errorf]. *)

Inductive error : Type :=
| RemoteNotFound
| RemoteError (msg : string)
| Errorf (msg : string)
| Wrapf (msg : string) (wrapped : error).

(** A Go pair [(value, error)] in which exactly one side is meaningful. *)
Inductive Result (A : Type) : Type :=
| Ok (a : A)
| Err (e : error).
Arguments Ok {A} a.
Arguments Err {A} e.

(** ** package types *)

Module types.

(** [type BindingType string] *)
Definition BindingType := string.

Definition BindingTypeKV : BindingType := "kv_namespace".
Definition BindingTypeR2 : BindingType := "r2_bucket".
Definition BindingTypeD1 : BindingType := "d1".
Definition BindingTypeDurableObject : BindingType := "durable_object_namespace".
Definition BindingTypeService : BindingType := "service".
Definition BindingTypeQueue : BindingType := "queue".
Definition BindingTypeHyperdrive : BindingType := "hyperdrive".
Definition BindingTypeVectorize : BindingType := "vectorize".
Definition BindingTypeEnvVar : BindingType := "plain_text".
Definition BindingTypeSecret : BindingType := "secret_text".
Definition BindingTypeMTLS : BindingType := "mtls_certificate".

Module Binding.
Record t : Type := mk {
  Type' : BindingType;
  Name : string;
  NamespaceID : string;
  BucketName : string;
  DatabaseID : string;
  DatabaseName : string;
  ClassName : string;
  ScriptName : string;
  QueueName : string;
  ConfigID : string;
  IndexName : string
}.
End Binding.

(** [time.Time] is kept as an opaque instant. *)
Module WorkerInfo.
Record t : Type := mk {
  Name : string;
  AccountID : string;
  CreatedOn : Z;
  ModifiedOn : Z;
  Bindings : list Binding.t
}.
End WorkerInfo.

(** [type RiskLevel int] with the three [iota] constants. *)
Inductive RiskLevel : Type :=
| RiskLevelSafe
| RiskLevelCaution
| RiskLevelDanger.

#[global] Instance RiskLevel_eq_dec : EqDecision RiskLevel.
Proof. solve_decision. Defined.

(** The integer behind each constant. *)
Definition RiskLevel_int (r : RiskLevel) : Z :=
  match r with
  | RiskLevelSafe => 0
  | RiskLevelCaution => 1
  | RiskLevelDanger => 2
  end.

Module ResourceUsage.
Record t : Type := mk {
  ResourceID : string;
  ResourceType : BindingType;
  ResourceName : string;
  UsedBy : list string;
  RiskLevel : RiskLevel
}.

(** Field assignments [u.UsedBy = ...], [u.ResourceName = ...],
    [u.RiskLevel = ...]. *)
Definition setUsedBy (u : t) (v : list string) : t :=
  mk (ResourceID u) (ResourceType u) (ResourceName u) v (RiskLevel u).
Definition setResourceName (u : t) (v : string) : t :=
  mk (ResourceID u) (ResourceType u) v (UsedBy u) (RiskLevel u).
Definition setRiskLevel (u : t) (v : types.RiskLevel) : t :=
  mk (ResourceID u) (ResourceType u) (ResourceName u) (UsedBy u) v.
End ResourceUsage.

Module DeletionPlan.
Record t : Type := mk {
  Worker : WorkerInfo.t;
  ResourcesToDelete : list ResourceUsage.t;
  HasSharedResources : bool;
  DeleteShared : bool;
  DeleteExclusiveOnly : bool
}.

Definition setDeleteShared (p : t) (v : bool) : t :=
  mk (Worker p) (ResourcesToDelete p) (HasSharedResources p) v
     (DeleteExclusiveOnly p).
End DeletionPlan.

Module DeletionResult.
Record t : Type := mk {
  Success : bool;
  WorkerDeleted : bool;
  ResourcesDeleted : list string;
  ResourcesSkipped : list string;
  Errors : list error
}.
End DeletionResult.

End types.

Import types.

(** "Above Safe" in the order of the constants. *)
Definition above_safe (r : RiskLevel) : Prop :=
  RiskLevel_int RiskLevelSafe < RiskLevel_int r.

(** The order Safe < Caution < Danger. *)
Definition risk_le (a b : RiskLevel) : Prop :=
  RiskLevel_int a <= RiskLevel_int b.

(** ** package api *)

Module api.

(** The mutating endpoints of the account; each use is logged. *)
Inductive Call : Type :=
| CallDeleteWorker (name : string)
| CallDeleteKVNamespace (namespaceID : string)
| CallDeleteR2Bucket (bucketName : string)
| CallDeleteD1Database (databaseID : string).

#[global] Instance Call_eq_dec : EqDecision Call.
Proof. solve_decision. Defined.

(** The part of a listed script that [ListWorkers] reads. *)
Record WorkerMetaData : Type := {
  ID : string;
  wm_CreatedOn : Z;
  wm_ModifiedOn : Z
}.

(** The Cloudflare SDK (and the settings endpoint behind
    [GetWorkerBindings]) over an account in state [R].  The read
    endpoints answer from one snapshot: two reads of one endpoint in a
    run give the same answer, so a listing that succeeds once succeeds
    again.  What is proved of the scan is therefore stated over what the
    scan read ([bindingsSeen], [sightings]), not over what another read
    would show.  A delete endpoint returns [None] on success and the
    SDK's error otherwise, together with the next state of the
    account. *)
Record Cloudflare (R : Type) : Type := {
  cf_ListWorkers : Result (list WorkerMetaData);
  cf_GetWorkerBindings : string -> Result (list Binding.t);
  cf_ListWorkersKVNamespaces : Result (list (string * string));
  cf_ListD1Databases : Result (list (string * string));
  cf_Delete : Call -> R -> option error * R
}.
Arguments cf_ListWorkers {R} _.
Arguments cf_GetWorkerBindings {R} _ _.
Arguments cf_ListWorkersKVNamespaces {R} _.
Arguments cf_ListD1Databases {R} _.
Arguments cf_Delete {R} _ _ _.

Record Client (R : Type) : Type := {
  cf : Cloudflare R;
  accountID : string
}.
Arguments cf {R} _.
Arguments accountID {R} _.

(** The account together with the log of delete calls issued so far. *)
Record World (R : Type) : Type := mkWorld {
  remote : R;
  calls : list Call
}.
Arguments mkWorld {R} _ _.
Arguments remote {R} _.
Arguments calls {R} _.

(** Computations that talk to the account. *)
Definition M (R A : Type) : Type := World R -> A * World R.

Definition ret {R A} (a : A) : M R A := fun w => (a, w).
Definition bind {R A B} (m : M R A) (k : A -> M R B) : M R B :=
  fun w => let '(a, w') := m w in k a w'.

(** One logged call of a delete endpoint. *)
Definition invoke {R} (c : Client R) (call : Call) : M R (option error) :=
  fun w =>
    let '(r, s) := cf_Delete (cf c) call (remote w) in
    (r, mkWorld s (calls w ++ [call])).

Section Client.
Context {R : Type} (c : Client R).

Definition ListWorkers : Result (list WorkerInfo.t) :=
  match cf_ListWorkers (cf c) with
  | Err err => Err (Wrapf "failed to list workers" err)
  | Ok workers =>
      Ok (map (fun w => WorkerInfo.mk (ID w) (accountID c)
                          (wm_CreatedOn w) (wm_ModifiedOn w) [])
              workers)
  end.

(** [GetWorkerBindings] reads the settings endpoint; the variant of the
    client that has no such call yet is the account in which
    [cf_GetWorkerBindings] answers [Ok []] for every script. *)
Definition GetWorkerBindings (scriptName : string) : Result (list Binding.t) :=
  cf_GetWorkerBindings (cf c) scriptName.

(** The first listed worker called [name], if any. *)
Fixpoint findWorker (name : string) (workers : list WorkerInfo.t)
  : option WorkerInfo.t :=
  match workers with
  | [] => None
  | w :: rest =>
      if decide (WorkerInfo.Name w = name) then Some w
      else findWorker name rest
  end.

Definition GetWorker (name : string) : Result WorkerInfo.t :=
  match ListWorkers with
  | Err err => Err (Wrapf "failed to list workers" err)
  | Ok workers =>
      match findWorker name workers with
      | None => Err (Errorf ("worker not found: " +:+ name))
      | Some foundWorker =>
          let bindings :=
            match GetWorkerBindings name with
            | Err _ => []
            | Ok bindings => bindings
            end in
          Ok (WorkerInfo.mk (WorkerInfo.Name foundWorker)
                (WorkerInfo.AccountID foundWorker)
                (WorkerInfo.CreatedOn foundWorker)
                (WorkerInfo.ModifiedOn foundWorker) bindings)
      end
  end.

(** The second component of the first pair whose first component is
    [id]. *)
Fixpoint findByID (id : string) (l : list (string * string)) : option string :=
  match l with
  | [] => None
  | (i, n) :: rest => if decide (i = id) then Some n else findByID id rest
  end.

Definition GetKVNamespaceTitle (namespaceID : string) : Result string :=
  match cf_ListWorkersKVNamespaces (cf c) with
  | Err err => Err err
  | Ok namespaces =>
      match findByID namespaceID namespaces with
      | Some title => Ok title
      | None => Err (Errorf "namespace not found")
      end
  end.

Definition GetD1DatabaseName (databaseID : string) : Result string :=
  match cf_ListD1Databases (cf c) with
  | Err err => Err err
  | Ok databases =>
      match findByID databaseID databases with
      | Some name => Ok name
      | None => Err (Errorf "database not found")
      end
  end.

(** The four delete wrappers: call the SDK, wrap its error. *)
Definition wrapped (msg : string) (call : Call) : M R (option error) :=
  bind (invoke c call) (fun r =>
    ret (match r with
         | Some err => Some (Wrapf msg err)
         | None => None
         end)).

Definition DeleteWorker (name : string) : M R (option error) :=
  wrapped "failed to delete worker" (CallDeleteWorker name).

Definition DeleteKVNamespace (namespaceID : string) : M R (option error) :=
  wrapped "failed to delete KV namespace" (CallDeleteKVNamespace namespaceID).

Definition DeleteR2Bucket (bucketName : string) : M R (option error) :=
  wrapped "failed to delete R2 bucket" (CallDeleteR2Bucket bucketName).

Definition DeleteD1Database (databaseID : string) : M R (option error) :=
  wrapped "failed to delete D1 database" (CallDeleteD1Database databaseID).
End Client.

End api.

(** ** package analyzer *)

Module analyzer.

(** [getResourceKey]: the [switch] on [binding.Type], with
    [fmt.Sprintf] written as concatenation. *)
Definition getResourceKey (binding : Binding.t) : string :=
  let ty := Binding.Type' binding in
  if decide (ty = BindingTypeKV) then "kv:" +:+ Binding.NamespaceID binding
  else if decide (ty = BindingTypeR2) then "r2:" +:+ Binding.BucketName binding
  else if decide (ty = BindingTypeD1) then "d1:" +:+ Binding.DatabaseID binding
  else if decide (ty = BindingTypeDurableObject) then
    "do:" +:+ Binding.ClassName binding +:+ ":" +:+ Binding.ScriptName binding
  else if decide (ty = BindingTypeService) then
    "service:" +:+ Binding.ScriptName binding
  else if decide (ty = BindingTypeQueue) then "queue:" +:+ Binding.QueueName binding
  else EmptyString.

Definition getResourceID (binding : Binding.t) : string :=
  let ty := Binding.Type' binding in
  if decide (ty = BindingTypeKV) then Binding.NamespaceID binding
  else if decide (ty = BindingTypeR2) then Binding.BucketName binding
  else if decide (ty = BindingTypeD1) then Binding.DatabaseID binding
  else if decide (ty = BindingTypeDurableObject) then Binding.ClassName binding
  else if decide (ty = BindingTypeService) then Binding.ScriptName binding
  else if decide (ty = BindingTypeQueue) then Binding.QueueName binding
  else Binding.Name binding.

Definition getResourceName (binding : Binding.t) : string :=
  let ty := Binding.Type' binding in
  if decide (ty = BindingTypeKV) then Binding.Name binding
  else if decide (ty = BindingTypeR2) then Binding.BucketName binding
  else if decide (ty = BindingTypeD1) then Binding.DatabaseName binding
  else if decide (ty = BindingTypeDurableObject) then Binding.ClassName binding
  else if decide (ty = BindingTypeService) then Binding.ScriptName binding
  else if decide (ty = BindingTypeQueue) then Binding.QueueName binding
  else Binding.Name binding.

(** [calculateRiskLevel]: the loop counts the entries of [usedBy] that
    differ from [targetWorker].  [otherCount] never exceeds
    [len(usedBy)], which fits an [int], so the increment does not wrap. *)
Definition countOthers (targetWorker : string) (usedBy : list string) : Z :=
  fold_left
    (fun otherCount worker =>
       if decide (worker ≠ targetWorker) then otherCount + 1 else otherCount)
    usedBy 0.

Definition calculateRiskLevel (usedBy : list string) (targetWorker : string)
  : RiskLevel :=
  let otherCount := countOthers targetWorker usedBy in
  if decide (otherCount = 0) then RiskLevelSafe
  else if decide (otherCount <= 2) then RiskLevelCaution
  else RiskLevelDanger.

(** [CreateDeletionPlan]: the loop body, on the two fields it writes. *)
Definition planStep (exclusiveOnly : bool)
  (acc : list ResourceUsage.t * bool) (resource : ResourceUsage.t)
  : list ResourceUsage.t * bool :=
  let '(toDelete, hasShared) := acc in
  let hasShared :=
    if decide (ResourceUsage.RiskLevel resource ≠ RiskLevelSafe) then true
    else hasShared in
  if exclusiveOnly
     && bool_decide (ResourceUsage.RiskLevel resource ≠ RiskLevelSafe)
  then (toDelete, hasShared)
  else (toDelete ++ [resource], hasShared).

Definition CreateDeletionPlan (worker : WorkerInfo.t)
  (resources : list ResourceUsage.t) (exclusiveOnly : bool) : DeletionPlan.t :=
  let '(toDelete, hasShared) :=
    fold_left (planStep exclusiveOnly) resources ([], false) in
  DeletionPlan.mk worker toDelete hasShared false exclusiveOnly.

Section Analyzer.
Context {R : Type} (client : api.Client R).

Definition enrichResourceName (binding : Binding.t) (currentName : string)
  : string :=
  if bool_decide (currentName ≠ EmptyString)
     && bool_decide (currentName ≠ Binding.Name binding)
  then currentName
  else if decide (Binding.Type' binding = BindingTypeKV) then
    match api.GetKVNamespaceTitle client (Binding.NamespaceID binding) with
    | Ok title => title
    | Err _ => currentName
    end
  else if decide (Binding.Type' binding = BindingTypeD1) then
    match api.GetD1DatabaseName client (Binding.DatabaseID binding) with
    | Ok name => name
    | Err _ => currentName
    end
  else currentName.

(** First loop of [AnalyzeDependencies], inner body: one binding of the
    worker called [workerName]. *)
Definition recordBinding (workerName : string)
  (resourceMap : gmap string ResourceUsage.t) (binding : Binding.t)
  : gmap string ResourceUsage.t :=
  let resourceKey := getResourceKey binding in
  if decide (resourceKey = EmptyString) then resourceMap
  else
    let resourceMap :=
      match resourceMap !! resourceKey with
      | Some _ => resourceMap
      | None =>
          <[resourceKey :=
              ResourceUsage.mk (getResourceID binding) (Binding.Type' binding)
                (getResourceName binding) [] RiskLevelSafe]> resourceMap
      end in
    alter (fun u => ResourceUsage.setUsedBy u (ResourceUsage.UsedBy u ++ [workerName]))
      resourceKey resourceMap.

(** First loop, outer body: one listed worker.  The progress callback
    only reports to the caller and is left out. *)
Definition recordWorker (resourceMap : gmap string ResourceUsage.t)
  (worker : WorkerInfo.t) : gmap string ResourceUsage.t :=
  match api.GetWorker client (WorkerInfo.Name worker) with
  | Err _ => resourceMap
  | Ok fullWorker =>
      fold_left (recordBinding (WorkerInfo.Name worker))
        (WorkerInfo.Bindings fullWorker) resourceMap
  end.

Definition buildResourceMap (allWorkers : list WorkerInfo.t)
  : gmap string ResourceUsage.t :=
  fold_left recordWorker allWorkers ∅.

(** Second loop: one binding of the target.  [usage] points into the map
    when the key is tracked, so the two assignments also update the map;
    otherwise it points to a fresh record that only the result sees. *)
Definition collectBinding (targetWorker : WorkerInfo.t)
  (st : gmap string ResourceUsage.t * list ResourceUsage.t)
  (binding : Binding.t)
  : gmap string ResourceUsage.t * list ResourceUsage.t :=
  let '(resourceMap, result) := st in
  let resourceKey := getResourceKey binding in
  if decide (resourceKey = EmptyString) then st
  else
    let found := resourceMap !! resourceKey in
    let usage :=
      match found with
      | Some usage => usage
      | None =>
          ResourceUsage.mk (getResourceID binding) (Binding.Type' binding)
            (getResourceName binding) [WorkerInfo.Name targetWorker]
            RiskLevelSafe
      end in
    let usage :=
      ResourceUsage.setResourceName usage
        (enrichResourceName binding (ResourceUsage.ResourceName usage)) in
    let usage :=
      ResourceUsage.setRiskLevel usage
        (calculateRiskLevel (ResourceUsage.UsedBy usage)
           (WorkerInfo.Name targetWorker)) in
    let resourceMap :=
      match found with
      | Some _ => <[resourceKey := usage]> resourceMap
      | None => resourceMap
      end in
    (resourceMap, result ++ [usage]).

Definition collectBindings (targetWorker : WorkerInfo.t)
  (resourceMap : gmap string ResourceUsage.t) (bindings : list Binding.t)
  : gmap string ResourceUsage.t * list ResourceUsage.t :=
  fold_left (collectBinding targetWorker) bindings (resourceMap, []).

Definition AnalyzeDependencies (targetWorker : WorkerInfo.t)
  : Result (list ResourceUsage.t) :=
  match api.ListWorkers client with
  | Err err => Err (Wrapf "failed to list workers" err)
  | Ok allWorkers =>
      Ok (collectBindings targetWorker (buildResourceMap allWorkers)
            (WorkerInfo.Bindings targetWorker)).2
  end.

End Analyzer.

End analyzer.

(** ** package deleter *)

Module deleter.

Import api.

Declare Scope remote_scope.
Delimit Scope remote_scope with remote.
Notation "x <- m ;; k" := (bind m (fun x => k))
  (at level 100, m at next level, right associativity) : remote_scope.

Record Deleter (R : Type) : Type := NewDeleter {
  client : api.Client R;
  dryRun : bool
}.
Arguments NewDeleter {R} _ _.
Arguments client {R} _.
Arguments dryRun {R} _.

(** Appends to the three slices of a result: [recordDeleted] is line 64
    (and line 38 in a dry run), [recordSkipped] line 55, [recordFailed]
    lines 60 and 61. *)
Definition recordDeleted (result : DeletionResult.t) (name : string)
  : DeletionResult.t :=
  DeletionResult.mk (DeletionResult.Success result)
    (DeletionResult.WorkerDeleted result)
    (DeletionResult.ResourcesDeleted result ++ [name])
    (DeletionResult.ResourcesSkipped result)
    (DeletionResult.Errors result).

Definition recordSkipped (result : DeletionResult.t) (name : string)
  : DeletionResult.t :=
  DeletionResult.mk (DeletionResult.Success result)
    (DeletionResult.WorkerDeleted result)
    (DeletionResult.ResourcesDeleted result)
    (DeletionResult.ResourcesSkipped result ++ [name])
    (DeletionResult.Errors result).

Definition recordFailed (result : DeletionResult.t) (err : error)
  (name : string) : DeletionResult.t :=
  DeletionResult.mk (DeletionResult.Success result)
    (DeletionResult.WorkerDeleted result)
    (DeletionResult.ResourcesDeleted result)
    (DeletionResult.ResourcesSkipped result ++ [name])
    (DeletionResult.Errors result ++ [err]).

(** [for _, x := range l { s = body(s, x) }] with remote calls in the
    body. *)
Fixpoint forEach {R A S : Type} (body : S -> A -> M R S) (l : list A) (s : S)
  : M R S :=
  match l with
  | [] => ret s
  | x :: rest => (s' <- body s x ;; forEach body rest s')%remote
  end.

Section Deleter.
Context {R : Type} (d : Deleter R).

Definition deleteResource (resource : ResourceUsage.t) : M R (option error) :=
  let ty := ResourceUsage.ResourceType resource in
  if decide (ty = BindingTypeKV) then
    DeleteKVNamespace (client d) (ResourceUsage.ResourceID resource)
  else if decide (ty = BindingTypeR2) then
    DeleteR2Bucket (client d) (ResourceUsage.ResourceID resource)
  else if decide (ty = BindingTypeD1) then
    DeleteD1Database (client d) (ResourceUsage.ResourceID resource)
  else if decide (ty = BindingTypeDurableObject) then ret None
  else if decide (ty = BindingTypeService) then ret None
  else if decide (ty = BindingTypeQueue) then ret None
  else ret (Some (Errorf ("unsupported resource type: " +:+ ty))).

(** Whether line 54 skips the resource without a call. *)
Definition skippedByPolicy (plan : DeletionPlan.t) (resource : ResourceUsage.t)
  : bool :=
  negb (DeletionPlan.DeleteShared plan)
  && bool_decide (ResourceUsage.RiskLevel resource ≠ RiskLevelSafe).

(** Body of the loop of step 2. *)
Definition executeStep (plan : DeletionPlan.t) (result : DeletionResult.t)
  (resource : ResourceUsage.t) : M R DeletionResult.t :=
  if skippedByPolicy plan resource then
    ret (recordSkipped result (ResourceUsage.ResourceName resource))
  else
    (r <- deleteResource resource ;;
     match r with
     | Some err =>
         ret (recordFailed result err (ResourceUsage.ResourceName resource))
     | None =>
         ret (recordDeleted result (ResourceUsage.ResourceName resource))
     end)%remote.

Definition Execute (plan : DeletionPlan.t)
  : M R (DeletionResult.t * option error) :=
  let result := DeletionResult.mk true false [] [] [] in
  if dryRun d then
    let result :=
      DeletionResult.mk (DeletionResult.Success result) true
        (DeletionResult.ResourcesDeleted result)
        (DeletionResult.ResourcesSkipped result)
        (DeletionResult.Errors result) in
    let result :=
      fold_left
        (fun result resource =>
           recordDeleted result (ResourceUsage.ResourceName resource))
        (DeletionPlan.ResourcesToDelete plan) result in
    ret (result, None)
  else
    (r <- DeleteWorker (client d) (WorkerInfo.Name (DeletionPlan.Worker plan)) ;;
     match r with
     | Some err =>
         ret (DeletionResult.mk false
                (DeletionResult.WorkerDeleted result)
                (DeletionResult.ResourcesDeleted result)
                (DeletionResult.ResourcesSkipped result)
                (DeletionResult.Errors result
                   ++ [Wrapf "failed to delete worker" err]),
              Some err)
     | None =>
         let result :=
           DeletionResult.mk (DeletionResult.Success result) true
             (DeletionResult.ResourcesDeleted result)
             (DeletionResult.ResourcesSkipped result)
             (DeletionResult.Errors result) in
         result <- forEach (executeStep plan)
                     (DeletionPlan.ResourcesToDelete plan) result ;;
         let result :=
           if decide (0 < Z.of_nat (length (DeletionResult.Errors result)))
           then DeletionResult.mk false
                  (DeletionResult.WorkerDeleted result)
                  (DeletionResult.ResourcesDeleted result)
                  (DeletionResult.ResourcesSkipped result)
                  (DeletionResult.Errors result)
           else result in
         ret (result, None)
     end)%remote.

End Deleter.

End deleter.

(** ** A small account to run the code on *)

Module fixtures.

Import api.

(** A field the settings endpoint did not fill in: Go's zero string. *)
Definition unset : string := EmptyString.

Definition kvBinding (name namespaceID : string) : Binding.t :=
  Binding.mk BindingTypeKV name namespaceID unset unset unset unset unset
    unset unset unset.

Definition r2Binding (name bucketName : string) : Binding.t :=
  Binding.mk BindingTypeR2 name unset bucketName unset unset unset unset
    unset unset unset.

Definition d1Binding (name databaseID : string) : Binding.t :=
  Binding.mk BindingTypeD1 name unset unset databaseID unset unset unset
    unset unset unset.

Definition doBinding (name className scriptName : string) : Binding.t :=
  Binding.mk BindingTypeDurableObject name unset unset unset unset className
    scriptName unset unset unset.

Definition serviceBinding (name scriptName : string) : Binding.t :=
  Binding.mk BindingTypeService name unset unset unset unset unset scriptName
    unset unset unset.

Definition envBinding (name : string) : Binding.t :=
  Binding.mk BindingTypeEnvVar name unset unset unset unset unset unset
    unset unset unset.

Definition secretBinding (name : string) : Binding.t :=
  Binding.mk BindingTypeSecret name unset unset unset unset unset unset
    unset unset unset.

Definition worker (name : string) (bindings : list Binding.t) : WorkerInfo.t :=
  WorkerInfo.mk name "acct" 0 0 bindings.

Fixpoint bindingsOf (name : string) (scripts : list (string * list Binding.t))
  : Result (list Binding.t) :=
  match scripts with
  | [] => Err RemoteNotFound
  | (n, bs) :: rest => if decide (n = name) then Ok bs else bindingsOf name rest
  end.

(** An account given by its scripts and their bindings.  Its state is the
    list of items that still exist: deleting an item in [locked] is
    refused, deleting an existing item removes it, deleting an absent one
    is answered with not-found. *)
Definition account (scripts : list (string * list Binding.t))
  (locked : list Call) : Client (list Call) :=
  Build_Client _
    (Build_Cloudflare _
       (Ok (map (fun s => Build_WorkerMetaData s.1 0 0) scripts))
       (fun name => bindingsOf name scripts)
       (Ok [("ns-1", "sessions")])
       (Ok [("db-7", "ledger")])
       (fun call present =>
          if decide (call ∈ locked) then (Some (RemoteError "locked"), present)
          else if decide (call ∈ present)
               then (None, filter (fun c => c ≠ call) present)
               else (Some RemoteNotFound, present)))
    "acct".

(** An account whose scripts exist but whose resources are all gone:
    deleting a script succeeds, deleting anything else is answered with
    not-found. *)
Definition leftover (scripts : list (string * list Binding.t)) : Client unit :=
  Build_Client _
    (Build_Cloudflare _
       (Ok (map (fun s => Build_WorkerMetaData s.1 0 0) scripts))
       (fun name => bindingsOf name scripts)
       (Ok [])
       (Ok [])
       (fun call s =>
          match call with
          | CallDeleteWorker _ => (None, s)
          | _ => (Some RemoteNotFound, s)
          end))
    "acct".

(** The scenario of the design notes: [billing-svc] uses a namespace it
    shares with [reports-svc] and a database of its own. *)
Definition billing : WorkerInfo.t :=
  worker "billing-svc" [kvBinding "SESSIONS" "ns-1"; d1Binding "DB" "db-7"].

Definition billingScripts : list (string * list Binding.t) :=
  [("billing-svc", WorkerInfo.Bindings billing);
   ("reports-svc", [kvBinding "KV" "ns-1"])].

Definition billingItems : list Call :=
  [CallDeleteWorker "billing-svc"; CallDeleteKVNamespace "ns-1";
   CallDeleteD1Database "db-7"].

(** A target that reaches one namespace through two bindings. *)
Definition twice : WorkerInfo.t :=
  worker "twice" [kvBinding "A" "ns-2"; envBinding "MODE"; kvBinding "B" "ns-2"].

Definition twiceScripts : list (string * list Binding.t) :=
  [("twice", WorkerInfo.Bindings twice)].

(** One other worker that reaches the target's namespace through three
    bindings. *)
Definition solo : WorkerInfo.t := worker "solo" [kvBinding "KV" "ns-3"].

Definition soloScripts : list (string * list Binding.t) :=
  [("solo", WorkerInfo.Bindings solo);
   ("fan", [kvBinding "X" "ns-3"; kvBinding "Y" "ns-3"; kvBinding "Z" "ns-3"])].

(** A worker with a stateful-object class, a service link and two plain
    values. *)
Definition chat : WorkerInfo.t :=
  worker "chat"
    [doBinding "ROOM" "Room" "chat"; serviceBinding "AUTH" "auth-svc";
     envBinding "MODE"; secretBinding "TOKEN"].

Definition chatScripts : list (string * list Binding.t) :=
  [("chat", WorkerInfo.Bindings chat); ("auth-svc", [])].

(** A target the listing of the account does not show. *)
Definition orphan : WorkerInfo.t :=
  worker "orphan" [envBinding "MODE"; d1Binding "DB" "db-9"].

End fixtures.

(** ** The classifier as the design document words it

    "Count distinct worker names in the usage set that are not equal to
    the target worker name. 0 → Safe, 1–2 → Caution, ≥3 → Danger." *)

Definition distinctOthers (usageSet : list string) (target : string) : nat :=
  length (remove_dups (filter (fun w => w ≠ target) usageSet)).

Definition classifyDistinct (usageSet : list string) (target : string)
  : RiskLevel :=
  match distinctOthers usageSet target with
  | O => RiskLevelSafe
  | 1%nat | 2%nat => RiskLevelCaution
  | _ => RiskLevelDanger
  end.

(** ** What the executor does with each planned resource *)

Inductive Outcome : Type :=
| Removed
| Kept
| Failed (err : error).

Definition isRemoved (o : Outcome) : bool :=
  match o with Removed => true | _ => false end.

Definition isSkipped (o : Outcome) : bool :=
  match o with Removed => false | _ => true end.

Definition failure (o : Outcome) : option error :=
  match o with Failed err => Some err | _ => None end.

(** Names of the resources whose outcome satisfies [keep], in plan
    order. *)
Definition namesWhere (keep : Outcome -> bool)
  (trace : list (ResourceUsage.t * Outcome)) : list string :=
  map (fun ro => ResourceUsage.ResourceName ro.1)
      (filter (fun ro => keep ro.2 = true) trace).

Definition failures (trace : list (ResourceUsage.t * Outcome)) : list error :=
  omap (fun ro => failure ro.2) trace.

(** A result extended with the outcomes of a run of attempts. *)
Definition extend (result : DeletionResult.t)
  (trace : list (ResourceUsage.t * Outcome)) : DeletionResult.t :=
  DeletionResult.mk (DeletionResult.Success result)
    (DeletionResult.WorkerDeleted result)
    (DeletionResult.ResourcesDeleted result ++ namesWhere isRemoved trace)
    (DeletionResult.ResourcesSkipped result ++ namesWhere isSkipped trace)
    (DeletionResult.Errors result ++ failures trace).

Section Trace.
Context {R : Type} (d : deleter.Deleter R) (plan : DeletionPlan.t).

(** The fate of one resource in the account as it stands: kept by policy
    without a call, or removed or failed according to its own delete. *)
Definition attempt (resource : ResourceUsage.t) : api.M R Outcome :=
  if deleter.skippedByPolicy plan resource then api.ret Kept
  else
    api.bind (deleter.deleteResource d resource) (fun r =>
      api.ret (match r with Some err => Failed err | None => Removed end)).

(** One independent attempt per resource, in order. *)
Fixpoint attempts (resources : list ResourceUsage.t)
  : api.M R (list (ResourceUsage.t * Outcome)) :=
  match resources with
  | [] => api.ret []
  | resource :: rest =>
      api.bind (attempt resource) (fun o =>
        api.bind (attempts rest) (fun os => api.ret ((resource, o) :: os)))
  end.

End Trace.

(** The delete endpoint behind a resource or a binding, if its kind has
    one. *)
Definition callOf (ty : BindingType) (id : string) : option api.Call :=
  if decide (ty = BindingTypeKV) then Some (api.CallDeleteKVNamespace id)
  else if decide (ty = BindingTypeR2) then Some (api.CallDeleteR2Bucket id)
  else if decide (ty = BindingTypeD1) then Some (api.CallDeleteD1Database id)
  else None.

Definition usageCall (u : ResourceUsage.t) : option api.Call :=
  callOf (ResourceUsage.ResourceType u) (ResourceUsage.ResourceID u).

(** The calls a run of attempts issues: one per resource that is not
    kept by policy and whose kind has a delete endpoint. *)
Definition issued (plan : DeletionPlan.t) (resource : ResourceUsage.t)
  : option api.Call :=
  if deleter.skippedByPolicy plan resource then None else usageCall resource.

(** The message each delete wrapper of the client puts before the SDK's
    error. *)
Definition failureMessage (call : api.Call) : string :=
  match call with
  | api.CallDeleteWorker _ => "failed to delete worker"
  | api.CallDeleteKVNamespace _ => "failed to delete KV namespace"
  | api.CallDeleteR2Bucket _ => "failed to delete R2 bucket"
  | api.CallDeleteD1Database _ => "failed to delete D1 database"
  end.

Definition bindingCall (b : Binding.t) : option api.Call :=
  callOf (Binding.Type' b) (analyzer.getResourceID b).

(** The bindings both loops of the analysis look at. *)
Definition hasKey (b : Binding.t) : Prop :=
  analyzer.getResourceKey b ≠ EmptyString.

#[global] Instance hasKey_dec (b : Binding.t) : Decision (hasKey b).
Proof. unfold hasKey. apply _. Defined.

(** An entry stands for a binding when it has the binding's kind and the
    same delete endpoint. *)
Definition describes (b : Binding.t) (u : ResourceUsage.t) : Prop :=
  ResourceUsage.ResourceType u = Binding.Type' b
  ∧ usageCall u = bindingCall b.

(** Every entry of the index sits under the non-empty key of a binding
    it stands for. *)
Definition tracked (resourceMap : gmap string ResourceUsage.t) : Prop :=
  ∀ k u, resourceMap !! k = Some u →
    k ≠ EmptyString ∧ ∃ b, analyzer.getResourceKey b = k ∧ describes b u.

(** The kinds [getResourceKey] has a case for. *)
Definition keyedKinds : list BindingType :=
  [BindingTypeKV; BindingTypeR2; BindingTypeD1; BindingTypeDurableObject;
   BindingTypeService; BindingTypeQueue].

(** ** package views: the helpers of the plan display *)

Module views.

(** [getOtherWorkers]: the entries of [usedBy] other than the current
    worker, in order. *)
Definition getOtherWorkers (usedBy : list string) (currentWorker : string)
  : list string :=
  fold_left
    (fun others worker =>
       if decide (worker ≠ currentWorker) then others ++ [worker] else others)
    usedBy [].

(** [countSharedResources]: the count stays below [len(resources)]. *)
Definition countSharedResources (resources : list ResourceUsage.t) : Z :=
  fold_left
    (fun count resource =>
       if decide (ResourceUsage.RiskLevel resource ≠ RiskLevelSafe)
       then count + 1 else count)
    resources 0.

(** [groupResourcesByType]: [append] to the slice stored under the
    resource's type, a missing key reading as the nil slice. *)
Definition groupResourcesByType (resources : list ResourceUsage.t)
  : gmap string (list ResourceUsage.t) :=
  fold_left
    (fun grouped resource =>
       <[ResourceUsage.ResourceType resource :=
           default [] (grouped !! ResourceUsage.ResourceType resource)
             ++ [resource]]> grouped)
    resources ∅.

End views.

(** ** package deleter: deleting the script alone *)

Definition DeleteWorkerOnly {R : Type} (d : deleter.Deleter R)
  (workerName : string) : api.M R (option error) :=
  if deleter.dryRun d then api.ret None
  else api.DeleteWorker (deleter.client d) workerName.

(** ** The scan of the account, binding by binding *)

Section Scan.
Context {R : Type} (client : api.Client R).

(** The bindings the first loop of [AnalyzeDependencies] reads for a
    listed worker: none when the worker cannot be read. *)
Definition bindingsSeen (worker : WorkerInfo.t) : list Binding.t :=
  match api.GetWorker client (WorkerInfo.Name worker) with
  | Ok fullWorker => WorkerInfo.Bindings fullWorker
  | Err _ => []
  end.

(** Every binding the first loop visits, with the name of the worker it
    is visited for, in the order of the visits. *)
Definition sightings (allWorkers : list WorkerInfo.t)
  : list (string * Binding.t) :=
  flat_map
    (fun worker => map (pair (WorkerInfo.Name worker)) (bindingsSeen worker))
    allWorkers.

End Scan.

(** The sightings of one key. *)
Definition sightingsOf (k : string) (seen : list (string * Binding.t))
  : list (string * Binding.t) :=
  filter (fun nb => analyzer.getResourceKey nb.2 = k) seen.

(** The index entry a list of sightings amounts to under key [k]:
    described by the first binding sighted, used by the worker of every
    sighting. *)
Definition indexEntry (k : string) (seen : list (string * Binding.t))
  : option ResourceUsage.t :=
  if decide (k = EmptyString) then None
  else
    match sightingsOf k seen with
    | [] => None
    | (_, b0) :: _ =>
        Some (ResourceUsage.mk (analyzer.getResourceID b0) (Binding.Type' b0)
                (analyzer.getResourceName b0)
                (map fst (sightingsOf k seen)) RiskLevelSafe)
    end.

(** The usage list the analysis reports for a binding of the target
    under key [k]. *)
Definition usersOf (k : string) (seen : list (string * Binding.t))
  (targetName : string) : list string :=
  match sightingsOf k seen with
  | [] => [targetName]
  | l => map fst l
  end.

(** Two index entries agree on what the second loop does not write. *)
Definition sameCore (u u' : ResourceUsage.t) : Prop :=
  ResourceUsage.ResourceID u = ResourceUsage.ResourceID u'
  ∧ ResourceUsage.ResourceType u = ResourceUsage.ResourceType u'
  ∧ ResourceUsage.UsedBy u = ResourceUsage.UsedBy u'.

(** Two maps with the same keys whose entries agree in that way. *)
Definition agreeCore (m0 m : gmap string ResourceUsage.t) : Prop :=
  ∀ k, match m0 !! k, m !! k with
       | Some u, Some u' => sameCore u u'
       | None, None => True
       | _, _ => False
       end.

(** The key of the resource a delete endpoint removes. *)
Definition keyOfCall (call : api.Call) : string :=
  match call with
  | api.CallDeleteWorker _ => EmptyString
  | api.CallDeleteKVNamespace id => "kv:" +:+ id
  | api.CallDeleteR2Bucket name => "r2:" +:+ name
  | api.CallDeleteD1Database id => "d1:" +:+ id
  end.

(** The group of one type in a list of resources, as a map entry. *)
Definition groupOf (ty : string) (resources : list ResourceUsage.t)
  : option (list ResourceUsage.t) :=
  match filter (fun u => ResourceUsage.ResourceType u = ty) resources with
  | [] => None
  | l => Some l
  end.

(** ** package api: parsing the settings endpoint, choosing the account *)

Module settings.

(** A value decoded from JSON into [interface{}]; the type assertion
    [.(string)] succeeds on [VString] and fails on everything else. *)
Inductive Value : Type :=
| VString (s : string)
| VOther.

(** [raw[field].(string)]: the string under [field], if there is one. *)
Definition stringField (raw : gmap string Value) (field : string)
  : option string :=
  match raw !! field with
  | Some (VString s) => Some s
  | _ => None
  end.

(** [parseBinding]: [nil] without a string ["type"]; otherwise the
    binding starts from its name and type, and the case of its type
    fills in the fields found as strings. *)
Definition parseBinding (raw : gmap string Value) : option Binding.t :=
  match stringField raw "type" with
  | None => None
  | Some bindingType =>
      let name := default EmptyString (stringField raw "name") in
      let field f := default EmptyString (stringField raw f) in
      let z := EmptyString in
      Some
        (if decide (bindingType = "kv_namespace") then
           Binding.mk bindingType name (field "namespace_id") z z z z z z z z
         else if decide (bindingType = "r2_bucket") then
           Binding.mk bindingType name z (field "bucket_name") z z z z z z z
         else if decide (bindingType = "d1") then
           Binding.mk bindingType name z z (field "id") z z z z z z
         else if decide (bindingType = "durable_object_namespace") then
           Binding.mk bindingType name z z z z (field "class_name")
             (field "script_name") z z z
         else if decide (bindingType = "service") then
           Binding.mk bindingType name z z z z z (field "service") z z z
         else if decide (bindingType = "queue") then
           Binding.mk bindingType name z z z z z z (field "queue_name") z z
         else if decide (bindingType = "plain_text") then
           Binding.mk BindingTypeEnvVar name z z z z z z z z z
         else if decide (bindingType = "secret_text") then
           Binding.mk BindingTypeSecret name z z z z z z z z z
         else Binding.mk bindingType name z z z z z z z z z)
  end.

(** The last loop of [GetWorkerBindings]: the parsed bindings, the raw
    entries without a type dropped. *)
Definition parseBindings (raws : list (gmap string Value)) : list Binding.t :=
  fold_left
    (fun bindings b =>
       match parseBinding b with
       | Some binding => bindings ++ [binding]
       | None => bindings
       end)
    raws [].

(** An account as [cf.Accounts] lists it. *)
Record Account : Type := { accountIdentifier : string }.

(** [GetAccountID], given the answer of [cf.Accounts] should it be
    asked for; the client comes back with the ID it has adopted. *)
Definition GetAccountID {R : Type} (c : api.Client R)
  (listed : Result (list Account)) : Result string * api.Client R :=
  if decide (api.accountID c ≠ EmptyString) then (Ok (api.accountID c), c)
  else
    match listed with
    | Err err => (Err (Wrapf "failed to list accounts" err), c)
    | Ok accounts =>
        match accounts with
        | [] => (Err (Errorf "no accounts found"), c)
        | [account] =>
            let c' := api.Build_Client R (api.cf c) (accountIdentifier account) in
            (Ok (api.accountID c'), c')
        | _ =>
            (Err (Errorf "multiple accounts found, please specify --account-id"),
             c)
        end
    end.

End settings.

(** ** types.Config *)

Module Config.
Record t : Type := mk {
  APIKey : string;
  AccountID : string;
  DryRun : bool;
  Force : bool;
  ExclusiveOnly : bool;
  AutoYes : bool;
  Verbose : bool;
  Quiet : bool;
  JSONOutput : bool;
  SkipDependencyCheck : bool
}.
End Config.

(** ** package models: the interactive session *)

Module models.

Inductive sessionState : Type :=
| stateLoading
| stateConfirmDependencyCheck
| stateAnalyzing
| stateShowPlan
| stateConfirmDeletion
| stateConfirmShared
| stateDeleting
| stateComplete
| stateError.

#[global] Instance sessionState_eq_dec : EqDecision sessionState.
Proof. solve_decision. Defined.

(** The messages [Update] receives.  A key message is given by
    [msg.String()].  A poll message carries what the progress tracker
    holds when [Update] reads it.  [otherMsg] is any message [Update]
    has no case for. *)
Inductive Msg : Type :=
| KeyMsg (key : string)
| TickMsg
| progressPollMsg (current total : Z) (workerName : string)
| analysisCompleteMsg (plan : DeletionPlan.t)
| analysisErrorMsg (err : error)
| deletionCompleteMsg (result : DeletionResult.t)
| deletionErrorMsg (err : error)
| otherMsg.

(** The commands [Update] hands back: [cmdSpinner] is the spinner's own
    command, [cmdPoll] is [pollProgress], [cmdAnalyze] the batch that
    runs [runAnalysis] for a model with that [skipDependencyCheck], and
    [cmdDelete] the batch that runs [Execute] on the model's plan. *)
Inductive Cmd : Type :=
| cmdNil
| cmdQuit
| cmdSpinner
| cmdPoll
| cmdAnalyze (skipDependencyCheck : bool)
| cmdDelete (plan : option DeletionPlan.t).

(** What an analysis returns: [([]types.ResourceUsage, error)]. *)
Definition Analysed : Type := Result (list ResourceUsage.t).

(** The function of [runAnalysis], for the worker, configuration and
    [skipDependencyCheck] of the model it is started from.
    [GetTargetWorkerResources] is taken as given. *)
Definition analysisMsg {R : Type} (client : api.Client R)
  (GetTargetWorkerResources : WorkerInfo.t -> Analysed)
  (worker : WorkerInfo.t) (config : Config.t) (skipDependencyCheck : bool)
  : Msg :=
  let analysed :=
    if skipDependencyCheck then GetTargetWorkerResources worker
    else analyzer.AnalyzeDependencies client worker in
  match analysed with
  | Err err => analysisErrorMsg err
  | Ok resources =>
      analysisCompleteMsg
        (analyzer.CreateDeletionPlan worker resources
           (Config.ExclusiveOnly config))
  end.

(** The function of [startDeletion], for the plan of the model it is
    started from. *)
Definition deletionMsg {R : Type} (d : deleter.Deleter R)
  (plan : DeletionPlan.t) : api.M R Msg :=
  api.bind (deleter.Execute d plan) (fun r =>
    api.ret (match r.2 with
             | Some err => deletionErrorMsg err
             | None => deletionCompleteMsg r.1
             end)).

(** The model, without the spinner and the handles of the analyzer and
    the deleter; [tracked] says whether [progressTracker] is non-nil. *)
Record Model : Type := mkModel {
  state : sessionState;
  worker : WorkerInfo.t;
  plan : option DeletionPlan.t;
  Result : option DeletionResult.t;
  Err : option error;
  message : string;
  config : Config.t;
  confirmDeletion : bool;
  confirmShared : bool;
  skipShared : bool;
  skipDependencyCheck : bool;
  analysisProgress : Z;
  analysisTotal : Z;
  analysisWorker : string;
  tracked : bool
}.

Definition setState (m : Model) (s : sessionState) : Model :=
  mkModel s (worker m) (plan m) (Result m) (Err m) (message m) (config m)
    (confirmDeletion m) (confirmShared m) (skipShared m)
    (skipDependencyCheck m) (analysisProgress m) (analysisTotal m)
    (analysisWorker m) (tracked m).

Definition setPlan (m : Model) (p : option DeletionPlan.t) : Model :=
  mkModel (state m) (worker m) p (Result m) (Err m) (message m) (config m)
    (confirmDeletion m) (confirmShared m) (skipShared m)
    (skipDependencyCheck m) (analysisProgress m) (analysisTotal m)
    (analysisWorker m) (tracked m).

Definition setResult (m : Model) (r : option DeletionResult.t) : Model :=
  mkModel (state m) (worker m) (plan m) r (Err m) (message m) (config m)
    (confirmDeletion m) (confirmShared m) (skipShared m)
    (skipDependencyCheck m) (analysisProgress m) (analysisTotal m)
    (analysisWorker m) (tracked m).

Definition setErr (m : Model) (e : option error) : Model :=
  mkModel (state m) (worker m) (plan m) (Result m) e (message m) (config m)
    (confirmDeletion m) (confirmShared m) (skipShared m)
    (skipDependencyCheck m) (analysisProgress m) (analysisTotal m)
    (analysisWorker m) (tracked m).

Definition setSkipShared (m : Model) (b : bool) : Model :=
  mkModel (state m) (worker m) (plan m) (Result m) (Err m) (message m)
    (config m) (confirmDeletion m) (confirmShared m) b
    (skipDependencyCheck m) (analysisProgress m) (analysisTotal m)
    (analysisWorker m) (tracked m).

Definition setSkipDependencyCheck (m : Model) (b : bool) : Model :=
  mkModel (state m) (worker m) (plan m) (Result m) (Err m) (message m)
    (config m) (confirmDeletion m) (confirmShared m) (skipShared m) b
    (analysisProgress m) (analysisTotal m) (analysisWorker m) (tracked m).

Definition setProgress (m : Model) (current total : Z) (workerName : string)
  : Model :=
  mkModel (state m) (worker m) (plan m) (Result m) (Err m) (message m)
    (config m) (confirmDeletion m) (confirmShared m) (skipShared m)
    (skipDependencyCheck m) current total workerName (tracked m).

Definition NewModel (worker : WorkerInfo.t) (plan : option DeletionPlan.t)
  (config : Config.t) : Model :=
  mkModel stateShowPlan worker plan None None EmptyString config false false
    false false 0 0 EmptyString false.

Definition NewModelWithAnalysis (worker : WorkerInfo.t) (config : Config.t)
  : Model :=
  mkModel
    (if Config.SkipDependencyCheck config then stateAnalyzing
     else stateConfirmDependencyCheck)
    worker None None None EmptyString config false false false
    (Config.SkipDependencyCheck config) 0 0 EmptyString true.

Definition Init (m : Model) : Cmd :=
  if decide (state m = stateAnalyzing) then cmdAnalyze (skipDependencyCheck m)
  else cmdSpinner.

Definition runAnalysis {R : Type} (client : api.Client R)
  (GetTargetWorkerResources : WorkerInfo.t -> Analysed) (m : Model) : Msg :=
  analysisMsg client GetTargetWorkerResources (worker m) (config m)
    (skipDependencyCheck m).

(** The keys that answer yes. *)
Definition yesKeys : list string := ["y"; "Y"; "enter"].

Definition startDeletion (m : Model) : Model * Cmd :=
  let m := setState m stateDeleting in
  (m, cmdDelete (plan m)).

Definition handleConfirmDependencyCheckKeyPress (m : Model) (key : string)
  : Model * Cmd :=
  if bool_decide (key ∈ ["ctrl+c"; "q"; "esc"]) then (m, cmdQuit)
  else if bool_decide (key ∈ ["n"; "N"]) then
    let m := setState (setSkipDependencyCheck m true) stateAnalyzing in
    (m, cmdAnalyze (skipDependencyCheck m))
  else if bool_decide (key ∈ yesKeys) then
    let m := setState (setSkipDependencyCheck m false) stateAnalyzing in
    (m, cmdAnalyze (skipDependencyCheck m))
  else (m, cmdNil).

Definition handlePlanKeyPress (m : Model) (key : string) : Model * Cmd :=
  if bool_decide (key ∈ ["ctrl+c"; "q"; "esc"; "n"; "N"]) then (m, cmdQuit)
  else if bool_decide (key ∈ yesKeys) then
    if Config.AutoYes (config m) then startDeletion m
    else (setState m stateConfirmDeletion, cmdNil)
  else (m, cmdNil).

(** The two handlers that go through [m.plan]: [None] is the nil
    dereference. *)
Definition handleConfirmDeletionKeyPress (m : Model) (key : string)
  : option (Model * Cmd) :=
  if bool_decide (key ∈ ["ctrl+c"; "q"; "esc"; "n"; "N"]) then Some (m, cmdQuit)
  else if bool_decide (key ∈ yesKeys) then
    match plan m with
    | None => None
    | Some p =>
        if DeletionPlan.HasSharedResources p
           && negb (Config.ExclusiveOnly (config m))
        then Some (setState m stateConfirmShared, cmdNil)
        else Some (startDeletion m)
    end
  else Some (m, cmdNil).

Definition handleConfirmSharedKeyPress (m : Model) (key : string)
  : option (Model * Cmd) :=
  if bool_decide (key ∈ ["ctrl+c"; "q"; "esc"]) then Some (m, cmdQuit)
  else if bool_decide (key ∈ ["n"; "N"]) then
    match plan m with
    | None => None
    | Some p =>
        let m := setSkipShared m true in
        let m := setPlan m (Some (DeletionPlan.setDeleteShared p false)) in
        Some (startDeletion m)
    end
  else if bool_decide (key ∈ yesKeys) then
    match plan m with
    | None => None
    | Some p =>
        let m := setPlan m (Some (DeletionPlan.setDeleteShared p true)) in
        Some (startDeletion m)
    end
  else Some (m, cmdNil).

Definition handleKeyPress (m : Model) (key : string) : option (Model * Cmd) :=
  if bool_decide (state m = stateDeleting)
     || bool_decide (state m = stateAnalyzing)
  then Some (m, cmdNil)
  else
    match state m with
    | stateConfirmDependencyCheck =>
        Some (handleConfirmDependencyCheckKeyPress m key)
    | stateShowPlan => Some (handlePlanKeyPress m key)
    | stateConfirmDeletion => handleConfirmDeletionKeyPress m key
    | stateConfirmShared => handleConfirmSharedKeyPress m key
    | _ =>
        if bool_decide (key ∈ ["ctrl+c"; "q"]) then Some (m, cmdQuit)
        else Some (m, cmdNil)
    end.

Definition isQuit (cmd : Cmd) : bool :=
  match cmd with
  | cmdQuit => true
  | _ => false
  end.

Definition Update (m : Model) (msg : Msg) : option (Model * Cmd) :=
  match msg with
  | KeyMsg key => handleKeyPress m key
  | TickMsg =>
      if bool_decide (state m = stateAnalyzing)
         || bool_decide (state m = stateDeleting)
      then Some (m, cmdSpinner)
      else Some (m, cmdNil)
  | progressPollMsg current total workerName =>
      if bool_decide (state m = stateAnalyzing) && tracked m
      then Some (setProgress m current total workerName, cmdPoll)
      else Some (m, cmdNil)
  | analysisCompleteMsg p =>
      Some (setState (setPlan m (Some p)) stateShowPlan, cmdNil)
  | analysisErrorMsg err =>
      Some (setErr (setState m stateError) (Some err), cmdQuit)
  | deletionCompleteMsg result =>
      Some (setResult (setState m stateComplete) (Some result), cmdQuit)
  | deletionErrorMsg err =>
      Some (setErr (setState m stateError) (Some err), cmdQuit)
  | otherMsg => Some (m, cmdNil)
  end.

(** The session fed with messages one after the other until the program
    is told to quit: the final model and the commands issued, or [None]
    when an [Update] dereferences a nil plan. *)
Fixpoint feed (msgs : list Msg) (m : Model) : option (Model * list Cmd) :=
  match msgs with
  | [] => Some (m, [])
  | msg :: rest =>
      match Update m msg with
      | None => None
      | Some (m', cmd) =>
          if isQuit cmd then Some (m', [cmd])
          else
            match feed rest m' with
            | None => None
            | Some (m'', cmds) => Some (m'', cmd :: cmds)
            end
      end
  end.

End models.

(** The plan is at hand in every state that shows or uses it. *)
Definition planAtHand (m : models.Model) : Prop :=
  match models.state m with
  | models.stateShowPlan | models.stateConfirmDeletion
  | models.stateConfirmShared | models.stateDeleting =>
      is_Some (models.plan m)
  | _ => True
  end.

(** How many of the keys answer yes. *)
Definition confirmations (keys : list string) : nat :=
  length (filter (fun key => key ∈ models.yesKeys) keys).

(** The confirmations a state of the dialogue has behind it. *)
Definition confirmed (s : models.sessionState) : nat :=
  match s with
  | models.stateConfirmDeletion => 1
  | models.stateConfirmShared => 2
  | _ => 0
  end%nat.

(** The dialogue about plan [p0]: the model holds [p0] up to
    [DeleteShared], still as built while the question about shared
    resources has not been put, and that question is put only for a plan
    with shared resources outside exclusive-only mode. *)
Definition inDialogue (p0 : DeletionPlan.t) (m : models.Model) : Prop :=
  Config.AutoYes (models.config m) = false
  ∧ match models.state m with
    | models.stateShowPlan | models.stateConfirmDeletion =>
        models.plan m = Some p0
    | models.stateConfirmShared =>
        models.plan m = Some p0
        ∧ DeletionPlan.HasSharedResources p0 = true
        ∧ Config.ExclusiveOnly (models.config m) = false
    | models.stateDeleting => True
    | _ => False
    end.

(** ** package cmd: the command itself *)

Module cmd.

(** How [run] ends: with an error handed to the caller, with nil after
    the interactive session ended on a final model, with what
    [outputJSON] returns for the plan (nil, after a notice), after
    showing the plan of a dry run, by [os.Exit(1)] on a result without
    success, or normally after showing a successful result. *)
Inductive Outcome : Type :=
| failed (err : error)
| sessionEnded (finalModel : models.Model)
| jsonOutput (plan : DeletionPlan.t)
| showedPlan (plan : DeletionPlan.t)
| exited (result : DeletionResult.t)
| completed (result : DeletionResult.t).

(** [tea.NewProgram(m).Run()]: the Bubble Tea runtime on a model.  It
    reads the keyboard, runs the commands of the session against the
    account, and hands back the final model or an error of its own. *)
Definition Program (R : Type) : Type :=
  models.Model -> api.M R (Result models.Model).

(** The test that opens the interactive session. *)
Definition isInteractive (config : Config.t) : bool :=
  negb (Config.Force config) && negb (Config.AutoYes config)
  && negb (Config.DryRun config) && negb (Config.JSONOutput config).

(** The deletion flags of the non-interactive mode. *)
Definition setDeletionFlags (config : Config.t) (plan : DeletionPlan.t)
  : DeletionPlan.t :=
  if Config.ExclusiveOnly config then DeletionPlan.setDeleteShared plan false
  else if Config.Force config || Config.AutoYes config
       then DeletionPlan.setDeleteShared plan true
       else plan.

(** [run] from the point where the client and the account are settled,
    without what it prints.  In interactive mode the session runs in
    the runtime [program], and [run] only looks at the final model. *)
Definition run {R : Type} (client : api.Client R) (program : Program R)
  (config : Config.t) (workerName : string) : api.M R Outcome :=
  match api.GetWorker client workerName with
  | Err err => api.ret (failed (Wrapf "failed to get worker" err))
  | Ok worker =>
      let d := deleter.NewDeleter client (Config.DryRun config) in
      if isInteractive config then
        api.bind (program (models.NewModelWithAnalysis worker config))
          (fun r =>
             match r with
             | Err err => api.ret (failed (Wrapf "UI error" err))
             | Ok m =>
                 match models.Err m with
                 | Some err =>
                     api.ret (failed (Wrapf "deletion failed" err))
                 | None =>
                     match models.Result m with
                     | Some result =>
                         if DeletionResult.Success result
                         then api.ret (sessionEnded m)
                         else api.ret (exited result)
                     | None => api.ret (sessionEnded m)
                     end
                 end
             end)
      else
        match analyzer.AnalyzeDependencies client worker with
        | Err err =>
            api.ret (failed (Wrapf "failed to analyze dependencies" err))
        | Ok resources =>
            let plan :=
              analyzer.CreateDeletionPlan worker resources
                (Config.ExclusiveOnly config) in
            if Config.JSONOutput config then api.ret (jsonOutput plan)
            else if Config.DryRun config then api.ret (showedPlan plan)
            else
              let plan := setDeletionFlags config plan in
              api.bind (deleter.Execute d plan) (fun r =>
                match r.2 with
                | Some err => api.ret (failed (Wrapf "deletion failed" err))
                | None =>
                    if DeletionResult.Success r.1
                    then api.ret (completed r.1)
                    else api.ret (exited r.1)
                end)
        end
  end.

End cmd.

(** * Properties *)

Import api analyzer deleter.

Arguments collectBinding : simpl never.
Arguments collectBindings : simpl never.

(** ** The classifier *)

Section Classifier.
Variable target : string.

Lemma countOthers_fold_shift (usedBy : list string) (n : Z) :
  fold_left
    (fun otherCount worker =>
       if decide (worker ≠ target) then otherCount + 1 else otherCount)
    usedBy n
  = n + countOthers target usedBy.
Proof.
  unfold countOthers. revert n.
  induction usedBy as [|w usedBy IH]; intros n; simpl.
  - lia.
  - rewrite (IH (if decide (w ≠ target) then n + 1 else n)).
    rewrite (IH (if decide (w ≠ target) then 0 + 1 else 0)).
    destruct (decide (w ≠ target)); lia.
Qed.

Lemma countOthers_nil : countOthers target [] = 0.
Proof. reflexivity. Qed.

Lemma countOthers_cons (w : string) (usedBy : list string) :
  countOthers target (w :: usedBy)
  = (if decide (w ≠ target) then 1 else 0) + countOthers target usedBy.
Proof.
  unfold countOthers at 1. simpl. rewrite countOthers_fold_shift.
  destruct (decide (w ≠ target)); lia.
Qed.

Lemma countOthers_app (l1 l2 : list string) :
  countOthers target (l1 ++ l2) = countOthers target l1 + countOthers target l2.
Proof.
  induction l1 as [|w l1 IH]; simpl.
  - rewrite countOthers_nil. lia.
  - rewrite !countOthers_cons, IH. lia.
Qed.

Lemma countOthers_nonneg (usedBy : list string) : 0 <= countOthers target usedBy.
Proof.
  induction usedBy as [|w usedBy IH].
  - rewrite countOthers_nil. lia.
  - rewrite countOthers_cons. destruct (decide (w ≠ target)); lia.
Qed.

Lemma countOthers_filter_le (P : string -> Prop) `{!∀ w, Decision (P w)}
  (usedBy : list string) :
  countOthers target (filter P usedBy) <= countOthers target usedBy.
Proof.
  induction usedBy as [|w usedBy IH]; [done|].
  rewrite filter_cons. destruct (decide (P w)).
  - rewrite !countOthers_cons. lia.
  - rewrite countOthers_cons. destruct (decide (w ≠ target)); lia.
Qed.

(** The count is the number of entries other than the target, repeated
    names included. *)
Lemma countOthers_length (usedBy : list string) :
  countOthers target usedBy
  = Z.of_nat (length (filter (fun w => w ≠ target) usedBy)).
Proof.
  induction usedBy as [|w usedBy IH]; [done|].
  rewrite countOthers_cons, filter_cons, IH.
  destruct (decide (w ≠ target)); simpl; lia.
Qed.

Lemma countOthers_target_only (usedBy : list string) :
  Forall (fun w => w = target) usedBy → countOthers target usedBy = 0.
Proof.
  induction 1 as [|w usedBy Hw _ IH]; [done|].
  rewrite countOthers_cons, IH. destruct (decide (w ≠ target)); [done | lia].
Qed.

End Classifier.

Lemma risk_of_count_mono (l1 l2 : list string) (target : string) :
  countOthers target l1 <= countOthers target l2 →
  risk_le (calculateRiskLevel l1 target) (calculateRiskLevel l2 target).
Proof.
  intros H. pose proof (countOthers_nonneg target l1).
  unfold risk_le, calculateRiskLevel.
  repeat case_decide; simpl; lia.
Qed.

(** C9.  Classification is monotonic in the usage set: appending a worker
    name other than the target never lowers the level; removing one
    occurrence of such a name, or every occurrence of it, never raises
    the level. *)
Theorem calculateRiskLevel_monotonic (usedBy : list string) (w target : string) :
  w ≠ target →
  risk_le (calculateRiskLevel usedBy target)
          (calculateRiskLevel (usedBy ++ [w]) target)
  ∧ (∀ l1 l2, usedBy = l1 ++ w :: l2 →
       risk_le (calculateRiskLevel (l1 ++ l2) target)
               (calculateRiskLevel usedBy target))
  ∧ risk_le (calculateRiskLevel (filter (fun x => x ≠ w) usedBy) target)
            (calculateRiskLevel usedBy target).
Proof.
  intros Hw. repeat split.
  - apply risk_of_count_mono. rewrite countOthers_app, countOthers_cons.
    rewrite countOthers_nil. case_decide; lia.
  - intros l1 l2 ->. apply risk_of_count_mono.
    rewrite !countOthers_app, countOthers_cons. case_decide; lia.
  - apply risk_of_count_mono, countOthers_filter_le.
Qed.

Lemma calculateRiskLevel_monotonic_witness :
  "reports-svc" ≠ "billing-svc"
  ∧ risk_le (calculateRiskLevel ["billing-svc"] "billing-svc")
            (calculateRiskLevel (["billing-svc"] ++ ["reports-svc"]) "billing-svc").
Proof.
  split; [discriminate|].
  apply (calculateRiskLevel_monotonic ["billing-svc"] "reports-svc" "billing-svc").
  discriminate.
Defined.

(** C2.  The code on an account where one other worker reaches the
    target's namespace through three bindings: the usage list repeats
    that worker, the loop counts three entries and answers Danger, while
    there is a single distinct other worker, for which the documented
    tiers give Caution. *)
Theorem calculateRiskLevel_counts_repeated_bindings :
  AnalyzeDependencies (fixtures.account fixtures.soloScripts []) fixtures.solo
  = Ok [ResourceUsage.mk "ns-3" BindingTypeKV "KV"
          ["solo"; "fan"; "fan"; "fan"] RiskLevelDanger]
  ∧ calculateRiskLevel ["solo"; "fan"; "fan"; "fan"] "solo" = RiskLevelDanger
  ∧ distinctOthers ["solo"; "fan"; "fan"; "fan"] "solo" = 1%nat
  ∧ classifyDistinct ["solo"; "fan"; "fan"; "fan"] "solo" = RiskLevelCaution.
Proof. repeat split; vm_compute; reflexivity. Qed.

Lemma remove_dups_NoDup {A} `{EqDecision A} (l : list A) :
  NoDup l → remove_dups l = l.
Proof.
  induction 1 as [|x l Hx _ IH]; [done|]. simpl.
  destruct (decide_rel elem_of x l); [done | by rewrite IH].
Qed.

(** On a usage list without repeated names the loop and the distinct
    count agree. *)
Lemma calculateRiskLevel_distinct (usedBy : list string) (target : string) :
  NoDup usedBy → calculateRiskLevel usedBy target = classifyDistinct usedBy target.
Proof.
  intros Hnd. unfold calculateRiskLevel, classifyDistinct, distinctOthers.
  rewrite countOthers_length, remove_dups_NoDup by by apply NoDup_filter.
  destruct (length (filter (fun w => w ≠ target) usedBy)) as [|[|[|n]]];
    repeat case_decide; try done; lia.
Qed.

(** ** The planner *)

Lemma planStep_fold (exclusiveOnly : bool) (resources : list ResourceUsage.t)
  (toDelete : list ResourceUsage.t) (hasShared : bool) :
  fold_left (planStep exclusiveOnly) resources (toDelete, hasShared)
  = (toDelete
       ++ (if exclusiveOnly
           then filter (fun u => ResourceUsage.RiskLevel u = RiskLevelSafe) resources
           else resources),
     hasShared
     || bool_decide (Exists (fun u => ResourceUsage.RiskLevel u ≠ RiskLevelSafe)
                       resources)).
Proof.
  revert toDelete hasShared.
  induction resources as [|u resources IH]; intros toDelete hasShared; simpl.
  - destruct exclusiveOnly; rewrite app_nil_r, orb_false_r; done.
  - rewrite filter_cons.
    destruct (decide (ResourceUsage.RiskLevel u ≠ RiskLevelSafe)) as [Hu|Hu].
    + rewrite bool_decide_true by done.
      rewrite (bool_decide_true (Exists _ _)) by (by left).
      rewrite andb_true_r.
      destruct exclusiveOnly; rewrite IH.
      * rewrite decide_False by done. by rewrite !orb_true_r.
      * by rewrite <- app_assoc, !orb_true_r.
    + rewrite bool_decide_false by done. rewrite andb_false_r, IH.
      apply dec_stable in Hu.
      assert (bool_decide (Exists (fun u => ResourceUsage.RiskLevel u ≠ RiskLevelSafe)
                             (u :: resources))
              = bool_decide (Exists (fun u => ResourceUsage.RiskLevel u ≠ RiskLevelSafe)
                               resources)) as ->.
      { apply bool_decide_ext. rewrite Exists_cons.
        split; [intros [?|?]; done | by right]. }
      destruct exclusiveOnly; [rewrite decide_True by done|];
        by rewrite <- app_assoc.
Qed.

Lemma above_safe_iff (r : RiskLevel) : above_safe r ↔ r ≠ RiskLevelSafe.
Proof. unfold above_safe. destruct r; simpl; split; (done || lia). Qed.

Lemma CreateDeletionPlan_fields (worker : WorkerInfo.t)
  (resources : list ResourceUsage.t) (exclusiveOnly : bool) :
  CreateDeletionPlan worker resources exclusiveOnly
  = DeletionPlan.mk worker
      (if exclusiveOnly
       then filter (fun u => ResourceUsage.RiskLevel u = RiskLevelSafe) resources
       else resources)
      (bool_decide (Exists (fun u => ResourceUsage.RiskLevel u ≠ RiskLevelSafe)
                      resources))
      false exclusiveOnly.
Proof. unfold CreateDeletionPlan. by rewrite planStep_fold. Qed.

(** C1, as the code has it.  [HasSharedResources] is true exactly when
    some entry of the analysed resource list, included or not, is above
    Safe.  Without exclusive-only mode every entry is included, so the
    flag then speaks of the included entries; in exclusive-only mode the
    included entries are the Safe ones, and the flag is true exactly when
    an entry was left out. *)
Theorem CreateDeletionPlan_shared_flag (worker : WorkerInfo.t)
  (resources : list ResourceUsage.t) (exclusiveOnly : bool) :
  let plan := CreateDeletionPlan worker resources exclusiveOnly in
  (DeletionPlan.HasSharedResources plan = true
   ↔ ∃ u, u ∈ resources ∧ above_safe (ResourceUsage.RiskLevel u))
  ∧ (exclusiveOnly = false →
     DeletionPlan.ResourcesToDelete plan = resources
     ∧ (DeletionPlan.HasSharedResources plan = true
        ↔ ∃ u, u ∈ DeletionPlan.ResourcesToDelete plan
               ∧ above_safe (ResourceUsage.RiskLevel u)))
  ∧ (exclusiveOnly = true →
     DeletionPlan.ResourcesToDelete plan
     = filter (fun u => ResourceUsage.RiskLevel u = RiskLevelSafe) resources
     ∧ (∀ u, u ∈ DeletionPlan.ResourcesToDelete plan
             → ¬ above_safe (ResourceUsage.RiskLevel u))
     ∧ (DeletionPlan.HasSharedResources plan = true
        ↔ DeletionPlan.ResourcesToDelete plan ≠ resources)).
Proof.
  intros plan. subst plan. rewrite CreateDeletionPlan_fields. simpl.
  assert (bool_decide (Exists (fun u => ResourceUsage.RiskLevel u ≠ RiskLevelSafe)
                         resources) = true
          ↔ ∃ u, u ∈ resources ∧ above_safe (ResourceUsage.RiskLevel u)) as Hflag.
  { rewrite bool_decide_eq_true, Exists_exists.
    by setoid_rewrite above_safe_iff. }
  split; [done|]. split; intros ->.
  - done.
  - split; [done|]. split.
    + intros u [Hu _]%list_elem_of_filter. rewrite above_safe_iff. congruence.
    + split.
      * intros (u & Hin & Hu%above_safe_iff)%Hflag Heq. rewrite <- Heq in Hin.
        apply list_elem_of_filter in Hin as [? _]. done.
      * intros Hne. apply bool_decide_eq_true, dec_stable. intros Hno.
        apply Hne. clear Hflag Hne.
        induction resources as [|u resources IH]; [done|].
        rewrite filter_cons.
        destruct (decide (ResourceUsage.RiskLevel u = RiskLevelSafe)) as [Hu|Hu].
        -- f_equal. apply IH. intros H. apply Hno. by right.
        -- exfalso. apply Hno. by left.
Qed.

Lemma CreateDeletionPlan_shared_flag_witness :
  true = true
  ∧ ∀ u, u ∈ DeletionPlan.ResourcesToDelete
             (CreateDeletionPlan fixtures.billing
                [ResourceUsage.mk "ns-1" BindingTypeKV "sessions"
                   ["billing-svc"; "reports-svc"] RiskLevelCaution;
                 ResourceUsage.mk "db-7" BindingTypeD1 "ledger"
                   ["billing-svc"] RiskLevelSafe] true)
         → ¬ above_safe (ResourceUsage.RiskLevel u).
Proof.
  split; [reflexivity|].
  apply (CreateDeletionPlan_shared_flag fixtures.billing
           [ResourceUsage.mk "ns-1" BindingTypeKV "sessions"
              ["billing-svc"; "reports-svc"] RiskLevelCaution;
            ResourceUsage.mk "db-7" BindingTypeD1 "ledger"
              ["billing-svc"] RiskLevelSafe] true).
  reflexivity.
Defined.

(** C1 fails in exclusive-only mode: the shared namespace of
    [billing-svc] is left out of the plan, yet the flag is raised. *)
Lemma CreateDeletionPlan_exclusive_flag_raised :
  let plan :=
    CreateDeletionPlan fixtures.billing
      [ResourceUsage.mk "ns-1" BindingTypeKV "sessions"
         ["billing-svc"; "reports-svc"] RiskLevelCaution;
       ResourceUsage.mk "db-7" BindingTypeD1 "ledger"
         ["billing-svc"] RiskLevelSafe] true in
  DeletionPlan.HasSharedResources plan = true
  ∧ DeletionPlan.ResourcesToDelete plan
    = [ResourceUsage.mk "db-7" BindingTypeD1 "ledger" ["billing-svc"]
         RiskLevelSafe]
  ∧ ¬ (DeletionPlan.HasSharedResources plan = true
       ↔ ∃ u, u ∈ DeletionPlan.ResourcesToDelete plan
              ∧ above_safe (ResourceUsage.RiskLevel u)).
Proof.
  simpl. split; [reflexivity|]. split; [reflexivity|].
  intros [H _]. destruct (H eq_refl) as (u & Hin & Hu).
  apply list_elem_of_singleton in Hin. subst u.
  unfold above_safe in Hu. simpl in Hu. lia.
Qed.

(** ** The executor *)

Lemma bind_run {R A B : Type} (m : M R A) (k : A -> M R B) (w : World R) :
  bind m k w = k (m w).1 (m w).2.
Proof. unfold bind. by destruct (m w). Qed.

Lemma ret_run {R A : Type} (a : A) (w : World R) : ret a w = (a, w).
Proof. reflexivity. Qed.

Section Executor.
Context {R : Type} (d : Deleter R).

Lemma extend_nil (result : DeletionResult.t) : extend result [] = result.
Proof.
  destruct result. unfold extend, namesWhere, failures. simpl.
  by rewrite !app_nil_r.
Qed.

Lemma extend_cons (result : DeletionResult.t) (resource : ResourceUsage.t)
  (o : Outcome) (trace : list (ResourceUsage.t * Outcome)) :
  extend result ((resource, o) :: trace)
  = extend
      (match o with
       | Removed => recordDeleted result (ResourceUsage.ResourceName resource)
       | Kept => recordSkipped result (ResourceUsage.ResourceName resource)
       | Failed err =>
           recordFailed result err (ResourceUsage.ResourceName resource)
       end) trace.
Proof.
  unfold extend, namesWhere, failures.
  destruct o; simpl; rewrite ?filter_cons; simpl;
    repeat case_decide; try done; simpl; by rewrite <- ?app_assoc.
Qed.

Lemma attempts_cons (plan : DeletionPlan.t) (resource : ResourceUsage.t)
  (rest : list ResourceUsage.t) (w : World R) :
  attempts d plan (resource :: rest) w
  = ((resource, (attempt d plan resource w).1)
       :: (attempts d plan rest (attempt d plan resource w).2).1,
     (attempts d plan rest (attempt d plan resource w).2).2).
Proof. simpl. by rewrite !bind_run, ret_run. Qed.

Lemma executeStep_attempt (plan : DeletionPlan.t) (result : DeletionResult.t)
  (resource : ResourceUsage.t) (w : World R) :
  executeStep d plan result resource w
  = (extend result [(resource, (attempt d plan resource w).1)],
     (attempt d plan resource w).2).
Proof.
  rewrite extend_cons, extend_nil. unfold executeStep, attempt.
  destruct (skippedByPolicy plan resource); [done|].
  rewrite !bind_run. by destruct (deleteResource d resource w).1.
Qed.

(** The loop of step 2 records, for each resource in plan order, the
    outcome of its own attempt, whatever happened to the others. *)
Lemma forEach_executeStep (plan : DeletionPlan.t)
  (resources : list ResourceUsage.t) (result : DeletionResult.t)
  (w : World R) :
  forEach (executeStep d plan) resources result w
  = (extend result (attempts d plan resources w).1,
     (attempts d plan resources w).2).
Proof.
  revert result w.
  induction resources as [|resource rest IH]; intros result w.
  - simpl. by rewrite ret_run, extend_nil.
  - rewrite attempts_cons. simpl. rewrite bind_run, executeStep_attempt. simpl.
    rewrite IH. by rewrite (extend_cons result), extend_cons, extend_nil.
Qed.

(** Every planned resource gets exactly one outcome, in plan order. *)
Lemma attempts_resources (plan : DeletionPlan.t)
  (resources : list ResourceUsage.t) (w : World R) :
  map fst (attempts d plan resources w).1 = resources.
Proof.
  revert w. induction resources as [|resource rest IH]; intros w; [done|].
  rewrite attempts_cons. simpl. by rewrite IH.
Qed.

Lemma wrapped_calls (msg : string) (call : Call) (w : World R) :
  calls (wrapped (client d) msg call w).2 = calls w ++ [call].
Proof.
  unfold wrapped. rewrite bind_run, ret_run. unfold invoke.
  by destruct (cf_Delete (cf (client d)) call (remote w)).
Qed.

Lemma deleteResource_calls (resource : ResourceUsage.t) (w : World R) :
  calls (deleteResource d resource w).2
  = calls w ++ option_list (usageCall resource).
Proof.
  unfold deleteResource, usageCall, callOf.
  unfold DeleteKVNamespace, DeleteR2Bucket, DeleteD1Database. cbv zeta.
  repeat (case_decide; [apply wrapped_calls|]).
  repeat case_decide; rewrite ret_run; simpl; by rewrite app_nil_r.
Qed.

Lemma attempt_calls (plan : DeletionPlan.t) (resource : ResourceUsage.t)
  (w : World R) :
  calls (attempt d plan resource w).2
  = calls w ++ option_list (issued plan resource).
Proof.
  unfold attempt, issued. destruct (skippedByPolicy plan resource).
  - rewrite ret_run. simpl. by rewrite app_nil_r.
  - rewrite bind_run, ret_run. apply deleteResource_calls.
Qed.

Lemma attempts_calls (plan : DeletionPlan.t)
  (resources : list ResourceUsage.t) (w : World R) :
  calls (attempts d plan resources w).2
  = calls w ++ omap (issued plan) resources.
Proof.
  revert w. induction resources as [|resource rest IH]; intros w.
  - cbn. by rewrite app_nil_r.
  - rewrite attempts_cons. simpl. rewrite IH, attempt_calls.
    destruct (issued plan resource); simpl; by rewrite <- ?app_assoc.
Qed.

(** The real-mode run after a successful worker delete, in one
    equation. *)
Lemma Execute_real (plan : DeletionPlan.t) (w : World R) (s : R) :
  dryRun d = false →
  cf_Delete (cf (client d))
    (CallDeleteWorker (WorkerInfo.Name (DeletionPlan.Worker plan))) (remote w)
  = (None, s) →
  let w1 :=
    mkWorld s
      (calls w ++ [CallDeleteWorker (WorkerInfo.Name (DeletionPlan.Worker plan))]) in
  let run := attempts d plan (DeletionPlan.ResourcesToDelete plan) w1 in
  Execute d plan w
  = (DeletionResult.mk (bool_decide (failures run.1 = [])) true
       (namesWhere isRemoved run.1) (namesWhere isSkipped run.1)
       (failures run.1),
     None, run.2).
Proof.
  intros Hdry Hdel w1 run. unfold Execute. rewrite Hdry.
  rewrite bind_run. unfold DeleteWorker, wrapped. rewrite bind_run, ret_run.
  unfold invoke. rewrite Hdel. simpl.
  rewrite bind_run, forEach_executeStep, ret_run.
  fold w1. fold run. unfold extend. simpl.
  destruct (failures run.1) as [|e es] eqn:E; simpl; try done.
Qed.

End Executor.

Lemma fold_recordDeleted (resources : list ResourceUsage.t)
  (result : DeletionResult.t) :
  fold_left
    (fun result resource =>
       recordDeleted result (ResourceUsage.ResourceName resource))
    resources result
  = DeletionResult.mk (DeletionResult.Success result)
      (DeletionResult.WorkerDeleted result)
      (DeletionResult.ResourcesDeleted result
         ++ map ResourceUsage.ResourceName resources)
      (DeletionResult.ResourcesSkipped result)
      (DeletionResult.Errors result).
Proof.
  revert result. induction resources as [|u resources IH]; intros result.
  - destruct result. simpl. by rewrite app_nil_r.
  - simpl. rewrite IH. simpl. by rewrite <- app_assoc.
Qed.

(** C7.  A dry run leaves the account and the call log as they were and
    reports the worker and every planned resource, in plan order, as
    deleted, with no error and success. *)
Theorem Execute_dry_run {R : Type} (c : Client R) (plan : DeletionPlan.t)
  (w : World R) :
  Execute (NewDeleter c true) plan w
  = (DeletionResult.mk true true
       (map ResourceUsage.ResourceName (DeletionPlan.ResourcesToDelete plan))
       [] [],
     None, w).
Proof. unfold Execute. simpl. by rewrite fold_recordDeleted, ret_run. Qed.

(** The real-mode run when the worker delete fails, in one equation. *)
Lemma Execute_stopped {R : Type} (d : Deleter R) (plan : DeletionPlan.t)
  (w : World R) (err : error) (s : R) :
  dryRun d = false →
  cf_Delete (cf (client d))
    (CallDeleteWorker (WorkerInfo.Name (DeletionPlan.Worker plan))) (remote w)
  = (Some err, s) →
  Execute d plan w
  = (DeletionResult.mk false false [] []
       [Wrapf "failed to delete worker" (Wrapf "failed to delete worker" err)],
     Some (Wrapf "failed to delete worker" err),
     mkWorld s
       (calls w
          ++ [CallDeleteWorker (WorkerInfo.Name (DeletionPlan.Worker plan))])).
Proof.
  intros Hdry Hdel. unfold Execute. rewrite Hdry, bind_run.
  unfold DeleteWorker, wrapped. rewrite bind_run, ret_run. unfold invoke.
  rewrite Hdel. reflexivity.
Qed.

(** C4.  In real mode, when the worker delete fails, the run stops there:
    no success, worker not deleted, exactly one error recorded, nothing
    deleted or skipped, the client's error handed back, and the worker
    delete the only call issued. *)
Theorem Execute_worker_delete_fails {R : Type} (d : Deleter R)
  (plan : DeletionPlan.t) (w : World R) (err : error) (s : R) :
  dryRun d = false →
  cf_Delete (cf (client d))
    (CallDeleteWorker (WorkerInfo.Name (DeletionPlan.Worker plan))) (remote w)
  = (Some err, s) →
  let '(result, returned, w') := Execute d plan w in
  DeletionResult.Success result = false
  ∧ DeletionResult.WorkerDeleted result = false
  ∧ length (DeletionResult.Errors result) = 1%nat
  ∧ DeletionResult.ResourcesDeleted result = []
  ∧ DeletionResult.ResourcesSkipped result = []
  ∧ returned = Some (Wrapf "failed to delete worker" err)
  ∧ calls w'
    = calls w
      ++ [CallDeleteWorker (WorkerInfo.Name (DeletionPlan.Worker plan))]
  ∧ remote w' = s.
Proof.
  intros Hdry Hdel. rewrite (Execute_stopped d plan w err s Hdry Hdel).
  repeat split.
Qed.

(** The third scenario of the design notes: the account refuses to
    delete the script. *)
Lemma Execute_worker_delete_fails_witness :
  let d := NewDeleter (fixtures.account fixtures.billingScripts
                         [CallDeleteWorker "billing-svc"]) false in
  let plan :=
    DeletionPlan.mk fixtures.billing
      [ResourceUsage.mk "db-7" BindingTypeD1 "ledger" ["billing-svc"]
         RiskLevelSafe] false true false in
  let '(result, returned, w') :=
    Execute d plan (mkWorld fixtures.billingItems []) in
  DeletionResult.Success result = false
  ∧ DeletionResult.WorkerDeleted result = false
  ∧ length (DeletionResult.Errors result) = 1%nat
  ∧ DeletionResult.ResourcesDeleted result = []
  ∧ DeletionResult.ResourcesSkipped result = []
  ∧ returned = Some (Wrapf "failed to delete worker" (RemoteError "locked"))
  ∧ calls w' = [CallDeleteWorker "billing-svc"]
  ∧ remote w' = fixtures.billingItems.
Proof.
  intros d plan.
  exact (Execute_worker_delete_fails d plan
           (mkWorld fixtures.billingItems []) (RemoteError "locked")
           fixtures.billingItems eq_refl eq_refl).
Defined.

Lemma namesWhere_elem (keep : Outcome -> bool)
  (trace : list (ResourceUsage.t * Outcome)) (resource : ResourceUsage.t)
  (o : Outcome) :
  (resource, o) ∈ trace → keep o = true →
  ResourceUsage.ResourceName resource ∈ namesWhere keep trace.
Proof.
  intros Hin Hk. unfold namesWhere.
  apply (list_elem_of_fmap_2 (fun ro => ResourceUsage.ResourceName ro.1)
           _ (resource, o)).
  apply list_elem_of_filter. done.
Qed.

Lemma failures_elem (trace : list (ResourceUsage.t * Outcome))
  (resource : ResourceUsage.t) (err : error) :
  (resource, Failed err) ∈ trace → err ∈ failures trace.
Proof.
  intros Hin. unfold failures. apply list_elem_of_omap.
  exists (resource, Failed err). done.
Qed.

Lemma namesWhere_split (trace : list (ResourceUsage.t * Outcome)) :
  (length (namesWhere isRemoved trace) + length (namesWhere isSkipped trace)
   = length trace)%nat.
Proof.
  unfold namesWhere. rewrite !length_map.
  induction trace as [|[u o] trace IH]; [done|].
  rewrite !filter_cons. destruct o; simpl; repeat case_decide; try done;
    simpl; lia.
Qed.

(** C5.  In real mode, after a successful worker delete, every planned
    resource is attempted in plan order, each on the account as the
    preceding attempts left it.  A resource whose delete fails has its
    error in [Errors] and its name in [ResourcesSkipped], and the loop
    goes on: the resources after it are attempted all the same, a
    successful one ending in [ResourcesDeleted].  No resource is lost,
    and [Success] is false exactly when an error was recorded. *)
Theorem Execute_partial_failure {R : Type} (d : Deleter R)
  (plan : DeletionPlan.t) (w : World R) (s : R) :
  dryRun d = false →
  cf_Delete (cf (client d))
    (CallDeleteWorker (WorkerInfo.Name (DeletionPlan.Worker plan))) (remote w)
  = (None, s) →
  ∃ trace w' result,
    attempts d plan (DeletionPlan.ResourcesToDelete plan)
      (mkWorld s
         (calls w
            ++ [CallDeleteWorker (WorkerInfo.Name (DeletionPlan.Worker plan))]))
    = (trace, w')
    ∧ Execute d plan w = (result, None, w')
    ∧ map fst trace = DeletionPlan.ResourcesToDelete plan
    ∧ DeletionResult.WorkerDeleted result = true
    ∧ DeletionResult.ResourcesDeleted result = namesWhere isRemoved trace
    ∧ DeletionResult.ResourcesSkipped result = namesWhere isSkipped trace
    ∧ DeletionResult.Errors result = failures trace
    ∧ (∀ resource err, (resource, Failed err) ∈ trace →
         err ∈ DeletionResult.Errors result
         ∧ ResourceUsage.ResourceName resource
           ∈ DeletionResult.ResourcesSkipped result)
    ∧ (∀ resource, (resource, Removed) ∈ trace →
         ResourceUsage.ResourceName resource
         ∈ DeletionResult.ResourcesDeleted result)
    ∧ (length (DeletionResult.ResourcesDeleted result)
       + length (DeletionResult.ResourcesSkipped result)
       = length (DeletionPlan.ResourcesToDelete plan))%nat
    ∧ (DeletionResult.Success result = false
       ↔ ∃ err, err ∈ DeletionResult.Errors result).
Proof.
  intros Hdry Hdel. rewrite (Execute_real d plan w s Hdry Hdel). cbv zeta.
  pose proof (attempts_resources d plan (DeletionPlan.ResourcesToDelete plan)
    (mkWorld s
       (calls w
          ++ [CallDeleteWorker (WorkerInfo.Name (DeletionPlan.Worker plan))])))
    as Hres.
  destruct (attempts d plan _ _) as [trace w']. simpl in *.
  eexists trace, w', _. split; [done|]. split; [done|]. simpl.
  repeat split; try done.
  - by eapply failures_elem.
  - by eapply namesWhere_elem.
  - intros. by eapply namesWhere_elem.
  - by rewrite namesWhere_split, <- Hres, length_map.
  - rewrite bool_decide_eq_false. destruct (failures trace) as [|e es].
    + done.
    + intros _. exists e. by left.
  - intros [e He]. rewrite bool_decide_eq_false. intros Hnil.
    rewrite Hnil in He. by apply not_elem_of_nil in He.
Qed.

(** The second scenario of the design notes, with the shared namespace
    refused by the account: one error, the namespace skipped, the
    database deleted all the same, no success. *)
Lemma Execute_partial_failure_witness :
  let d := NewDeleter (fixtures.account fixtures.billingScripts
                         [CallDeleteKVNamespace "ns-1"]) false in
  let plan :=
    DeletionPlan.mk fixtures.billing
      [ResourceUsage.mk "ns-1" BindingTypeKV "sessions"
         ["billing-svc"; "reports-svc"] RiskLevelCaution;
       ResourceUsage.mk "db-7" BindingTypeD1 "ledger" ["billing-svc"]
         RiskLevelSafe] true true false in
  ∃ (trace : list (ResourceUsage.t * Outcome)) w' result,
    Execute d plan (mkWorld fixtures.billingItems []) = (result, None, w')
    ∧ map snd trace
      = [Failed (Wrapf "failed to delete KV namespace" (RemoteError "locked"));
         Removed]
    ∧ DeletionResult.ResourcesDeleted result = ["ledger"]
    ∧ DeletionResult.ResourcesSkipped result = ["sessions"]
    ∧ DeletionResult.Success result = false.
Proof.
  intros d plan.
  destruct (Execute_partial_failure d plan (mkWorld fixtures.billingItems [])
              [CallDeleteKVNamespace "ns-1"; CallDeleteD1Database "db-7"]
              eq_refl eq_refl)
    as (trace & w' & result & Htrace & Hexec & _ & _ & Hdel & Hskip & _).
  exists trace, w', result.
  vm_compute in Htrace. injection Htrace as <- <-.
  rewrite Hexec. split; [reflexivity|]. split; [reflexivity|].
  split; [exact Hdel|]. split; [exact Hskip|].
  vm_compute in Hexec. injection Hexec as <-. reflexivity.
Defined.

Lemma wrapped_result {R : Type} (c : Client R) (msg : string) (call : Call)
  (w : World R) :
  (wrapped c msg call w).1
  = Wrapf msg <$> (cf_Delete (cf c) call (remote w)).1.
Proof.
  unfold wrapped. rewrite bind_run, ret_run. unfold invoke.
  by destruct (cf_Delete (cf c) call (remote w)) as [[e|] s].
Qed.

Lemma wrapped_remote {R : Type} (c : Client R) (msg : string) (call : Call)
  (w : World R) :
  remote (wrapped c msg call w).2 = (cf_Delete (cf c) call (remote w)).2.
Proof.
  unfold wrapped. rewrite bind_run, ret_run. unfold invoke.
  by destruct (cf_Delete (cf c) call (remote w)) as [[e|] s].
Qed.

Lemma deleteResource_result {R : Type} (d : Deleter R)
  (resource : ResourceUsage.t) (call : Call) (w : World R) :
  usageCall resource = Some call →
  (deleteResource d resource w).1
  = Wrapf (failureMessage call) <$> (cf_Delete (cf (client d)) call (remote w)).1.
Proof.
  unfold usageCall, callOf, deleteResource. cbv zeta.
  unfold DeleteKVNamespace, DeleteR2Bucket, DeleteD1Database.
  repeat case_decide; intros [= <-]; apply wrapped_result.
Qed.

Lemma attempts_app {R : Type} (d : Deleter R) (plan : DeletionPlan.t)
  (pre rest : list ResourceUsage.t) (w : World R) :
  attempts d plan (pre ++ rest) w
  = ((attempts d plan pre w).1
       ++ (attempts d plan rest (attempts d plan pre w).2).1,
     (attempts d plan rest (attempts d plan pre w).2).2).
Proof.
  revert w. induction pre as [|u pre IH]; intros w.
  - cbn. by destruct (attempts d plan rest w).
  - rewrite <- app_comm_cons, !attempts_cons, IH. reflexivity.
Qed.

(** A resource whose delete is answered with [err] in the account as the
    attempts on the resources before it have left it ends as failed. *)
Lemma attempts_failed_at {R : Type} (d : Deleter R) (plan : DeletionPlan.t)
  (pre post : list ResourceUsage.t) (resource : ResourceUsage.t)
  (call : Call) (err : error) (w : World R) :
  issued plan resource = Some call →
  (cf_Delete (cf (client d)) call (remote (attempts d plan pre w).2)).1
  = Some err →
  (resource, Failed (Wrapf (failureMessage call) err))
  ∈ (attempts d plan (pre ++ resource :: post) w).1.
Proof.
  intros Hissued Hfail. rewrite attempts_app. cbn [fst].
  apply elem_of_app. right. rewrite attempts_cons. cbn [fst].
  apply elem_of_cons. left. f_equal. unfold attempt.
  unfold issued in Hissued.
  destruct (skippedByPolicy plan resource); [done|].
  rewrite bind_run, ret_run. simpl.
  by rewrite (deleteResource_result d resource call _ Hissued), Hfail.
Qed.

(** C6, as the code has it.  A delete the account answers with not-found
    is a failure like any other.  For the worker it ends the run without
    success.  For a planned resource that is attempted, and whose delete
    the account answers with not-found in the state in which the run
    reaches it (after the worker delete and the attempts on the
    resources planned before it), the error is recorded in [Errors], the
    resource is listed in [ResourcesSkipped], and the run ends without
    success. *)
Theorem Execute_not_found_is_failure {R : Type} (d : Deleter R)
  (plan : DeletionPlan.t) (w : World R) :
  dryRun d = false →
  (∀ s,
     cf_Delete (cf (client d))
       (CallDeleteWorker (WorkerInfo.Name (DeletionPlan.Worker plan)))
       (remote w)
     = (Some RemoteNotFound, s) →
     (Execute d plan w).1
     = (DeletionResult.mk false false [] []
          [Wrapf "failed to delete worker"
             (Wrapf "failed to delete worker" RemoteNotFound)],
        Some (Wrapf "failed to delete worker" RemoteNotFound)))
  ∧ (∀ s pre resource post call s',
       cf_Delete (cf (client d))
         (CallDeleteWorker (WorkerInfo.Name (DeletionPlan.Worker plan)))
         (remote w)
       = (None, s) →
       DeletionPlan.ResourcesToDelete plan = pre ++ resource :: post →
       issued plan resource = Some call →
       cf_Delete (cf (client d)) call
         (remote
            (attempts d plan pre
               (mkWorld s
                  (calls w
                     ++ [CallDeleteWorker
                           (WorkerInfo.Name (DeletionPlan.Worker plan))]))).2)
       = (Some RemoteNotFound, s') →
       Wrapf (failureMessage call) RemoteNotFound
       ∈ DeletionResult.Errors (Execute d plan w).1.1
       ∧ ResourceUsage.ResourceName resource
         ∈ DeletionResult.ResourcesSkipped (Execute d plan w).1.1
       ∧ DeletionResult.Success (Execute d plan w).1.1 = false).
Proof.
  intros Hdry. split.
  - intros s Hdel. by rewrite (Execute_stopped d plan w _ s Hdry Hdel).
  - intros s pre resource post call s' Hdel Hplan Hissued Hnf.
    rewrite (Execute_real d plan w s Hdry Hdel). cbv zeta. simpl.
    rewrite Hplan.
    pose proof (attempts_failed_at d plan pre post resource call
                  RemoteNotFound
                  (mkWorld s
                     (calls w
                        ++ [CallDeleteWorker
                              (WorkerInfo.Name (DeletionPlan.Worker plan))]))
                  Hissued) as Hfailed.
    rewrite Hnf in Hfailed. specialize (Hfailed eq_refl).
    split; [by eapply failures_elem|].
    split; [by eapply namesWhere_elem|].
    apply bool_decide_eq_false. intros Hnil.
    apply failures_elem in Hfailed. rewrite Hnil in Hfailed.
    by apply not_elem_of_nil in Hfailed.
Qed.

(** A second run over an account where everything is already gone; and a
    run over the target with two bindings to one namespace: the first
    delete removes the namespace, the second is answered with
    not-found. *)
Lemma Execute_not_found_is_failure_witness :
  (let plan :=
     DeletionPlan.mk fixtures.billing
       [ResourceUsage.mk "ns-1" BindingTypeKV "sessions"
          ["billing-svc"; "reports-svc"] RiskLevelCaution;
        ResourceUsage.mk "db-7" BindingTypeD1 "ledger" ["billing-svc"]
          RiskLevelSafe] true true false in
   (Execute (NewDeleter (fixtures.account fixtures.billingScripts []) false)
      plan (mkWorld [] [])).1
   = (DeletionResult.mk false false [] []
        [Wrapf "failed to delete worker"
           (Wrapf "failed to delete worker" RemoteNotFound)],
      Some (Wrapf "failed to delete worker" RemoteNotFound)))
  ∧ (let entry :=
       ResourceUsage.mk "ns-2" BindingTypeKV "A" ["twice"; "twice"]
         RiskLevelSafe in
     let result :=
       (Execute (NewDeleter (fixtures.account fixtures.twiceScripts []) false)
          (DeletionPlan.mk fixtures.twice [entry; entry] false false false)
          (mkWorld [CallDeleteWorker "twice"; CallDeleteKVNamespace "ns-2"]
             [])).1.1 in
     Wrapf "failed to delete KV namespace" RemoteNotFound
     ∈ DeletionResult.Errors result
     ∧ "A" ∈ DeletionResult.ResourcesSkipped result
     ∧ DeletionResult.Success result = false).
Proof.
  split.
  - intros plan.
    exact (proj1 (Execute_not_found_is_failure
                    (NewDeleter (fixtures.account fixtures.billingScripts [])
                       false)
                    plan (mkWorld [] []) eq_refl)
             [] eq_refl).
  - intros entry.
    apply (proj2 (Execute_not_found_is_failure
                    (NewDeleter (fixtures.account fixtures.twiceScripts [])
                       false)
                    (DeletionPlan.mk fixtures.twice [entry; entry] false false
                       false)
                    (mkWorld
                       [CallDeleteWorker "twice"; CallDeleteKVNamespace "ns-2"]
                       [])
                    eq_refl)
             [CallDeleteKVNamespace "ns-2"] [entry] entry []
             (CallDeleteKVNamespace "ns-2") []).
    + reflexivity.
    + reflexivity.
    + reflexivity.
    + vm_compute. reflexivity.
Defined.

(** C6 fails: the namespace of [billing-svc] is already gone, the account
    answers not-found, and the executor reports an error, lists the
    namespace as skipped and ends without success; on an account where
    the worker is gone as well, the run fails at the first step. *)
Lemma Execute_not_found_reported :
  let d := NewDeleter (fixtures.account fixtures.billingScripts []) false in
  let plan :=
    DeletionPlan.mk fixtures.billing
      [ResourceUsage.mk "ns-1" BindingTypeKV "sessions" ["billing-svc"]
         RiskLevelSafe;
       ResourceUsage.mk "db-7" BindingTypeD1 "ledger" ["billing-svc"]
         RiskLevelSafe] false false false in
  Execute d plan
    (mkWorld [CallDeleteWorker "billing-svc"; CallDeleteD1Database "db-7"] [])
  = (DeletionResult.mk false true ["ledger"] ["sessions"]
       [Wrapf "failed to delete KV namespace" RemoteNotFound],
     None,
     mkWorld []
       [CallDeleteWorker "billing-svc"; CallDeleteKVNamespace "ns-1";
        CallDeleteD1Database "db-7"])
  ∧ Execute d plan (mkWorld [] [])
    = (DeletionResult.mk false false [] []
         [Wrapf "failed to delete worker"
            (Wrapf "failed to delete worker" RemoteNotFound)],
       Some (Wrapf "failed to delete worker" RemoteNotFound),
       mkWorld [] [CallDeleteWorker "billing-svc"]).
Proof. split; vm_compute; reflexivity. Qed.

(** ** The analysis *)

(** Two bindings with the same non-empty key have the same kind and the
    same delete endpoint. *)
Lemma getResourceKey_inj (b0 b : Binding.t) :
  getResourceKey b0 = getResourceKey b →
  getResourceKey b ≠ EmptyString →
  Binding.Type' b0 = Binding.Type' b ∧ bindingCall b0 = bindingCall b.
Proof.
  unfold bindingCall, callOf, getResourceID, getResourceKey. cbv zeta.
  intros Heq Hne.
  repeat case_decide; simpl in Heq; try discriminate Heq; try done;
    try (injection Heq as Heq; cbv [String.append] in Heq); split;
    congruence.
Qed.

Lemma getResourceKey_kinds (b : Binding.t) :
  getResourceKey b ≠ EmptyString ↔ Binding.Type' b ∈ keyedKinds.
Proof.
  unfold getResourceKey, keyedKinds. cbv zeta.
  rewrite !elem_of_cons, elem_of_nil.
  repeat case_decide; simpl; split; try done; try tauto; intros _; tauto.
Qed.

Lemma describes_same_key (b0 b : Binding.t) (u : ResourceUsage.t) :
  getResourceKey b0 = getResourceKey b → getResourceKey b ≠ EmptyString →
  describes b0 u → describes b u.
Proof.
  intros Hk Hne [Hty Hcall].
  destruct (getResourceKey_inj b0 b Hk Hne) as [Hty' Hcall'].
  split; congruence.
Qed.

Section Analysis.
Context {R : Type} (client : Client R).

Lemma tracked_empty : tracked (∅ : gmap string ResourceUsage.t).
Proof. intros k u Hk. by rewrite lookup_empty in Hk. Qed.

Lemma recordBinding_tracked (workerName : string)
  (resourceMap : gmap string ResourceUsage.t) (binding : Binding.t) :
  tracked resourceMap → tracked (recordBinding workerName resourceMap binding).
Proof.
  intros Hm. unfold recordBinding. cbv zeta.
  destruct (decide (getResourceKey binding = EmptyString)) as [|Hne]; [done|].
  intros k u. rewrite lookup_alter.
  destruct (decide (getResourceKey binding = k)) as [<-|Hk].
  - destruct (resourceMap !! getResourceKey binding) as [u0|] eqn:Hu0.
    + rewrite Hu0. intros [= <-]. split; [done|].
      destruct (Hm _ _ Hu0) as [_ (b & Hb & Hd)]. by exists b.
    + rewrite lookup_insert_eq. intros [= <-]. split; [done|].
      exists binding. split; [done|]. split; [done|].
      reflexivity.
  - destruct (resourceMap !! getResourceKey binding) as [u0|].
    + apply Hm.
    + rewrite lookup_insert_ne by done. apply Hm.
Qed.

Lemma recordWorker_tracked (resourceMap : gmap string ResourceUsage.t)
  (worker : WorkerInfo.t) :
  tracked resourceMap → tracked (recordWorker client resourceMap worker).
Proof.
  intros Hm. unfold recordWorker.
  destruct (GetWorker client (WorkerInfo.Name worker)) as [fullWorker|]; [|done].
  revert resourceMap Hm.
  induction (WorkerInfo.Bindings fullWorker) as [|b bs IH]; intros m Hm; [done|].
  simpl. by apply IH, recordBinding_tracked.
Qed.

Lemma buildResourceMap_tracked (allWorkers : list WorkerInfo.t) :
  tracked (buildResourceMap client allWorkers).
Proof.
  unfold buildResourceMap. generalize tracked_empty.
  generalize (∅ : gmap string ResourceUsage.t).
  induction allWorkers as [|w ws IH]; intros m Hm; [done|].
  simpl. by apply IH, recordWorker_tracked.
Qed.

(** A binding without a key leaves the second loop's state alone. *)
Lemma collectBinding_unkeyed (targetWorker : WorkerInfo.t)
  (st : gmap string ResourceUsage.t * list ResourceUsage.t)
  (binding : Binding.t) :
  getResourceKey binding = EmptyString →
  collectBinding client targetWorker st binding = st.
Proof.
  intros Hk. unfold collectBinding. destruct st as [m acc]. cbv zeta.
  by rewrite decide_True.
Qed.

(** A binding with a key appends exactly one entry: the tracked one, or
    a fresh one that names only the target. *)
Lemma collectBinding_keyed (targetWorker : WorkerInfo.t)
  (resourceMap : gmap string ResourceUsage.t) (acc : list ResourceUsage.t)
  (binding : Binding.t) :
  getResourceKey binding ≠ EmptyString →
  ∃ u,
    collectBinding client targetWorker (resourceMap, acc) binding
    = (match resourceMap !! getResourceKey binding with
       | Some _ => <[getResourceKey binding := u]> resourceMap
       | None => resourceMap
       end, acc ++ [u])
    ∧ ResourceUsage.RiskLevel u
      = calculateRiskLevel (ResourceUsage.UsedBy u) (WorkerInfo.Name targetWorker)
    ∧ match resourceMap !! getResourceKey binding with
      | Some u0 =>
          ResourceUsage.ResourceID u = ResourceUsage.ResourceID u0
          ∧ ResourceUsage.ResourceType u = ResourceUsage.ResourceType u0
          ∧ ResourceUsage.UsedBy u = ResourceUsage.UsedBy u0
      | None =>
          u = ResourceUsage.mk (getResourceID binding) (Binding.Type' binding)
                (enrichResourceName client binding (getResourceName binding))
                [WorkerInfo.Name targetWorker]
                (calculateRiskLevel [WorkerInfo.Name targetWorker]
                   (WorkerInfo.Name targetWorker))
      end.
Proof.
  intros Hk. unfold collectBinding. cbv zeta. rewrite decide_False by done.
  destruct (resourceMap !! getResourceKey binding) as [u0|];
    eexists; (split; [reflexivity|]); simpl; done.
Qed.

Lemma collectBinding_tracked (targetWorker : WorkerInfo.t)
  (resourceMap : gmap string ResourceUsage.t) (acc : list ResourceUsage.t)
  (binding : Binding.t) :
  tracked resourceMap →
  tracked (collectBinding client targetWorker (resourceMap, acc) binding).1.
Proof.
  intros Hm.
  destruct (decide (getResourceKey binding = EmptyString)) as [Hk|Hk].
  - by rewrite collectBinding_unkeyed.
  - destruct (collectBinding_keyed targetWorker resourceMap acc binding Hk)
      as (u & -> & _ & Hu). simpl.
    destruct (resourceMap !! getResourceKey binding) as [u0|] eqn:Hu0; [|done].
    destruct Hu as (Hid & Hty & _).
    intros k v. destruct (decide (getResourceKey binding = k)) as [<-|Hne].
    + rewrite lookup_insert_eq. intros [= <-]. split; [done|].
      destruct (Hm _ _ Hu0) as [_ (b & Hb & Hbty & Hbcall)].
      exists b. split; [done|]. split; [congruence|].
      unfold usageCall in *. congruence.
    + rewrite lookup_insert_ne by done. apply Hm.
Qed.

(** Keys are neither added nor removed by the second loop. *)
Lemma collectBinding_absent (targetWorker : WorkerInfo.t)
  (resourceMap : gmap string ResourceUsage.t) (acc : list ResourceUsage.t)
  (binding : Binding.t) (k : string) :
  resourceMap !! k = None →
  (collectBinding client targetWorker (resourceMap, acc) binding).1 !! k = None.
Proof.
  intros Hnone.
  destruct (decide (getResourceKey binding = EmptyString)) as [Hk|Hk].
  - by rewrite collectBinding_unkeyed.
  - destruct (collectBinding_keyed targetWorker resourceMap acc binding Hk)
      as (u & -> & _). simpl.
    destruct (resourceMap !! getResourceKey binding) as [u0|] eqn:Hu0; [|done].
    rewrite lookup_insert_ne; [done|]. intros <-. congruence.
Qed.

(** The result list only grows at its end. *)
Lemma collectBinding_acc (targetWorker : WorkerInfo.t)
  (resourceMap : gmap string ResourceUsage.t) (acc : list ResourceUsage.t)
  (binding : Binding.t) :
  collectBinding client targetWorker (resourceMap, acc) binding
  = ((collectBinding client targetWorker (resourceMap, []) binding).1,
     acc ++ (collectBinding client targetWorker (resourceMap, []) binding).2).
Proof.
  destruct (decide (getResourceKey binding = EmptyString)) as [Hk|Hk].
  - rewrite !collectBinding_unkeyed by done. simpl. by rewrite app_nil_r.
  - unfold collectBinding. cbv zeta.
    destruct (decide (getResourceKey binding = EmptyString));
      [done | reflexivity].
Qed.

Lemma collect_fold_acc (targetWorker : WorkerInfo.t)
  (bindings : list Binding.t) (resourceMap : gmap string ResourceUsage.t)
  (acc : list ResourceUsage.t) :
  fold_left (collectBinding client targetWorker) bindings (resourceMap, acc)
  = ((collectBindings client targetWorker resourceMap bindings).1,
     acc ++ (collectBindings client targetWorker resourceMap bindings).2).
Proof.
  unfold collectBindings. revert resourceMap acc.
  induction bindings as [|b bs IH]; intros m acc.
  - simpl. by rewrite app_nil_r.
  - cbn [fold_left]. rewrite (collectBinding_acc _ m acc).
    destruct (collectBinding client targetWorker (m, []) b) as [m1 r1].
    cbn [fst snd]. rewrite (IH m1 (acc ++ r1)), (IH m1 r1). cbn [fst snd].
    by rewrite app_assoc.
Qed.

Lemma collectBindings_cons (targetWorker : WorkerInfo.t) (b : Binding.t)
  (bindings : list Binding.t) (resourceMap : gmap string ResourceUsage.t) :
  collectBindings client targetWorker resourceMap (b :: bindings)
  = ((collectBindings client targetWorker
        (collectBinding client targetWorker (resourceMap, []) b).1 bindings).1,
     (collectBinding client targetWorker (resourceMap, []) b).2
       ++ (collectBindings client targetWorker
             (collectBinding client targetWorker (resourceMap, []) b).1
             bindings).2).
Proof.
  unfold collectBindings at 1. cbn [fold_left].
  destruct (collectBinding client targetWorker (resourceMap, []) b) as [m1 r1].
  by rewrite collect_fold_acc.
Qed.

End Analysis.

Section AnalysisResult.
Context {R : Type} (client : Client R).

Lemma collectBindings_absent (targetWorker : WorkerInfo.t)
  (bindings : list Binding.t) (resourceMap : gmap string ResourceUsage.t)
  (k : string) :
  resourceMap !! k = None →
  (collectBindings client targetWorker resourceMap bindings).1 !! k = None.
Proof.
  revert resourceMap. induction bindings as [|b bs IH]; intros m Hk; [done|].
  rewrite collectBindings_cons. simpl. by apply IH, collectBinding_absent.
Qed.

Lemma collectBindings_app (targetWorker : WorkerInfo.t)
  (pre post : list Binding.t) (resourceMap : gmap string ResourceUsage.t) :
  (collectBindings client targetWorker resourceMap (pre ++ post)).2
  = (collectBindings client targetWorker resourceMap pre).2
    ++ (collectBindings client targetWorker
          (collectBindings client targetWorker resourceMap pre).1 post).2.
Proof.
  revert resourceMap. induction pre as [|b pre IH]; intros m; [done|].
  rewrite <- app_comm_cons, !collectBindings_cons. simpl.
  by rewrite IH, app_assoc.
Qed.

(** The result holds one entry per keyed binding of the target, in the
    order of the bindings; each stands for its binding and carries the
    level computed from its own usage list. *)
Lemma collectBindings_entries (targetWorker : WorkerInfo.t)
  (bindings : list Binding.t) (resourceMap : gmap string ResourceUsage.t) :
  tracked resourceMap →
  Forall2
    (fun b u =>
       describes b u
       ∧ ResourceUsage.RiskLevel u
         = calculateRiskLevel (ResourceUsage.UsedBy u)
             (WorkerInfo.Name targetWorker))
    (filter hasKey bindings)
    (collectBindings client targetWorker resourceMap bindings).2.
Proof.
  revert resourceMap. induction bindings as [|b bs IH]; intros m Hm.
  - constructor.
  - rewrite collectBindings_cons, filter_cons. simpl.
    pose proof (collectBinding_tracked client targetWorker m [] b Hm) as Hm1.
    destruct (decide (hasKey b)) as [Hk|Hk].
    + destruct (collectBinding_keyed client targetWorker m [] b Hk)
        as (u & Hstep & Hrisk & Hu).
      rewrite Hstep in *. simpl in *. constructor; [|by apply IH].
      split; [|done].
      destruct (m !! getResourceKey b) as [u0|] eqn:Hu0.
      * destruct Hu as (Hid & Hty & _).
        destruct (Hm _ _ Hu0) as [_ (b0 & Hb0 & Hb0ty & Hb0call)].
        apply (describes_same_key b0 b u Hb0 Hk).
        split; [congruence|]. unfold usageCall in *. congruence.
      * subst u. split; reflexivity.
    + apply dec_stable in Hk. rewrite collectBinding_unkeyed in * by done.
      simpl. by apply IH.
Qed.

Lemma AnalyzeDependencies_entries (targetWorker : WorkerInfo.t)
  (res : list ResourceUsage.t) :
  AnalyzeDependencies client targetWorker = Ok res →
  Forall2
    (fun b u =>
       describes b u
       ∧ ResourceUsage.RiskLevel u
         = calculateRiskLevel (ResourceUsage.UsedBy u)
             (WorkerInfo.Name targetWorker))
    (filter hasKey (WorkerInfo.Bindings targetWorker)) res.
Proof.
  unfold AnalyzeDependencies.
  destruct (ListWorkers client) as [allWorkers|]; [|done].
  intros [= <-]. apply collectBindings_entries, buildResourceMap_tracked.
Qed.

End AnalysisResult.

Lemma Forall2_elem_r {A B : Type} (P : A -> B -> Prop) (l : list A)
  (k : list B) (y : B) :
  Forall2 P l k → y ∈ k → ∃ x, x ∈ l ∧ P x y.
Proof.
  induction 1 as [|x y' l k Hxy _ IH]; intros Hin.
  - by apply elem_of_nil in Hin.
  - apply elem_of_cons in Hin as [->|Hin].
    + exists x. split; [by left | done].
    + destruct (IH Hin) as (x' & ? & ?). exists x'. split; [by right | done].
Qed.


Lemma CreateDeletionPlan_subset (worker : WorkerInfo.t)
  (resources : list ResourceUsage.t) (exclusiveOnly : bool)
  (u : ResourceUsage.t) :
  u ∈ DeletionPlan.ResourcesToDelete
        (CreateDeletionPlan worker resources exclusiveOnly) →
  u ∈ resources.
Proof.
  rewrite CreateDeletionPlan_fields. simpl.
  destruct exclusiveOnly; [|done]. by intros [_ ?]%list_elem_of_filter.
Qed.

Lemma calculateRiskLevel_target_only (usedBy : list string) (target : string) :
  Forall (fun w => w = target) usedBy →
  calculateRiskLevel usedBy target = RiskLevelSafe.
Proof.
  intros H. unfold calculateRiskLevel.
  rewrite countOthers_target_only by done. by rewrite decide_True.
Qed.

(** C8.  A usage list that is empty or names only the target classifies
    as Safe; and a keyed binding of the target whose key the index of
    the account lacks yields, at its place in the result, a fresh entry
    used by the target alone and classified Safe. *)
Theorem untracked_binding_is_safe {R : Type} (client : Client R)
  (targetWorker : WorkerInfo.t) (allWorkers : list WorkerInfo.t)
  (pre post : list Binding.t) (binding : Binding.t) :
  ListWorkers client = Ok allWorkers →
  WorkerInfo.Bindings targetWorker = pre ++ binding :: post →
  getResourceKey binding ≠ EmptyString →
  buildResourceMap client allWorkers !! getResourceKey binding = None →
  (∀ usedBy, Forall (fun w => w = WorkerInfo.Name targetWorker) usedBy →
     calculateRiskLevel usedBy (WorkerInfo.Name targetWorker) = RiskLevelSafe)
  ∧ ∃ before u after,
      AnalyzeDependencies client targetWorker = Ok (before ++ u :: after)
      ∧ length before = length (filter hasKey pre)
      ∧ ResourceUsage.ResourceID u = getResourceID binding
      ∧ ResourceUsage.ResourceType u = Binding.Type' binding
      ∧ ResourceUsage.UsedBy u = [WorkerInfo.Name targetWorker]
      ∧ ResourceUsage.RiskLevel u = RiskLevelSafe.
Proof.
  intros Hlist Hbs Hk Habsent. split.
  { intros usedBy. apply calculateRiskLevel_target_only. }
  unfold AnalyzeDependencies. rewrite Hlist, Hbs.
  set (m := buildResourceMap client allWorkers) in *.
  rewrite collectBindings_app, collectBindings_cons. cbn [fst snd].
  pose proof (collectBindings_absent client targetWorker pre m _ Habsent) as Hpre.
  set (m1 := (collectBindings client targetWorker m pre).1) in *.
  destruct (collectBinding_keyed client targetWorker m1 [] binding Hk)
    as (u & Hstep & _ & Hu).
  rewrite Hpre in Hu, Hstep. rewrite Hstep. cbn [fst snd app].
  eexists _, u, _. split; [reflexivity|]. split.
  - symmetry. eapply Forall2_length.
    apply collectBindings_entries, buildResourceMap_tracked.
  - subst u. cbn. repeat split.
    apply calculateRiskLevel_target_only. by constructor.
Qed.

(** The database of a target the account listing does not show. *)
Lemma untracked_binding_is_safe_witness :
  ∃ before u after,
    AnalyzeDependencies (fixtures.account fixtures.billingScripts [])
      fixtures.orphan
    = Ok (before ++ u :: after)
    ∧ length before = 0%nat
    ∧ ResourceUsage.ResourceID u = "db-9"
    ∧ ResourceUsage.ResourceType u = BindingTypeD1
    ∧ ResourceUsage.UsedBy u = ["orphan"]
    ∧ ResourceUsage.RiskLevel u = RiskLevelSafe.
Proof.
  apply (untracked_binding_is_safe
           (fixtures.account fixtures.billingScripts []) fixtures.orphan
           (map (fun s => WorkerInfo.mk s.1 "acct" 0 0 [])
              fixtures.billingScripts)
           [fixtures.envBinding "MODE"] []
           (fixtures.d1Binding "DB" "db-9")).
  - reflexivity.
  - reflexivity.
  - intros H. vm_compute in H. discriminate H.
  - vm_compute. reflexivity.
Defined.

Lemma omap_cons_app {A B : Type} (f : A -> option B) (x : A) (l : list A) :
  omap f (x :: l) = option_list (f x) ++ omap f l.
Proof. simpl. by destruct (f x). Qed.



Lemma omap_issued_all (plan : DeletionPlan.t) (resources : list ResourceUsage.t) :
  DeletionPlan.DeleteShared plan = true →
  omap (issued plan) resources = omap usageCall resources.
Proof.
  intros Hshared. induction resources as [|u us IH]; [done|].
  rewrite !omap_cons_app, IH. unfold issued, skippedByPolicy.
  by rewrite Hshared.
Qed.

(** * Further properties *)

(** ** The index *)

Section Index.
Context {R : Type} (client : Client R).

Lemma sightingsOf_app (k : string) (l1 l2 : list (string * Binding.t)) :
  sightingsOf k (l1 ++ l2) = sightingsOf k l1 ++ sightingsOf k l2.
Proof. apply filter_app. Qed.

Lemma sightingsOf_snoc (k : string) (seen : list (string * Binding.t))
  (workerName : string) (binding : Binding.t) :
  sightingsOf k (seen ++ [(workerName, binding)])
  = sightingsOf k seen
    ++ (if decide (getResourceKey binding = k)
        then [(workerName, binding)] else []).
Proof.
  rewrite sightingsOf_app. reflexivity.
Qed.

Lemma recordBinding_lookup (workerName : string)
  (resourceMap : gmap string ResourceUsage.t) (binding : Binding.t)
  (seen : list (string * Binding.t)) :
  (∀ k, resourceMap !! k = indexEntry k seen) →
  ∀ k, recordBinding workerName resourceMap binding !! k
       = indexEntry k (seen ++ [(workerName, binding)]).
Proof.
  intros Hm k. unfold recordBinding. cbv zeta.
  unfold indexEntry. rewrite !sightingsOf_snoc.
  destruct (decide (getResourceKey binding = EmptyString)) as [Hk|Hk].
  - rewrite Hm. unfold indexEntry. destruct (decide (k = EmptyString)); [done|].
    destruct (decide (getResourceKey binding = k)); [congruence|].
    by rewrite app_nil_r.
  - rewrite lookup_alter.
    destruct (decide (getResourceKey binding = k)) as [<-|Hne].
    + rewrite decide_False by done.
      specialize (Hm (getResourceKey binding)). unfold indexEntry in Hm.
      rewrite decide_False in Hm by done.
      destruct (resourceMap !! getResourceKey binding) as [u0|] eqn:Hu0.
      * rewrite Hu0. destruct (sightingsOf _ seen) as [|[n0 b0] rest]; [done|].
        injection Hm as ->. cbn. by rewrite map_app.
      * rewrite lookup_insert_eq.
        destruct (sightingsOf _ seen) as [|[n0 b0] rest]; [|done]. done.
    + destruct (resourceMap !! getResourceKey binding) as [u0|];
        rewrite ?lookup_insert_ne by done; rewrite Hm; unfold indexEntry;
        by rewrite app_nil_r.
Qed.

Lemma recordBindings_lookup (workerName : string) (bindings : list Binding.t)
  (resourceMap : gmap string ResourceUsage.t)
  (seen : list (string * Binding.t)) :
  (∀ k, resourceMap !! k = indexEntry k seen) →
  ∀ k, fold_left (recordBinding workerName) bindings resourceMap !! k
       = indexEntry k (seen ++ map (pair workerName) bindings).
Proof.
  revert resourceMap seen.
  induction bindings as [|b bs IH]; intros m seen Hm k; simpl.
  - by rewrite app_nil_r.
  - rewrite (IH _ (seen ++ [(workerName, b)])).
    + by rewrite <- app_assoc.
    + by apply recordBinding_lookup.
Qed.

Lemma recordWorker_lookup (resourceMap : gmap string ResourceUsage.t)
  (worker : WorkerInfo.t) (seen : list (string * Binding.t)) :
  (∀ k, resourceMap !! k = indexEntry k seen) →
  ∀ k, recordWorker client resourceMap worker !! k
       = indexEntry k
           (seen ++ map (pair (WorkerInfo.Name worker))
                      (bindingsSeen client worker)).
Proof.
  intros Hm k. unfold recordWorker, bindingsSeen.
  destruct (GetWorker client (WorkerInfo.Name worker)) as [fullWorker|].
  - by apply recordBindings_lookup.
  - simpl. by rewrite app_nil_r.
Qed.

Lemma recordWorkers_lookup (allWorkers : list WorkerInfo.t)
  (resourceMap : gmap string ResourceUsage.t)
  (seen : list (string * Binding.t)) :
  (∀ k, resourceMap !! k = indexEntry k seen) →
  ∀ k, fold_left (recordWorker client) allWorkers resourceMap !! k
       = indexEntry k (seen ++ sightings client allWorkers).
Proof.
  revert resourceMap seen.
  induction allWorkers as [|w ws IH]; intros m seen Hm k; simpl.
  - by rewrite app_nil_r.
  - rewrite (IH _ (seen ++ map (pair (WorkerInfo.Name w))
                              (bindingsSeen client w))).
    + by rewrite <- app_assoc.
    + by apply recordWorker_lookup.
Qed.

End Index.

Lemma index_lookup {R : Type} (client : Client R)
  (allWorkers : list WorkerInfo.t) (k : string) :
  buildResourceMap client allWorkers !! k
  = indexEntry k (sightings client allWorkers).
Proof.
  unfold buildResourceMap.
  rewrite (recordWorkers_lookup client allWorkers ∅ []); [done|].
  intros j. rewrite lookup_empty. unfold indexEntry.
  by destruct (decide (j = EmptyString)).
Qed.

(** X1.  The index of the account, key by key: the empty key is never
    present; any other key is present exactly when some visited binding
    has it, and then its entry is described by the first such binding in
    scan order (ID, kind, provisional name) and lists the scanning
    worker's name once per such binding, in scan order. *)
Theorem buildResourceMap_lookup {R : Type} (client : Client R)
  (allWorkers : list WorkerInfo.t) (k : string) :
  buildResourceMap client allWorkers !! k
  = if decide (k = EmptyString) then None
    else
      match sightingsOf k (sightings client allWorkers) with
      | [] => None
      | (_, b0) :: _ =>
          Some (ResourceUsage.mk (getResourceID b0) (Binding.Type' b0)
                  (getResourceName b0)
                  (map fst (sightingsOf k (sightings client allWorkers)))
                  RiskLevelSafe)
      end.
Proof. apply index_lookup. Qed.

(** ** Reading a worker *)

Lemma findWorker_Some (name : string) (workers : list WorkerInfo.t)
  (w : WorkerInfo.t) :
  findWorker name workers = Some w → w ∈ workers ∧ WorkerInfo.Name w = name.
Proof.
  induction workers as [|x xs IH]; [done|]. simpl.
  destruct (decide (WorkerInfo.Name x = name)) as [Hx|Hx].
  - intros [= <-]. split; [by left | done].
  - intros [Hin Hn]%IH. split; [by right | done].
Qed.

Lemma findWorker_listed (name : string) (workers : list WorkerInfo.t) :
  name ∈ map WorkerInfo.Name workers → is_Some (findWorker name workers).
Proof.
  induction workers as [|x xs IH]; simpl.
  - by intros ?%elem_of_nil.
  - intros [Hx|Hin]%elem_of_cons;
      destruct (decide (WorkerInfo.Name x = name)); eauto; congruence.
Qed.

Lemma findWorker_unlisted (name : string) (workers : list WorkerInfo.t) :
  name ∉ map WorkerInfo.Name workers → findWorker name workers = None.
Proof.
  induction workers as [|x xs IH]; [done|]. simpl. intros Hnot.
  destruct (decide (WorkerInfo.Name x = name)) as [Hx|Hx].
  - exfalso. apply Hnot. rewrite Hx. by left.
  - apply IH. intros Hin. apply Hnot. by right.
Qed.

(** X2.  One call of [GetWorker], by the answer of the listing it
    makes.  When the listing fails, its error is wrapped once more;
    when it succeeds, a listed name gives that worker with the client's
    account ID and the bindings of the settings endpoint, or with no
    bindings when they cannot be fetched, and an unlisted name fails
    with "worker not found". *)
Theorem GetWorker_listed {R : Type} (client : Client R) (name : string) :
  match ListWorkers client with
  | Err err =>
      GetWorker client name = Err (Wrapf "failed to list workers" err)
  | Ok allWorkers =>
      (name ∈ map WorkerInfo.Name allWorkers →
       ∃ fullWorker,
         GetWorker client name = Ok fullWorker
         ∧ WorkerInfo.Name fullWorker = name
         ∧ WorkerInfo.AccountID fullWorker = accountID client
         ∧ WorkerInfo.Bindings fullWorker
           = match GetWorkerBindings client name with
             | Ok bindings => bindings
             | Err _ => []
             end)
      ∧ (name ∉ map WorkerInfo.Name allWorkers →
         GetWorker client name = Err (Errorf ("worker not found: " +:+ name)))
  end.
Proof.
  destruct (ListWorkers client) as [allWorkers|err] eqn:Hlist.
  2: { unfold GetWorker. by rewrite Hlist. }
  assert (∀ w, w ∈ allWorkers → WorkerInfo.AccountID w = accountID client)
    as Hacct.
  { unfold ListWorkers in Hlist.
    destruct (cf_ListWorkers (cf client)) as [metas|]; [|done].
    injection Hlist as <-. intros w (m & -> & _)%list_elem_of_fmap. done. }
  split.
  - intros [w Hw]%findWorker_listed. unfold GetWorker. rewrite Hlist, Hw.
    destruct (findWorker_Some _ _ _ Hw) as [Hin Hname].
    eexists. split; [reflexivity|]. simpl. auto.
  - intros Hnot. unfold GetWorker.
    by rewrite Hlist, (findWorker_unlisted _ _ Hnot).
Qed.

(** ** The analysis result *)

(** Two maps with the same keys whose entries agree on ID, kind and
    usage list. *)
Lemma Forall2_and {A B : Type} (P Q : A -> B -> Prop) (l : list A)
  (k : list B) :
  Forall2 P l k → Forall2 Q l k → Forall2 (fun x y => P x y ∧ Q x y) l k.
Proof.
  intros HP. induction HP as [|x y l k Hxy _ IH]; intros HQ.
  - constructor.
  - apply Forall2_cons_1 in HQ as [? ?]. constructor; auto.
Qed.

Section Users.
Context {R : Type} (client : Client R) (targetWorker : WorkerInfo.t).

Lemma collectBinding_agree (m0 m : gmap string ResourceUsage.t)
  (acc : list ResourceUsage.t) (binding : Binding.t) :
  agreeCore m0 m →
  agreeCore m0 (collectBinding client targetWorker (m, acc) binding).1.
Proof.
  intros Hm. destruct (decide (getResourceKey binding = EmptyString)) as [Hk|Hk].
  - by rewrite collectBinding_unkeyed.
  - destruct (collectBinding_keyed client targetWorker m acc binding Hk)
      as (u & -> & _ & Hu). cbn [fst].
    destruct (m !! getResourceKey binding) as [u1|] eqn:Hu1; [|done].
    destruct Hu as (Hid & Hty & Hused). intros k. specialize (Hm k).
    destruct (decide (getResourceKey binding = k)) as [<-|Hne].
    + rewrite lookup_insert_eq. rewrite Hu1 in Hm.
      destruct (m0 !! getResourceKey binding) as [u0|]; [|done].
      destruct Hm as (? & ? & ?). repeat split; congruence.
    + by rewrite lookup_insert_ne.
Qed.

Lemma collectBindings_users (bindings : list Binding.t)
  (m0 m : gmap string ResourceUsage.t) :
  agreeCore m0 m →
  Forall2
    (fun b u =>
       hasKey b
       ∧ ResourceUsage.UsedBy u
         = match m0 !! getResourceKey b with
           | Some u0 => ResourceUsage.UsedBy u0
           | None => [WorkerInfo.Name targetWorker]
           end)
    (filter hasKey bindings)
    (collectBindings client targetWorker m bindings).2.
Proof.
  revert m. induction bindings as [|b bs IH]; intros m Hm.
  - constructor.
  - rewrite collectBindings_cons, filter_cons. cbn [fst snd].
    pose proof (collectBinding_agree m0 m [] b Hm) as Hm1.
    destruct (decide (hasKey b)) as [Hk|Hk].
    + destruct (collectBinding_keyed client targetWorker m [] b Hk)
        as (u & Hstep & _ & Hu).
      rewrite Hstep in *. cbn [fst snd app] in *.
      constructor; [|by apply IH]. split; [done|].
      specialize (Hm (getResourceKey b)).
      destruct (m !! getResourceKey b) as [u1|];
        destruct (m0 !! getResourceKey b) as [u0|]; try done.
      * destruct Hu as (_ & _ & ->). by destruct Hm as (_ & _ & ->).
      * by subst u.
    + apply dec_stable in Hk. rewrite collectBinding_unkeyed in * by done.
      cbn [fst snd app]. by apply IH.
Qed.

Lemma collectBindings_ids (bindings : list Binding.t)
  (m0 m : gmap string ResourceUsage.t) :
  agreeCore m0 m →
  Forall2
    (fun b u =>
       hasKey b
       ∧ ResourceUsage.ResourceID u
         = match m0 !! getResourceKey b with
           | Some u0 => ResourceUsage.ResourceID u0
           | None => getResourceID b
           end)
    (filter hasKey bindings)
    (collectBindings client targetWorker m bindings).2.
Proof.
  revert m. induction bindings as [|b bs IH]; intros m Hm.
  - constructor.
  - rewrite collectBindings_cons, filter_cons. cbn [fst snd].
    pose proof (collectBinding_agree m0 m [] b Hm) as Hm1.
    destruct (decide (hasKey b)) as [Hk|Hk].
    + destruct (collectBinding_keyed client targetWorker m [] b Hk)
        as (u & Hstep & _ & Hu).
      rewrite Hstep in *. cbn [fst snd app] in *.
      constructor; [|by apply IH]. split; [done|].
      specialize (Hm (getResourceKey b)).
      destruct (m !! getResourceKey b) as [u1|];
        destruct (m0 !! getResourceKey b) as [u0|]; try done.
      * destruct Hu as (-> & _ & _). by destruct Hm as (-> & _ & _).
      * by subst u.
    + apply dec_stable in Hk. rewrite collectBinding_unkeyed in * by done.
      cbn [fst snd app]. by apply IH.
Qed.

End Users.

Lemma analysis_users {R : Type} (client : Client R)
  (targetWorker : WorkerInfo.t) (allWorkers : list WorkerInfo.t) :
  ListWorkers client = Ok allWorkers →
  ∃ res,
    AnalyzeDependencies client targetWorker = Ok res
    ∧ Forall2
        (fun b u =>
           (describes b u
            ∧ ResourceUsage.RiskLevel u
              = calculateRiskLevel (ResourceUsage.UsedBy u)
                  (WorkerInfo.Name targetWorker))
           ∧ ResourceUsage.UsedBy u
             = usersOf (getResourceKey b) (sightings client allWorkers)
                 (WorkerInfo.Name targetWorker))
        (filter hasKey (WorkerInfo.Bindings targetWorker)) res.
Proof.
  intros Hlist. unfold AnalyzeDependencies. rewrite Hlist.
  eexists. split; [reflexivity|]. apply Forall2_and.
  - apply collectBindings_entries, buildResourceMap_tracked.
  - eapply Forall2_impl.
    + apply (collectBindings_users client targetWorker _
               (buildResourceMap client allWorkers)).
      intros k. destruct (buildResourceMap client allWorkers !! k); done.
    + intros b u [Hk ->]. cbv beta.
      rewrite (index_lookup client allWorkers (getResourceKey b)).
      unfold indexEntry, usersOf. rewrite decide_False by done.
      by destruct (sightingsOf _ _) as [|[n0 b0] rest].
Qed.

Lemma getResourceKey_same_ID (b0 b : Binding.t) :
  getResourceKey b0 = getResourceKey b →
  getResourceKey b ≠ EmptyString →
  Binding.Type' b ≠ BindingTypeDurableObject →
  getResourceID b0 = getResourceID b.
Proof.
  intros Heq Hne Hdo.
  destruct (getResourceKey_inj b0 b Heq Hne) as [Hty _].
  unfold getResourceID, getResourceKey in *. cbv zeta in *.
  rewrite Hty in *.
  repeat case_decide; try done; simpl in Heq; injection Heq as Heq;
    cbv [String.append] in Heq; congruence.
Qed.

Lemma analysis_ids {R : Type} (client : Client R)
  (targetWorker : WorkerInfo.t) (allWorkers : list WorkerInfo.t) :
  Forall2
    (fun b u =>
       Binding.Type' b ≠ BindingTypeDurableObject →
       ResourceUsage.ResourceID u = getResourceID b)
    (filter hasKey (WorkerInfo.Bindings targetWorker))
    (collectBindings client targetWorker (buildResourceMap client allWorkers)
       (WorkerInfo.Bindings targetWorker)).2.
Proof.
  eapply Forall2_impl.
  - apply (collectBindings_ids client targetWorker _
             (buildResourceMap client allWorkers)).
    intros k. destruct (buildResourceMap client allWorkers !! k); done.
  - intros b u [Hk ->] Hdo. cbv beta.
    rewrite (index_lookup client allWorkers (getResourceKey b)).
    unfold indexEntry. rewrite decide_False by done.
    destruct (sightingsOf _ _) as [|[n0 b0] rest] eqn:Hs; [done|].
    cbn. apply getResourceKey_same_ID; [|done|done].
    assert ((n0, b0) ∈ sightingsOf (getResourceKey b)
                         (sightings client allWorkers)) as Hin
      by (rewrite Hs; apply list_elem_of_here).
    unfold sightingsOf in Hin. by apply list_elem_of_filter in Hin as [? _].
Qed.

(** X3.  Over an account whose listing succeeds the analysis succeeds,
    and its result lines up with the keyed bindings of the target, in
    order.  The entry of a binding has the binding's kind and delete
    endpoint and, for every kind but the stateful-object class, the
    binding's resource ID; its usage list names the scanning worker of
    every visited binding with the same key, once per binding and in
    scan order, or the target alone when no visited binding has that
    key; and its level is the classification of that list against the
    target. *)
Theorem AnalyzeDependencies_users {R : Type} (client : Client R)
  (targetWorker : WorkerInfo.t) (allWorkers : list WorkerInfo.t) :
  ListWorkers client = Ok allWorkers →
  ∃ res,
    AnalyzeDependencies client targetWorker = Ok res
    ∧ Forall2
        (fun b u =>
           ((describes b u
             ∧ ResourceUsage.RiskLevel u
               = calculateRiskLevel (ResourceUsage.UsedBy u)
                   (WorkerInfo.Name targetWorker))
            ∧ ResourceUsage.UsedBy u
              = usersOf (getResourceKey b) (sightings client allWorkers)
                  (WorkerInfo.Name targetWorker))
           ∧ (Binding.Type' b ≠ BindingTypeDurableObject →
              ResourceUsage.ResourceID u = getResourceID b))
        (filter hasKey (WorkerInfo.Bindings targetWorker)) res.
Proof.
  intros Hlist.
  destruct (analysis_users client targetWorker allWorkers Hlist)
    as (res & Hres & Hall).
  exists res. split; [done|]. apply Forall2_and; [exact Hall|].
  unfold AnalyzeDependencies in Hres. rewrite Hlist in Hres.
  injection Hres as <-. apply analysis_ids.
Qed.

Lemma AnalyzeDependencies_users_witness :
  ∃ res,
    AnalyzeDependencies (fixtures.account fixtures.billingScripts [])
      fixtures.billing
    = Ok res
    ∧ Forall2
        (fun b u =>
           ((describes b u
             ∧ ResourceUsage.RiskLevel u
               = calculateRiskLevel (ResourceUsage.UsedBy u) "billing-svc")
            ∧ ResourceUsage.UsedBy u
              = usersOf (getResourceKey b)
                  (sightings (fixtures.account fixtures.billingScripts [])
                     (map (fun s => WorkerInfo.mk s.1 "acct" 0 0 [])
                        fixtures.billingScripts))
                  "billing-svc")
           ∧ (Binding.Type' b ≠ BindingTypeDurableObject →
              ResourceUsage.ResourceID u = getResourceID b))
        (filter hasKey (WorkerInfo.Bindings fixtures.billing)) res.
Proof.
  exact (AnalyzeDependencies_users
           (fixtures.account fixtures.billingScripts []) fixtures.billing
           (map (fun s => WorkerInfo.mk s.1 "acct" 0 0 [])
              fixtures.billingScripts)
           eq_refl).
Defined.

Lemma sightings_elem {R : Type} (client : Client R)
  (allWorkers : list WorkerInfo.t) (worker : WorkerInfo.t) (b : Binding.t) :
  worker ∈ allWorkers → b ∈ bindingsSeen client worker →
  (WorkerInfo.Name worker, b) ∈ sightings client allWorkers.
Proof.
  intros Hw Hb. induction allWorkers as [|x xs IH].
  - by apply elem_of_nil in Hw.
  - unfold sightings. simpl. apply elem_of_app.
    apply elem_of_cons in Hw as [->|Hw].
    + left. by apply (list_elem_of_fmap_2 (pair (WorkerInfo.Name x))).
    + right. by apply IH.
Qed.

Lemma usersOf_elem (k : string) (seen : list (string * Binding.t))
  (targetName n : string) (b : Binding.t) :
  (n, b) ∈ seen → getResourceKey b = k → n ∈ usersOf k seen targetName.
Proof.
  intros Hin Hk. unfold usersOf.
  assert ((n, b) ∈ sightingsOf k seen) as Hs.
  { unfold sightingsOf. by apply list_elem_of_filter. }
  destruct (sightingsOf k seen) as [|x l] eqn:E.
  - by apply elem_of_nil in Hs.
  - by apply (list_elem_of_fmap_2 fst _ (n, b)).
Qed.

Lemma calculateRiskLevel_other (usedBy : list string) (target n : string) :
  n ∈ usedBy → n ≠ target → calculateRiskLevel usedBy target ≠ RiskLevelSafe.
Proof.
  intros Hin Hn. unfold calculateRiskLevel. rewrite countOthers_length.
  assert (n ∈ filter (fun w => w ≠ target) usedBy) as Hf
    by by apply list_elem_of_filter.
  destruct (filter (fun w => w ≠ target) usedBy) as [|x l].
  - by apply elem_of_nil in Hf.
  - cbn [length]. repeat case_decide; (done || lia).
Qed.

Lemma calculateRiskLevel_safe (usedBy : list string) (target : string) :
  calculateRiskLevel usedBy target = RiskLevelSafe →
  Forall (fun w => w = target) usedBy.
Proof.
  intros Hsafe. apply Forall_forall. intros n Hin. apply dec_stable.
  intros Hn. by apply (calculateRiskLevel_other usedBy target n).
Qed.

(** X4.  When the scan reads, for a listed worker of the target's name,
    every binding of the target, the analysis has one entry per keyed
    binding of the target and every entry's usage list names the
    target itself: the fresh "target alone" entry is then never needed,
    and Safe means that only workers of the target's name were seen on
    the resource. *)
Theorem scanned_target_is_user {R : Type} (client : Client R)
  (targetWorker : WorkerInfo.t) (allWorkers : list WorkerInfo.t)
  (worker : WorkerInfo.t) :
  ListWorkers client = Ok allWorkers →
  worker ∈ allWorkers →
  WorkerInfo.Name worker = WorkerInfo.Name targetWorker →
  (∀ b, b ∈ WorkerInfo.Bindings targetWorker → b ∈ bindingsSeen client worker) →
  ∃ res,
    AnalyzeDependencies client targetWorker = Ok res
    ∧ length res = length (filter hasKey (WorkerInfo.Bindings targetWorker))
    ∧ ∀ u, u ∈ res →
        WorkerInfo.Name targetWorker ∈ ResourceUsage.UsedBy u
        ∧ (ResourceUsage.RiskLevel u = RiskLevelSafe →
           Forall (fun n => n = WorkerInfo.Name targetWorker)
             (ResourceUsage.UsedBy u)).
Proof.
  intros Hlist Hw Hname Hseen.
  destruct (analysis_users client targetWorker allWorkers Hlist)
    as (res & Hres & Hall).
  exists res. split; [done|]. split.
  { symmetry. by eapply Forall2_length. }
  intros u Hu.
  destruct (Forall2_elem_r _ _ _ u Hall Hu) as (b & Hb & [_ Hlevel] & Hused).
  apply list_elem_of_filter in Hb as [_ Hb]. split.
  - rewrite Hused. apply (usersOf_elem _ _ _ _ b); [|done].
    rewrite <- Hname. apply sightings_elem; [done|]. by apply Hseen.
  - intros Hsafe. apply calculateRiskLevel_safe. by rewrite <- Hlevel.
Qed.

Lemma scanned_target_is_user_witness :
  ∃ res,
    AnalyzeDependencies (fixtures.account fixtures.billingScripts [])
      fixtures.billing
    = Ok res
    ∧ length res = 2%nat
    ∧ ∀ u, u ∈ res →
        "billing-svc" ∈ ResourceUsage.UsedBy u
        ∧ (ResourceUsage.RiskLevel u = RiskLevelSafe →
           Forall (fun n => n = "billing-svc") (ResourceUsage.UsedBy u)).
Proof.
  apply (scanned_target_is_user
           (fixtures.account fixtures.billingScripts []) fixtures.billing
           (map (fun s => WorkerInfo.mk s.1 "acct" 0 0 [])
              fixtures.billingScripts)
           (WorkerInfo.mk "billing-svc" "acct" 0 0 [])).
  - reflexivity.
  - apply list_elem_of_here.
  - reflexivity.
  - intros b Hb. exact Hb.
Defined.

(** ** The executor, whatever the mode *)

Section Runs.
Context {R : Type} (d : Deleter R).

Lemma Execute_simulated (plan : DeletionPlan.t) (w : World R) :
  dryRun d = true →
  Execute d plan w
  = (DeletionResult.mk true true
       (map ResourceUsage.ResourceName (DeletionPlan.ResourcesToDelete plan))
       [] [],
     None, w).
Proof.
  intros Hdry. unfold Execute. rewrite Hdry. cbn [DeletionResult.Success
    DeletionResult.ResourcesDeleted DeletionResult.ResourcesSkipped
    DeletionResult.Errors].
  by rewrite fold_recordDeleted, ret_run.
Qed.

(** The three shapes of a run. *)
Lemma Execute_cases (plan : DeletionPlan.t) (w : World R) :
  (dryRun d = true
   ∧ Execute d plan w
     = (DeletionResult.mk true true
          (map ResourceUsage.ResourceName (DeletionPlan.ResourcesToDelete plan))
          [] [],
        None, w))
  ∨ (∃ err s,
       dryRun d = false
       ∧ Execute d plan w
         = (DeletionResult.mk false false [] []
              [Wrapf "failed to delete worker"
                 (Wrapf "failed to delete worker" err)],
            Some (Wrapf "failed to delete worker" err),
            mkWorld s
              (calls w
                 ++ [CallDeleteWorker
                       (WorkerInfo.Name (DeletionPlan.Worker plan))])))
  ∨ (∃ trace w',
       dryRun d = false
       ∧ map fst trace = DeletionPlan.ResourcesToDelete plan
       ∧ calls w'
         = calls w
           ++ CallDeleteWorker (WorkerInfo.Name (DeletionPlan.Worker plan))
              :: omap (issued plan) (DeletionPlan.ResourcesToDelete plan)
       ∧ (∀ u o, (u, o) ∈ trace →
            (o = Kept ↔ skippedByPolicy plan u = true)
            ∧ (∀ err, o = Failed err →
                 (∃ call e, usageCall u = Some call
                            ∧ err = Wrapf (failureMessage call) e)
                 ∨ (usageCall u = None
                    ∧ ResourceUsage.ResourceType u ∉ keyedKinds)))
       ∧ Execute d plan w
         = (DeletionResult.mk (bool_decide (failures trace = [])) true
              (namesWhere isRemoved trace) (namesWhere isSkipped trace)
              (failures trace),
            None, w')).
Proof.
  destruct (dryRun d) eqn:Hdry.
  { left. split; [done|]. by apply Execute_simulated. }
  right.
  destruct (cf_Delete (cf (client d))
              (CallDeleteWorker (WorkerInfo.Name (DeletionPlan.Worker plan)))
              (remote w)) as [[err|] s] eqn:Hdel.
  { left. exists err, s. split; [done|]. by apply Execute_stopped. }
  right. rewrite (Execute_real d plan w s Hdry Hdel). cbv zeta.
  set (w1 := mkWorld s _).
  exists (attempts d plan (DeletionPlan.ResourcesToDelete plan) w1).1,
         (attempts d plan (DeletionPlan.ResourcesToDelete plan) w1).2.
  split; [done|]. split; [apply attempts_resources|].
  split.
  { rewrite attempts_calls. subst w1. cbn [calls]. by rewrite <- app_assoc. }
  split; [|done].
  generalize w1. clear.
  induction (DeletionPlan.ResourcesToDelete plan) as [|x xs IH]; intros w1 u o.
  - cbn. by intros ?%elem_of_nil.
  - rewrite attempts_cons. cbn [fst].
    intros [[= -> ->]|Hin]%elem_of_cons; [|by eapply IH].
    unfold attempt. destruct (skippedByPolicy plan x) eqn:Hskip.
    + rewrite ret_run. cbn [fst]. split; [done|]. done.
    + rewrite bind_run, ret_run. cbn [fst].
      destruct (usageCall x) as [call|] eqn:Hcall.
      * rewrite (deleteResource_result d x call w1 Hcall).
        destruct (cf_Delete (cf (client d)) call (remote w1)).1 as [e|];
          cbn; (split; [done|]); [|done].
        intros err [= <-]. left. eauto.
      * assert ((deleteResource d x w1).1 = None
                ∨ ((deleteResource d x w1).1
                   = Some (Errorf ("unsupported resource type: "
                                     +:+ ResourceUsage.ResourceType x))
                   ∧ ResourceUsage.ResourceType x ∉ keyedKinds)) as Hno.
        { unfold usageCall, callOf in Hcall. unfold deleteResource.
          cbv zeta. unfold keyedKinds.
          repeat case_decide; try done; try (by left).
          right. split; [done|].
          rewrite !elem_of_cons, elem_of_nil. tauto. }
        destruct Hno as [->|[-> Hkind]]; (split; [done|]); [done|].
        intros err [= <-]. right. done.
Qed.

End Runs.

Lemma bindingCall_key (b : Binding.t) (call : Call) :
  bindingCall b = Some call → getResourceKey b = keyOfCall call.
Proof.
  unfold bindingCall, callOf, getResourceID, getResourceKey. cbv zeta.
  repeat case_decide; try done; by intros [= <-].
Qed.

Lemma bindingCall_not_worker (b : Binding.t) (call : Call) (name : string) :
  bindingCall b = Some call → call ≠ CallDeleteWorker name.
Proof.
  unfold bindingCall, callOf. repeat case_decide; try done; by intros [= <-].
Qed.

(** X5.  A plan as [CreateDeletionPlan] builds it, in either mode and
    executed as built, never has the delete call of a resource issued
    that the scan saw bound to a worker other than the target: in
    exclusive-only mode the resource is not in the plan, otherwise it is
    skipped by policy. *)
Theorem shared_resource_spared_by_default {R : Type} (d : Deleter R)
  (targetWorker : WorkerInfo.t) (allWorkers : list WorkerInfo.t)
  (res : list ResourceUsage.t) (n : string) (b : Binding.t) (call : Call)
  (exclusiveOnly : bool) (w : World R) :
  ListWorkers (client d) = Ok allWorkers →
  AnalyzeDependencies (client d) targetWorker = Ok res →
  (n, b) ∈ sightings (client d) allWorkers →
  n ≠ WorkerInfo.Name targetWorker →
  bindingCall b = Some call →
  ∃ issuedCalls,
    calls (Execute d (CreateDeletionPlan targetWorker res exclusiveOnly) w).2
    = calls w ++ issuedCalls
    ∧ call ∉ issuedCalls.
Proof.
  intros Hlist Hres Hseen Hn Hcall.
  set (plan := CreateDeletionPlan targetWorker res exclusiveOnly).
  destruct (Execute_cases d plan w)
    as [[_ ->]|[(err & s & _ & ->)|(trace & w' & _ & _ & Hcalls & _ & ->)]].
  - exists []. split; [by rewrite app_nil_r | apply not_elem_of_nil].
  - eexists. split; [reflexivity|]. intros Hin%list_elem_of_singleton.
    exact (bindingCall_not_worker b call _ Hcall Hin).
  - eexists. split; [exact Hcalls|].
    intros [Hin|Hin]%elem_of_cons.
    { exact (bindingCall_not_worker b call _ Hcall Hin). }
    apply list_elem_of_omap in Hin as (u & Hu & Hissued).
    apply CreateDeletionPlan_subset in Hu.
    unfold issued, skippedByPolicy in Hissued. subst plan.
    rewrite CreateDeletionPlan_fields in Hissued. cbn in Hissued.
    destruct (decide (ResourceUsage.RiskLevel u ≠ RiskLevelSafe)) as [Hr|Hr].
    { by rewrite bool_decide_true in Hissued. }
    rewrite bool_decide_false in Hissued by done. apply dec_stable in Hr.
    destruct (analysis_users (client d) targetWorker allWorkers Hlist)
      as (res' & Hres' & Hall).
    assert (res' = res) as -> by congruence.
    destruct (Forall2_elem_r _ _ _ u Hall Hu)
      as (b0 & _ & [[_ Hd] Hrisk] & Husers).
    assert (getResourceKey b = getResourceKey b0) as Hkey.
    { rewrite (bindingCall_key b call Hcall).
      symmetry. apply bindingCall_key. congruence. }
    apply (calculateRiskLevel_other (ResourceUsage.UsedBy u)
             (WorkerInfo.Name targetWorker) n); [|done|congruence].
    rewrite Husers. by apply (usersOf_elem _ _ _ n b).
Qed.

(** The shared namespace of [billing-svc], with or without
    exclusive-only mode. *)
Lemma shared_resource_spared_by_default_witness :
  let d := NewDeleter (fixtures.account fixtures.billingScripts []) false in
  let res :=
    [ResourceUsage.mk "ns-1" BindingTypeKV "sessions"
       ["billing-svc"; "reports-svc"] RiskLevelCaution;
     ResourceUsage.mk "db-7" BindingTypeD1 "ledger" ["billing-svc"]
       RiskLevelSafe] in
  ∃ issuedCalls,
    calls (Execute d (CreateDeletionPlan fixtures.billing res false)
             (mkWorld fixtures.billingItems [])).2
    = [] ++ issuedCalls
    ∧ CallDeleteKVNamespace "ns-1" ∉ issuedCalls.
Proof.
  intros d res.
  apply (shared_resource_spared_by_default d fixtures.billing
           (map (fun s => WorkerInfo.mk s.1 "acct" 0 0 [])
              fixtures.billingScripts)
           res "reports-svc" (fixtures.kvBinding "KV" "ns-1")
           (CallDeleteKVNamespace "ns-1") false
           (mkWorld fixtures.billingItems [])).
  - reflexivity.
  - vm_compute. reflexivity.
  - vm_compute. apply elem_of_cons. right. apply elem_of_cons. right.
    apply elem_of_cons. left. reflexivity.
  - discriminate.
  - reflexivity.
Defined.

Lemma failures_le_skipped (trace : list (ResourceUsage.t * Outcome)) :
  (length (failures trace) ≤ length (namesWhere isSkipped trace))%nat.
Proof.
  unfold failures, namesWhere. rewrite length_map.
  induction trace as [|[u o] trace IH]; [done|].
  rewrite filter_cons, omap_cons_app. destruct o; cbn -[filter omap];
    repeat case_decide; try done; cbn -[filter omap]; lia.
Qed.

(** X6.  What every run of [Execute] returns, whatever the mode, the
    plan and the account: success means the worker is deleted and no
    error is recorded; a Go error is returned exactly when the worker is
    not deleted, and then nothing is listed as deleted or skipped and
    one error is recorded; when the worker is deleted the deleted and
    the skipped list together have one entry per planned resource, and
    there are at least as many skipped entries as recorded errors. *)
Theorem Execute_result_invariants {R : Type} (d : Deleter R)
  (plan : DeletionPlan.t) (w : World R) :
  let '(result, returned, _) := Execute d plan w in
  (DeletionResult.Success result = true
   ↔ DeletionResult.WorkerDeleted result = true
     ∧ DeletionResult.Errors result = [])
  ∧ (returned = None ↔ DeletionResult.WorkerDeleted result = true)
  ∧ (DeletionResult.WorkerDeleted result = false →
     DeletionResult.ResourcesDeleted result = []
     ∧ DeletionResult.ResourcesSkipped result = []
     ∧ length (DeletionResult.Errors result) = 1%nat)
  ∧ (DeletionResult.WorkerDeleted result = true →
     (length (DeletionResult.ResourcesDeleted result)
      + length (DeletionResult.ResourcesSkipped result)
      = length (DeletionPlan.ResourcesToDelete plan))%nat
     ∧ (length (DeletionResult.Errors result)
        ≤ length (DeletionResult.ResourcesSkipped result))%nat).
Proof.
  destruct (Execute_cases d plan w)
    as [[_ ->]|[(err & s & _ & ->)|(trace & w' & _ & Hres & _ & _ & ->)]];
    cbn.
  - rewrite length_map. repeat split; auto with lia.
  - repeat split; try done; intros [? ?]; done.
  - rewrite namesWhere_split, <- Hres, length_map.
    pose proof (failures_le_skipped trace).
    rewrite bool_decide_eq_true. repeat split; tauto || done.
Qed.

Lemma omap_issued_sublist (plan : DeletionPlan.t)
  (resources : list ResourceUsage.t) :
  omap (issued plan) resources `sublist_of` omap usageCall resources.
Proof.
  induction resources as [|u us IH]; [done|].
  rewrite !omap_cons_app. unfold issued at 1.
  destruct (skippedByPolicy plan u); destruct (usageCall u); cbn;
    auto using sublist_skip, sublist_cons.
Qed.

(** X7.  No call is repeated or invented: the delete calls one run
    issues are, in this order, at most the worker delete followed by the
    delete of each planned KV namespace, R2 bucket and D1 database, each
    planned entry giving rise to at most one call; stateful-object,
    service, queue and unsupported entries give rise to none. *)
Theorem Execute_calls_at_most_once {R : Type} (d : Deleter R)
  (plan : DeletionPlan.t) (w : World R) :
  ∃ issuedCalls,
    calls (Execute d plan w).2 = calls w ++ issuedCalls
    ∧ issuedCalls
      `sublist_of`
      CallDeleteWorker (WorkerInfo.Name (DeletionPlan.Worker plan))
        :: omap usageCall (DeletionPlan.ResourcesToDelete plan).
Proof.
  destruct (Execute_cases d plan w)
    as [[_ ->]|[(err & s & _ & ->)|(trace & w' & _ & _ & Hcalls & _ & ->)]].
  - exists []. split; [by rewrite app_nil_r | apply sublist_nil_l].
  - eexists. split; [reflexivity|]. apply sublist_skip, sublist_nil_l.
  - eexists. split; [exact Hcalls|]. apply sublist_skip, omap_issued_sublist.
Qed.

Lemma omap_issued_policy (plan : DeletionPlan.t)
  (resources : list ResourceUsage.t) :
  omap (issued plan) resources
  = omap usageCall
      (if DeletionPlan.DeleteShared plan then resources
       else filter (fun u => ResourceUsage.RiskLevel u = RiskLevelSafe)
              resources).
Proof.
  destruct (DeletionPlan.DeleteShared plan) eqn:Hshared.
  { by apply omap_issued_all. }
  induction resources as [|u us IH]; [done|].
  rewrite filter_cons, omap_cons_app, IH. unfold issued, skippedByPolicy.
  rewrite Hshared. cbn [negb andb].
  destruct (decide (ResourceUsage.RiskLevel u = RiskLevelSafe)) as [Hu|Hu].
  - rewrite bool_decide_false by (intros ?; done). by rewrite omap_cons_app.
  - by rewrite bool_decide_true.
Qed.

Lemma trace_outcome (trace : list (ResourceUsage.t * Outcome))
  (u : ResourceUsage.t) :
  u ∈ map fst trace → ∃ o, (u, o) ∈ trace.
Proof.
  intros ([u' o] & -> & Hin)%list_elem_of_fmap. by exists o.
Qed.

(** X8.  The policy of step 2, in real mode once the worker is deleted.
    With [DeleteShared] set every planned resource is attempted; without
    it only the Safe ones are, the others being listed as skipped
    without any call. *)
Theorem Execute_policy {R : Type} (d : Deleter R) (plan : DeletionPlan.t)
  (w : World R) (s : R) :
  dryRun d = false →
  cf_Delete (cf (client d))
    (CallDeleteWorker (WorkerInfo.Name (DeletionPlan.Worker plan))) (remote w)
  = (None, s) →
  calls (Execute d plan w).2
  = calls w
    ++ CallDeleteWorker (WorkerInfo.Name (DeletionPlan.Worker plan))
       :: omap usageCall
            (if DeletionPlan.DeleteShared plan
             then DeletionPlan.ResourcesToDelete plan
             else filter (fun u => ResourceUsage.RiskLevel u = RiskLevelSafe)
                    (DeletionPlan.ResourcesToDelete plan))
  ∧ ∀ u, u ∈ DeletionPlan.ResourcesToDelete plan →
      DeletionPlan.DeleteShared plan = false →
      ResourceUsage.RiskLevel u ≠ RiskLevelSafe →
      ResourceUsage.ResourceName u
      ∈ DeletionResult.ResourcesSkipped (Execute d plan w).1.1.
Proof.
  intros Hdry Hdel.
  destruct (Execute_cases d plan w)
    as [[? _]|[(err & s' & _ & Heq)|(trace & w' & _ & Hres & Hcalls & Hout & ->)]].
  - congruence.
  - rewrite (Execute_real d plan w s Hdry Hdel) in Heq. done.
  - cbn. split; [by rewrite Hcalls, omap_issued_policy|].
    intros u Hu Hshared Hrisk. rewrite <- Hres in Hu.
    destruct (trace_outcome trace u Hu) as [o Ho].
    apply (namesWhere_elem isSkipped trace u o Ho).
    destruct (Hout u o Ho) as [Hkept _].
    assert (o = Kept) as ->; [|done]. apply Hkept.
    unfold skippedByPolicy. rewrite Hshared. by rewrite bool_decide_true.
Qed.

Lemma Execute_policy_witness :
  let d := NewDeleter (fixtures.account fixtures.billingScripts []) false in
  let plan :=
    DeletionPlan.mk fixtures.billing
      [ResourceUsage.mk "ns-1" BindingTypeKV "sessions"
         ["billing-svc"; "reports-svc"] RiskLevelCaution;
       ResourceUsage.mk "db-7" BindingTypeD1 "ledger" ["billing-svc"]
         RiskLevelSafe] true false false in
  calls (Execute d plan (mkWorld fixtures.billingItems [])).2
  = [CallDeleteWorker "billing-svc"; CallDeleteD1Database "db-7"].
Proof.
  intros d plan.
  exact (proj1 (Execute_policy d plan (mkWorld fixtures.billingItems [])
                  [CallDeleteKVNamespace "ns-1"; CallDeleteD1Database "db-7"]
                  eq_refl eq_refl)).
Defined.

Lemma namesWhere_policy (plan : DeletionPlan.t)
  (trace : list (ResourceUsage.t * Outcome)) :
  (∀ u o, (u, o) ∈ trace → o = Kept ↔ skippedByPolicy plan u = true) →
  failures trace = [] →
  namesWhere isSkipped trace
  = map ResourceUsage.ResourceName
      (filter (fun u => skippedByPolicy plan u = true) (map fst trace))
  ∧ namesWhere isRemoved trace
    = map ResourceUsage.ResourceName
        (filter (fun u => skippedByPolicy plan u = false) (map fst trace)).
Proof.
  unfold namesWhere, failures.
  induction trace as [|[u o] trace IH]; intros Hout Hfail; [done|].
  rewrite omap_cons_app in Hfail. apply app_eq_nil in Hfail as [Ho Hfail].
  destruct IH as [IHs IHr]; [|done|].
  { intros u' o' Hin. apply Hout. by right. }
  specialize (Hout u o (list_elem_of_here _ _)).
  cbn [map fst]. rewrite !filter_cons. cbn [fst snd].
  destruct o; cbn in Ho; [| |done].
  - assert (skippedByPolicy plan u = false) as Hu.
    { destruct (skippedByPolicy plan u); [|done].
      destruct Hout as [_ Hk]. discriminate (Hk eq_refl). }
    rewrite Hu. cbn. repeat case_decide; try done. cbn. by rewrite IHs, IHr.
  - assert (skippedByPolicy plan u = true) as Hu by by apply Hout.
    rewrite Hu. cbn. repeat case_decide; try done. cbn. by rewrite IHs, IHr.
Qed.

(** X9.  When a real run reports success, the skipped list holds
    exactly the planned resources the policy kept (above Safe, with
    [DeleteShared] unset), and the deleted list all the others, both in
    plan order: on success nothing is skipped for any other reason. *)
Theorem Execute_success_lists {R : Type} (d : Deleter R)
  (plan : DeletionPlan.t) (w : World R) :
  dryRun d = false →
  DeletionResult.Success (Execute d plan w).1.1 = true →
  DeletionResult.ResourcesSkipped (Execute d plan w).1.1
  = map ResourceUsage.ResourceName
      (filter (fun u => skippedByPolicy plan u = true)
         (DeletionPlan.ResourcesToDelete plan))
  ∧ DeletionResult.ResourcesDeleted (Execute d plan w).1.1
    = map ResourceUsage.ResourceName
        (filter (fun u => skippedByPolicy plan u = false)
           (DeletionPlan.ResourcesToDelete plan))
  ∧ DeletionResult.WorkerDeleted (Execute d plan w).1.1 = true.
Proof.
  intros Hdry.
  destruct (Execute_cases d plan w)
    as [[? _]|[(err & s' & _ & ->)|(trace & w' & _ & Hres & _ & Hout & ->)]].
  - congruence.
  - done.
  - cbn. intros Hok%bool_decide_eq_true. rewrite <- Hres.
    destruct (namesWhere_policy plan trace) as [-> ->]; [|done|done].
    intros u o Hin. by destruct (Hout u o Hin).
Qed.

Lemma Execute_success_lists_witness :
  let d := NewDeleter (fixtures.account fixtures.billingScripts []) false in
  let plan :=
    DeletionPlan.mk fixtures.billing
      [ResourceUsage.mk "ns-1" BindingTypeKV "sessions"
         ["billing-svc"; "reports-svc"] RiskLevelCaution;
       ResourceUsage.mk "db-7" BindingTypeD1 "ledger" ["billing-svc"]
         RiskLevelSafe] true false false in
  DeletionResult.ResourcesSkipped
    (Execute d plan (mkWorld fixtures.billingItems [])).1.1
  = ["sessions"]
  ∧ DeletionResult.ResourcesDeleted
      (Execute d plan (mkWorld fixtures.billingItems [])).1.1
    = ["ledger"]
  ∧ DeletionResult.WorkerDeleted
      (Execute d plan (mkWorld fixtures.billingItems [])).1.1
    = true.
Proof.
  intros d plan.
  exact (Execute_success_lists d plan (mkWorld fixtures.billingItems [])
           eq_refl eq_refl).
Defined.

Lemma analysed_kinds {R : Type} (client : Client R)
  (targetWorker : WorkerInfo.t) (res : list ResourceUsage.t)
  (u : ResourceUsage.t) :
  AnalyzeDependencies client targetWorker = Ok res → u ∈ res →
  ResourceUsage.ResourceType u ∈ keyedKinds.
Proof.
  intros Hres Hu.
  pose proof (AnalyzeDependencies_entries client targetWorker res Hres) as Hall.
  destruct (Forall2_elem_r _ _ _ u Hall Hu) as (b & Hb & [Hty _] & _).
  apply list_elem_of_filter in Hb as [Hb _]. rewrite Hty.
  by apply getResourceKey_kinds.
Qed.

(** X10.  A plan made of analysed entries never fails with "unsupported
    resource type": every error a run over it records is the error of a
    delete endpoint under the message of the client wrapper. *)
Theorem analysed_plan_errors_are_remote {R : Type} (d : Deleter R)
  (targetWorker : WorkerInfo.t) (res : list ResourceUsage.t)
  (plan : DeletionPlan.t) (w : World R) :
  AnalyzeDependencies (client d) targetWorker = Ok res →
  (∀ u, u ∈ DeletionPlan.ResourcesToDelete plan → u ∈ res) →
  ∀ err, err ∈ DeletionResult.Errors (Execute d plan w).1.1 →
    ∃ call e, err = Wrapf (failureMessage call) e.
Proof.
  intros Hres Hsub err.
  destruct (Execute_cases d plan w)
    as [[_ ->]|[(e & s' & _ & ->)|(trace & w' & _ & Hrs & _ & Hout & ->)]];
    cbn.
  - by intros ?%elem_of_nil.
  - intros ->%list_elem_of_singleton.
    by exists (CallDeleteWorker (WorkerInfo.Name (DeletionPlan.Worker plan))),
              (Wrapf "failed to delete worker" e).
  - intros ([u o] & Hin & Ho)%list_elem_of_omap.
    destruct o as [| |err']; try done. injection Ho as ->.
    destruct (Hout u (Failed err) Hin) as [_ Hfail].
    destruct (Hfail err eq_refl) as [(call & e & _ & ->)|[_ Hkind]].
    + by exists call, e.
    + exfalso. apply Hkind.
      apply (analysed_kinds (client d) targetWorker res u Hres).
      apply Hsub. rewrite <- Hrs.
      by apply (list_elem_of_fmap_2 fst _ (u, Failed err)).
Qed.

Lemma analysed_plan_errors_are_remote_witness :
  let d := NewDeleter (fixtures.leftover fixtures.twiceScripts) false in
  let res :=
    [ResourceUsage.mk "ns-2" BindingTypeKV "A" ["twice"; "twice"] RiskLevelSafe;
     ResourceUsage.mk "ns-2" BindingTypeKV "A" ["twice"; "twice"] RiskLevelSafe] in
  let err := Wrapf "failed to delete KV namespace" RemoteNotFound in
  err ∈ DeletionResult.Errors
          (Execute d (CreateDeletionPlan fixtures.twice res false)
             (mkWorld tt [])).1.1
  ∧ ∃ call e, err = Wrapf (failureMessage call) e.
Proof.
  intros d res err.
  assert (err ∈ DeletionResult.Errors
                  (Execute d (CreateDeletionPlan fixtures.twice res false)
                     (mkWorld tt [])).1.1) as Hin
    by (vm_compute; apply list_elem_of_here).
  split; [exact Hin|].
  apply (analysed_plan_errors_are_remote d fixtures.twice res
           (CreateDeletionPlan fixtures.twice res false) (mkWorld tt [])).
  - vm_compute. reflexivity.
  - intros u Hu. exact Hu.
  - exact Hin.
Defined.

(** X11.  In a real run that deleted the worker, a planned
    stateful-object, service or queue entry that the policy does not
    keep is always reported in [ResourcesDeleted], although it has no
    delete endpoint and no call is made for it. *)
Theorem Execute_reports_unbacked_kinds_deleted {R : Type} (d : Deleter R)
  (plan : DeletionPlan.t) (w : World R) (s : R) (u : ResourceUsage.t) :
  dryRun d = false →
  cf_Delete (cf (client d))
    (CallDeleteWorker (WorkerInfo.Name (DeletionPlan.Worker plan))) (remote w)
  = (None, s) →
  u ∈ DeletionPlan.ResourcesToDelete plan →
  ResourceUsage.ResourceType u
  ∈ [BindingTypeDurableObject; BindingTypeService; BindingTypeQueue] →
  skippedByPolicy plan u = false →
  ResourceUsage.ResourceName u
  ∈ DeletionResult.ResourcesDeleted (Execute d plan w).1.1
  ∧ usageCall u = None.
Proof.
  intros Hdry Hdel Hu Hkind Hskip.
  assert (usageCall u = None ∧ ResourceUsage.ResourceType u ∈ keyedKinds)
    as [Hcall Hkeyed].
  { unfold usageCall, callOf, keyedKinds.
    rewrite !elem_of_cons, elem_of_nil in Hkind.
    rewrite !elem_of_cons, elem_of_nil.
    destruct Hkind as [->|[->|[->|[]]]]; split; (done || tauto). }
  split; [|done].
  destruct (Execute_cases d plan w)
    as [[? _]|[(e & s' & _ & Heq)|(trace & w' & _ & Hrs & _ & Hout & ->)]].
  - congruence.
  - rewrite (Execute_real d plan w s Hdry Hdel) in Heq. done.
  - cbn. rewrite <- Hrs in Hu.
    destruct (trace_outcome trace u Hu) as [o Ho].
    apply (namesWhere_elem isRemoved trace u o Ho).
    destruct (Hout u o Ho) as [Hkept Hfail].
    destruct o as [| |err]; [done| |].
    + destruct Hkept as [Hk _]. rewrite (Hk eq_refl) in Hskip. done.
    + destruct (Hfail err eq_refl) as [(call & e & Hc & _)|[_ Hn]];
        [congruence | done].
Qed.

Lemma Execute_reports_unbacked_kinds_deleted_witness :
  let d := NewDeleter (fixtures.account fixtures.chatScripts []) false in
  let plan :=
    DeletionPlan.mk fixtures.chat
      [ResourceUsage.mk "Room" BindingTypeDurableObject "Room" ["chat"]
         RiskLevelSafe] false false false in
  "Room"
  ∈ DeletionResult.ResourcesDeleted
      (Execute d plan (mkWorld [CallDeleteWorker "chat"] [])).1.1
  ∧ usageCall
      (ResourceUsage.mk "Room" BindingTypeDurableObject "Room" ["chat"]
         RiskLevelSafe)
    = None.
Proof.
  intros d plan.
  apply (Execute_reports_unbacked_kinds_deleted d plan
           (mkWorld [CallDeleteWorker "chat"] []) []
           (ResourceUsage.mk "Room" BindingTypeDurableObject "Room" ["chat"]
              RiskLevelSafe)).
  - reflexivity.
  - reflexivity.
  - apply list_elem_of_here.
  - apply list_elem_of_here.
  - reflexivity.
Defined.

(** X12.  Deleting the script alone is the run of a plan without
    resources: [DeleteWorkerOnly] and [Execute] on such a plan issue the
    same calls, leave the account in the same state and hand back the
    same error, and the run marks the worker deleted exactly when
    [DeleteWorkerOnly] returns no error. *)
Theorem DeleteWorkerOnly_is_empty_plan {R : Type} (d : Deleter R)
  (plan : DeletionPlan.t) (w : World R) :
  DeletionPlan.ResourcesToDelete plan = [] →
  let name := WorkerInfo.Name (DeletionPlan.Worker plan) in
  (Execute d plan w).2 = (DeleteWorkerOnly d name w).2
  ∧ (Execute d plan w).1.2 = (DeleteWorkerOnly d name w).1
  ∧ (DeletionResult.WorkerDeleted (Execute d plan w).1.1 = true
     ↔ (DeleteWorkerOnly d name w).1 = None).
Proof.
  intros Hempty name. unfold DeleteWorkerOnly.
  destruct (dryRun d) eqn:Hdry.
  { by rewrite (Execute_simulated d plan w Hdry), ret_run. }
  unfold DeleteWorker, wrapped. rewrite bind_run, ret_run. unfold invoke.
  destruct (cf_Delete (cf (client d)) (CallDeleteWorker name) (remote w))
    as [[err|] s] eqn:Hdel.
  - rewrite (Execute_stopped d plan w err s Hdry Hdel). cbn. by split.
  - rewrite (Execute_real d plan w s Hdry Hdel). cbv zeta.
    rewrite Hempty. cbn. done.
Qed.

Lemma DeleteWorkerOnly_is_empty_plan_witness :
  let d := NewDeleter (fixtures.account fixtures.chatScripts []) false in
  let plan := DeletionPlan.mk fixtures.chat [] false false false in
  let w := mkWorld [CallDeleteWorker "chat"] [] in
  (Execute d plan w).2 = (DeleteWorkerOnly d "chat" w).2
  ∧ (Execute d plan w).1.2 = (DeleteWorkerOnly d "chat" w).1
  ∧ (DeletionResult.WorkerDeleted (Execute d plan w).1.1 = true
     ↔ (DeleteWorkerOnly d "chat" w).1 = None).
Proof.
  intros d plan w. exact (DeleteWorkerOnly_is_empty_plan d plan w eq_refl).
Defined.

(** ** The helpers of the plan display *)

Lemma getOtherWorkers_fold (usedBy acc : list string) (currentWorker : string) :
  fold_left
    (fun others worker =>
       if decide (worker ≠ currentWorker) then others ++ [worker] else others)
    usedBy acc
  = acc ++ filter (fun w => w ≠ currentWorker) usedBy.
Proof.
  revert acc. induction usedBy as [|x xs IH]; intros acc; simpl.
  - by rewrite app_nil_r.
  - rewrite IH, filter_cons. destruct (decide (x ≠ currentWorker)); [|done].
    by rewrite <- app_assoc.
Qed.

(** X13.  The display and the classifier agree: [getOtherWorkers] keeps,
    in order and with repetitions, the entries other than the current
    worker, and the level of a usage list is Safe exactly when that list
    is empty, Caution when it has one or two entries and Danger when it
    has three or more.  So the "used by N other worker(s)" note is shown
    for every entry above Safe, with N counting repeated bindings. *)
Theorem getOtherWorkers_matches_risk (usedBy : list string) (target : string) :
  let others := views.getOtherWorkers usedBy target in
  others = filter (fun w => w ≠ target) usedBy
  ∧ (calculateRiskLevel usedBy target = RiskLevelSafe ↔ others = [])
  ∧ (calculateRiskLevel usedBy target = RiskLevelCaution
     ↔ (1 ≤ length others ≤ 2)%nat)
  ∧ (calculateRiskLevel usedBy target = RiskLevelDanger
     ↔ (3 ≤ length others)%nat).
Proof.
  intros others. subst others. unfold views.getOtherWorkers.
  rewrite getOtherWorkers_fold. cbn [app]. split; [done|].
  unfold calculateRiskLevel. rewrite countOthers_length.
  destruct (filter (fun w => w ≠ target) usedBy) as [|a [|b [|c l]]];
    cbn [length]; repeat case_decide; repeat split; intros; try done; lia.
Qed.

Lemma countSharedResources_fold (resources : list ResourceUsage.t) (n : Z) :
  fold_left
    (fun count resource =>
       if decide (ResourceUsage.RiskLevel resource ≠ RiskLevelSafe)
       then count + 1 else count)
    resources n
  = n + Z.of_nat
          (length (filter (fun u => ResourceUsage.RiskLevel u ≠ RiskLevelSafe)
                     resources)).
Proof.
  revert n. induction resources as [|u us IH]; intros n; simpl.
  - lia.
  - rewrite IH, filter_cons.
    destruct (decide (ResourceUsage.RiskLevel u ≠ RiskLevelSafe));
      cbn [length]; lia.
Qed.

Lemma filter_safe_shared (resources : list ResourceUsage.t) :
  filter (fun u => ResourceUsage.RiskLevel u ≠ RiskLevelSafe)
    (filter (fun u => ResourceUsage.RiskLevel u = RiskLevelSafe) resources)
  = [].
Proof.
  induction resources as [|u us IH]; [done|].
  rewrite filter_cons.
  destruct (decide (ResourceUsage.RiskLevel u = RiskLevelSafe)) as [Hu|Hu];
    [|done].
  rewrite filter_cons. by rewrite decide_False by (intros ?; done).
Qed.

(** X14.  The warning line of the plan display: it is printed when
    [HasSharedResources] is set, which holds exactly when the analysed
    list has an entry above Safe, but the number it prints counts the
    entries above Safe that are in the plan.  Without exclusive-only
    mode the two agree; in exclusive-only mode the number is always 0. *)
Theorem countSharedResources_of_plan (worker : WorkerInfo.t)
  (resources : list ResourceUsage.t) (exclusiveOnly : bool) :
  let plan := CreateDeletionPlan worker resources exclusiveOnly in
  (DeletionPlan.HasSharedResources plan = true
   ↔ 0 < views.countSharedResources resources)
  ∧ views.countSharedResources (DeletionPlan.ResourcesToDelete plan)
    = if exclusiveOnly then 0 else views.countSharedResources resources.
Proof.
  intros plan. subst plan. rewrite CreateDeletionPlan_fields. cbn.
  unfold views.countSharedResources. rewrite !countSharedResources_fold.
  split.
  - rewrite bool_decide_eq_true, Exists_exists.
    split.
    + intros (u & Hin & Hu).
      assert (u ∈ filter (fun u => ResourceUsage.RiskLevel u ≠ RiskLevelSafe)
                    resources) as Hf by by apply list_elem_of_filter.
      destruct (filter _ resources); [by apply elem_of_nil in Hf|].
      cbn [length]. lia.
    + intros Hpos.
      destruct (filter (fun u => ResourceUsage.RiskLevel u ≠ RiskLevelSafe)
                  resources) as [|u l] eqn:E; [cbn in Hpos; lia|].
      assert (u ∈ filter (fun u => ResourceUsage.RiskLevel u ≠ RiskLevelSafe)
                    resources) as Hf by (rewrite E; by left).
      apply list_elem_of_filter in Hf as [Hu Hin]. eauto.
  - destruct exclusiveOnly; [|done].
    by rewrite filter_safe_shared.
Qed.

Lemma groupResourcesByType_fold (resources seen : list ResourceUsage.t)
  (grouped : gmap string (list ResourceUsage.t)) :
  (∀ ty, grouped !! ty = groupOf ty seen) →
  ∀ ty,
    fold_left
      (fun grouped resource =>
         <[ResourceUsage.ResourceType resource :=
             default [] (grouped !! ResourceUsage.ResourceType resource)
               ++ [resource]]> grouped)
      resources grouped !! ty
    = groupOf ty (seen ++ resources).
Proof.
  revert seen grouped.
  induction resources as [|u us IH]; intros seen grouped Hg ty; simpl.
  - by rewrite app_nil_r.
  - rewrite (IH (seen ++ [u])); [by rewrite <- app_assoc|].
    intros ty'. unfold groupOf. rewrite filter_app, filter_cons, filter_nil.
    destruct (decide (ResourceUsage.ResourceType u = ty')) as [<-|Hne].
    + rewrite lookup_insert_eq, Hg. unfold groupOf.
      by destruct (filter _ seen).
    + rewrite lookup_insert_ne, app_nil_r by done. apply Hg.
Qed.

(** X15.  [groupResourcesByType] partitions the planned resources by
    kind: a kind is a key of the map exactly when some resource has it,
    and its group holds all resources of that kind and only those, in
    plan order. *)
Theorem groupResourcesByType_lookup (resources : list ResourceUsage.t)
  (ty : string) :
  views.groupResourcesByType resources !! ty
  = match filter (fun u => ResourceUsage.ResourceType u = ty) resources with
    | [] => None
    | l => Some l
    end.
Proof.
  unfold views.groupResourcesByType.
  by rewrite (groupResourcesByType_fold resources [] ∅).
Qed.

(** ** Keys, names and lookups *)

(** X16.  Resource keys identify resources across kinds: two bindings
    with the same non-empty key have the same kind and the same delete
    endpoint, and, for every kind but the stateful-object class, the same
    resource ID.  For stateful-object classes the key joins class and
    script with a colon and is all the ID there is: what two bindings
    with one key share is that joined string, not necessarily the class
    and the script taken apart. *)
Theorem getResourceKey_identity (b1 b2 : Binding.t) :
  getResourceKey b1 = getResourceKey b2 →
  getResourceKey b2 ≠ EmptyString →
  Binding.Type' b1 = Binding.Type' b2
  ∧ bindingCall b1 = bindingCall b2
  ∧ (Binding.Type' b2 ≠ BindingTypeDurableObject →
     getResourceID b1 = getResourceID b2)
  ∧ (Binding.Type' b2 = BindingTypeDurableObject →
     Binding.ClassName b1 +:+ ":" +:+ Binding.ScriptName b1
     = Binding.ClassName b2 +:+ ":" +:+ Binding.ScriptName b2).
Proof.
  intros Heq Hne.
  destruct (getResourceKey_inj b1 b2 Heq Hne) as [Hty Hcall].
  split; [done|]. split; [done|].
  unfold getResourceID, getResourceKey in *. cbv zeta in *.
  rewrite Hty in *.
  repeat case_decide; try done; simpl in Heq; injection Heq as Heq;
    cbv [String.append] in Heq; split; intros; try (done || congruence);
    exfalso;
    match goal with
    | H1 : ?t = BindingTypeDurableObject, H2 : ?t = _ |- _ =>
        rewrite H2 in H1; discriminate H1
    end.
Qed.

Lemma getResourceKey_identity_witness :
  Binding.Type' (fixtures.kvBinding "SESSIONS" "ns-1")
  = Binding.Type' (fixtures.kvBinding "KV" "ns-1")
  ∧ getResourceID (fixtures.kvBinding "SESSIONS" "ns-1")
    = getResourceID (fixtures.kvBinding "KV" "ns-1").
Proof.
  destruct (getResourceKey_identity (fixtures.kvBinding "SESSIONS" "ns-1")
              (fixtures.kvBinding "KV" "ns-1") eq_refl)
    as (Hty & _ & Hid & _).
  - discriminate.
  - split; [exact Hty|]. apply Hid. discriminate.
Defined.

(** X17.  Enriching a display name is idempotent, and it either keeps
    the current name or replaces it with the title the listing gives for
    the binding's namespace or database: a failed lookup, and a kind
    other than KV and D1, leave the name as it is. *)
Theorem enrichResourceName_idempotent {R : Type} (client : Client R)
  (binding : Binding.t) (currentName : string) :
  enrichResourceName client binding
    (enrichResourceName client binding currentName)
  = enrichResourceName client binding currentName
  ∧ (enrichResourceName client binding currentName = currentName
     ∨ (Binding.Type' binding = BindingTypeKV
        ∧ GetKVNamespaceTitle client (Binding.NamespaceID binding)
          = Ok (enrichResourceName client binding currentName))
     ∨ (Binding.Type' binding = BindingTypeD1
        ∧ GetD1DatabaseName client (Binding.DatabaseID binding)
          = Ok (enrichResourceName client binding currentName))).
Proof.
  unfold enrichResourceName.
  destruct (bool_decide (currentName ≠ EmptyString)
            && bool_decide (currentName ≠ Binding.Name binding)) eqn:Hkeep.
  { rewrite Hkeep. auto. }
  destruct (decide (Binding.Type' binding = BindingTypeKV)) as [Hkv|Hkv].
  { destruct (GetKVNamespaceTitle client (Binding.NamespaceID binding))
      as [title|e] eqn:Hlookup.
    - split; [|auto].
      by destruct (bool_decide (title ≠ EmptyString)
                   && bool_decide (title ≠ Binding.Name binding)).
    - rewrite Hkeep. auto. }
  destruct (decide (Binding.Type' binding = BindingTypeD1)) as [Hd1|Hd1].
  { destruct (GetD1DatabaseName client (Binding.DatabaseID binding))
      as [name|e] eqn:Hlookup.
    - split; [|auto].
      by destruct (bool_decide (name ≠ EmptyString)
                   && bool_decide (name ≠ Binding.Name binding)).
    - rewrite Hkeep. auto. }
  rewrite Hkeep. auto.
Qed.

Lemma findByID_elem (id name : string) (l : list (string * string)) :
  findByID id l = Some name → (id, name) ∈ l.
Proof.
  induction l as [|[i n] l IH]; [done|]. simpl.
  destruct (decide (i = id)) as [->|Hne].
  - intros [= ->]. by left.
  - intros H. right. by apply IH.
Qed.

Lemma findByID_None (id : string) (l : list (string * string)) :
  findByID id l = None ↔ id ∉ map fst l.
Proof.
  induction l as [|[i n] l IH]; simpl.
  - split; [intros _; apply not_elem_of_nil | done].
  - rewrite not_elem_of_cons. destruct (decide (i = id)) as [->|Hne].
    + split; [done | by intros [? _]].
    + rewrite IH. split; [by split | by intros [_ ?]].
Qed.

(** X18.  The two name lookups answer from the listing: with a listing
    at hand, the title returned for an ID is that of a listed item with
    this ID, and the lookup fails with "namespace not found" or
    "database not found" exactly when no listed item has the ID; a
    failed listing is handed back as it is. *)
Theorem name_lookups {R : Type} (client : Client R) (id : string) :
  match cf_ListWorkersKVNamespaces (cf client) with
  | Ok namespaces =>
      (∀ title, GetKVNamespaceTitle client id = Ok title →
                (id, title) ∈ namespaces)
      ∧ (GetKVNamespaceTitle client id = Err (Errorf "namespace not found")
         ↔ id ∉ map fst namespaces)
      ∧ (id ∈ map fst namespaces →
         ∃ title, GetKVNamespaceTitle client id = Ok title)
  | Err err => GetKVNamespaceTitle client id = Err err
  end
  ∧ match cf_ListD1Databases (cf client) with
    | Ok databases =>
        (∀ name, GetD1DatabaseName client id = Ok name →
                 (id, name) ∈ databases)
        ∧ (GetD1DatabaseName client id = Err (Errorf "database not found")
           ↔ id ∉ map fst databases)
        ∧ (id ∈ map fst databases →
           ∃ name, GetD1DatabaseName client id = Ok name)
    | Err err => GetD1DatabaseName client id = Err err
    end.
Proof.
  unfold GetKVNamespaceTitle, GetD1DatabaseName. split.
  - destruct (cf_ListWorkersKVNamespaces (cf client)) as [l|e]; [|done].
    pose proof (findByID_None id l) as Hnone.
    destruct (findByID id l) as [t|] eqn:Hfind.
    + split; [intros title [= <-]; by apply findByID_elem|].
      split; [|eauto].
      split; [done|]. intros Hn. apply Hnone in Hn. done.
    + split; [done|]. split; [split; [intros _; by apply Hnone | done]|].
      intros Hin. by apply Hnone in Hin.
  - destruct (cf_ListD1Databases (cf client)) as [l|e]; [|done].
    pose proof (findByID_None id l) as Hnone.
    destruct (findByID id l) as [t|] eqn:Hfind.
    + split; [intros title [= <-]; by apply findByID_elem|].
      split; [|eauto].
      split; [done|]. intros Hn. apply Hnone in Hn. done.
    + split; [done|]. split; [split; [intros _; by apply Hnone | done]|].
      intros Hin. by apply Hnone in Hin.
Qed.

Lemma filter_safe_exclusive (target : string) (res : list ResourceUsage.t) :
  Forall
    (fun u =>
       ResourceUsage.RiskLevel u
       = calculateRiskLevel (ResourceUsage.UsedBy u) target)
    res →
  filter (fun u => ResourceUsage.RiskLevel u = RiskLevelSafe) res
  = filter (fun u => Forall (fun w => w = target) (ResourceUsage.UsedBy u)) res.
Proof.
  induction 1 as [|u us Hu _ IH]; [done|].
  rewrite !filter_cons, IH.
  destruct (decide (ResourceUsage.RiskLevel u = RiskLevelSafe)) as [Hs|Hs].
  - rewrite decide_True; [done|].
    apply calculateRiskLevel_safe. congruence.
  - rewrite decide_False; [done|]. intros Hall. apply Hs.
    rewrite Hu. by apply calculateRiskLevel_target_only.
Qed.

(** X19.  In exclusive-only mode the plan built from an analysis holds
    exactly the analysed entries whose usage list names no worker but
    the target, in order; without it the plan holds every analysed
    entry. *)
Theorem exclusive_plan_entries {R : Type} (client : Client R)
  (targetWorker : WorkerInfo.t) (res : list ResourceUsage.t) :
  AnalyzeDependencies client targetWorker = Ok res →
  DeletionPlan.ResourcesToDelete (CreateDeletionPlan targetWorker res true)
  = filter
      (fun u =>
         Forall (fun w => w = WorkerInfo.Name targetWorker)
           (ResourceUsage.UsedBy u))
      res
  ∧ DeletionPlan.ResourcesToDelete (CreateDeletionPlan targetWorker res false)
    = res.
Proof.
  intros Hres. rewrite !CreateDeletionPlan_fields. cbn. split; [|done].
  apply filter_safe_exclusive.
  pose proof (AnalyzeDependencies_entries client targetWorker res Hres) as Hall.
  clear Hres. induction Hall as [|b u bs us [_ Hrisk] _ IH]; constructor; done.
Qed.

Lemma exclusive_plan_entries_witness :
  let res :=
    [ResourceUsage.mk "ns-1" BindingTypeKV "sessions"
       ["billing-svc"; "reports-svc"] RiskLevelCaution;
     ResourceUsage.mk "db-7" BindingTypeD1 "ledger" ["billing-svc"]
       RiskLevelSafe] in
  DeletionPlan.ResourcesToDelete (CreateDeletionPlan fixtures.billing res true)
  = [ResourceUsage.mk "db-7" BindingTypeD1 "ledger" ["billing-svc"]
       RiskLevelSafe].
Proof.
  intros res.
  assert (AnalyzeDependencies (fixtures.account fixtures.billingScripts [])
            fixtures.billing = Ok res) as Hres by (vm_compute; reflexivity).
  rewrite (proj1 (exclusive_plan_entries _ _ _ Hres)). reflexivity.
Defined.

(** ** Parsing the settings endpoint *)

Lemma parseBindings_fold (raws : list (gmap string settings.Value))
  (acc : list Binding.t) :
  fold_left
    (fun bindings b =>
       match settings.parseBinding b with
       | Some binding => bindings ++ [binding]
       | None => bindings
       end)
    raws acc
  = acc ++ omap settings.parseBinding raws.
Proof.
  revert acc. induction raws as [|r rs IH]; intros acc.
  - simpl. by rewrite app_nil_r.
  - cbn [fold_left]. rewrite IH, omap_cons_app.
    destruct (settings.parseBinding r); cbn [option_list app].
    + by rewrite <- app_assoc.
    + done.
Qed.

(** X20.  What the settings endpoint contributes to the analysis.  A raw
    binding is kept exactly when it has a string type; whether the
    parsed binding gets a resource key depends on that type alone, so a
    binding of a keyed kind is tracked even when its identifying field
    is missing or not a string; its key never depends on its local name;
    and a parsed D1 binding never carries a database name, so its
    provisional display name is empty. *)
Theorem parseBinding_tracking (raw : gmap string settings.Value) :
  (is_Some (settings.parseBinding raw)
   ↔ is_Some (settings.stringField raw "type"))
  ∧ (∀ b, settings.parseBinding raw = Some b →
       (hasKey b
        ↔ ∃ ty, settings.stringField raw "type" = Some ty ∧ ty ∈ keyedKinds)
       ∧ (Binding.Type' b = BindingTypeD1 →
          getResourceName b = EmptyString))
  ∧ (∀ v,
       getResourceKey <$> settings.parseBinding (<["name" := v]> raw)
       = getResourceKey <$> settings.parseBinding raw).
Proof.
  unfold settings.parseBinding. split; [|split].
  - destruct (settings.stringField raw "type"); split; eauto;
      by intros [? ?].
  - intros b. destruct (settings.stringField raw "type") as [ty|]; [|done].
    intros [= <-]. cbv zeta. split.
    + unfold hasKey. rewrite getResourceKey_kinds. unfold keyedKinds.
      split.
      * intros Hin. exists ty. split; [done|]. revert Hin.
        rewrite !elem_of_cons, !elem_of_nil.
        repeat case_decide; subst; cbn; intros Hin; try tauto;
          repeat (destruct Hin as [Hin|Hin]; [discriminate Hin || tauto|]);
          done.
      * intros (ty' & [= <-] & Hin). revert Hin.
        rewrite !elem_of_cons, !elem_of_nil.
        repeat case_decide; subst; cbn; intros Hin; try tauto;
          repeat (destruct Hin as [Hin|Hin]; [discriminate Hin || tauto|]);
          done.
    + unfold getResourceName.
      repeat case_decide; subst; cbn; try done; intros Hty;
        try discriminate Hty; cbn in *; congruence.
  - intros v. unfold settings.stringField.
    rewrite !(lookup_insert_ne raw "name") by done.
    destruct (raw !! "type") as [[ty|]|]; [|done|done]. cbn [fmap option_fmap option_map].
    f_equal. unfold getResourceKey.
    repeat case_decide; subst; cbn; try done;
      by rewrite !lookup_insert_ne by done.
Qed.

(** X28.  [GetWorkerBindings] returns the bindings in the order of the
    settings: one binding for each raw entry that has a string type,
    with the entry's name (empty when the name is missing or not a
    string), and nothing for the other entries. *)
Theorem parseBindings_in_order (raws : list (gmap string settings.Value)) :
  Forall2
    (fun raw b =>
       settings.parseBinding raw = Some b
       ∧ Binding.Name b
         = default EmptyString (settings.stringField raw "name"))
    (filter (fun raw => is_Some (settings.stringField raw "type")) raws)
    (settings.parseBindings raws).
Proof.
  unfold settings.parseBindings. rewrite parseBindings_fold. cbn [app].
  induction raws as [|raw raws IH]; [constructor|].
  cbn [omap list_omap].
  destruct (settings.parseBinding raw) as [b|] eqn:Hb.
  - rewrite filter_cons_True.
    2: { unfold settings.parseBinding in Hb.
         destruct (settings.stringField raw "type"); [eauto | done]. }
    constructor; [|exact IH]. split; [done|].
    unfold settings.parseBinding in Hb.
    destruct (settings.stringField raw "type") as [ty|]; [|done].
    injection Hb as <-. cbv zeta. by repeat case_decide.
  - rewrite filter_cons_False; [exact IH|].
    unfold settings.parseBinding in Hb.
    destruct (settings.stringField raw "type"); [done | by intros [? ?]].
Qed.

(** X21.  [GetAccountID] succeeds exactly when the client already has an
    account ID or the token sees exactly one account.  It never changes
    an ID the client has, it leaves the SDK handle alone, the client
    keeps the ID it returned, and once it has returned a non-empty ID
    every later call returns the same ID without depending on the
    listing. *)
Theorem GetAccountID_stable {R : Type} (c : Client R)
  (listed : Result (list settings.Account)) :
  let '(r, c') := settings.GetAccountID c listed in
  cf c' = cf c
  ∧ (accountID c ≠ EmptyString → r = Ok (accountID c) ∧ c' = c)
  ∧ (accountID c = EmptyString →
     ((∃ id, r = Ok id) ↔ ∃ account, listed = Ok [account]))
  ∧ (∀ id, r = Ok id →
       accountID c' = id
       ∧ (id ≠ EmptyString →
          ∀ listed', settings.GetAccountID c' listed' = (Ok id, c'))).
Proof.
  unfold settings.GetAccountID.
  destruct (decide (accountID c ≠ EmptyString)) as [Hset|Hunset].
  - split; [done|]. split; [done|]. split; [done|].
    intros id [= <-]. split; [done|]. intros _ listed'.
    by rewrite decide_True.
  - apply dec_stable in Hunset.
    destruct listed as [[|a [|a' l]]|e]; cbn;
      (split; [done|]); (split; [done|]); split;
      try (intros _; split; [by intros [? ?] | by intros [? [= ]]]);
      try done.
    + intros _. split; eauto.
    + intros id [= <-]. split; [done|]. intros Hid listed'.
      cbn. by rewrite decide_True.
Qed.

(** ** The interactive session *)

Ltac session_cases :=
  unfold models.Update, models.handleKeyPress,
    models.handleConfirmDependencyCheckKeyPress, models.handlePlanKeyPress,
    models.handleConfirmDeletionKeyPress, models.handleConfirmSharedKeyPress,
    models.startDeletion;
  cbn;
  repeat
    (match goal with
     | |- context [bool_decide ?P] => destruct (bool_decide P) eqn:?
     | |- context [if ?b then _ else _] => destruct b eqn:?
     end; cbn).

Lemma Update_planAtHand (m : models.Model) (msg : models.Msg) :
  planAtHand m →
  ∃ m' cmd,
    models.Update m msg = Some (m', cmd)
    ∧ planAtHand m'
    ∧ ∀ p, cmd = models.cmdDelete p → is_Some p.
Proof.
  destruct m as [s wk p r e msg' cfg cd cs ss sd ap at_ aw tr].
  unfold planAtHand. cbn [models.state models.plan].
  intros Hp.
  destruct msg, s; cbn in Hp;
    try match type of Hp with is_Some _ => destruct Hp as [p0 ->] end;
    session_cases;
    (eexists _, _; split; [reflexivity|]; cbn; split; [by eauto|];
     intros ? ?; simplify_eq; by eauto).
Qed.

(** X22.  A session started with [NewModelWithAnalysis] never
    dereferences a nil plan, whatever keys are pressed and whatever
    messages of the program arrive, in whatever order (a completed
    analysis always brings a plan), and every deletion it starts is
    started on a plan. *)
Theorem session_plan_never_nil (worker : WorkerInfo.t) (config : Config.t)
  (msgs : list models.Msg) :
  ∃ m' cmds,
    models.feed msgs (models.NewModelWithAnalysis worker config)
    = Some (m', cmds)
    ∧ ∀ p, models.cmdDelete p ∈ cmds → is_Some p.
Proof.
  assert (planAtHand (models.NewModelWithAnalysis worker config)) as Hinit.
  { unfold planAtHand, models.NewModelWithAnalysis. cbn.
    by destruct (Config.SkipDependencyCheck config). }
  revert Hinit. generalize (models.NewModelWithAnalysis worker config).
  induction msgs as [|msg rest IH]; intros m Hm.
  - exists m, []. split; [done|]. by intros p ?%elem_of_nil.
  - cbn [models.feed].
    destruct (Update_planAtHand m msg Hm) as (m1 & cmd & -> & Hm1 & Hcmd).
    destruct (models.isQuit cmd) eqn:Hq.
    + exists m1, [cmd]. split; [done|].
      intros p Hin%list_elem_of_singleton. by apply Hcmd.
    + destruct (IH m1 Hm1) as (m2 & cmds & -> & Hcmds).
      exists m2, (cmd :: cmds). split; [done|].
      intros p [Hin|Hin]%elem_of_cons; [by apply Hcmd | by apply Hcmds].
Qed.

Lemma feed_inert (keys : list string) (m : models.Model) :
  models.state m = models.stateDeleting
  ∨ models.state m = models.stateAnalyzing →
  models.feed (map models.KeyMsg keys) m
  = Some (m, map (fun _ => models.cmdNil) keys).
Proof.
  intros Hs. induction keys as [|key rest IH]; [done|].
  cbn [map models.feed models.Update]. unfold models.handleKeyPress.
  assert (bool_decide (models.state m = models.stateDeleting)
          || bool_decide (models.state m = models.stateAnalyzing) = true)
    as ->.
  { destruct Hs as [->| ->]; done. }
  cbn [models.isQuit]. by rewrite IH.
Qed.

Lemma confirmations_cons (key : string) (rest : list string) :
  confirmations (key :: rest)
  = ((if bool_decide (key ∈ models.yesKeys) then 1 else 0)
     + confirmations rest)%nat.
Proof.
  unfold confirmations. rewrite filter_cons.
  destruct (decide (key ∈ models.yesKeys)) as [Hy|Hy].
  - by rewrite bool_decide_true.
  - by rewrite bool_decide_false.
Qed.

Lemma cmdDelete_not_nil (keys : list string) (p : option DeletionPlan.t) :
  models.cmdDelete p ∉ map (fun _ : string => models.cmdNil) keys.
Proof.
  induction keys as [|k ks IH]; [apply not_elem_of_nil|].
  cbn. apply not_elem_of_cons. split; [done | exact IH].
Qed.

Ltac settle_state H :=
  repeat
    match type of H with
    | context [bool_decide (?a = ?b)] =>
        first [ change (bool_decide (a = b)) with false in H
              | change (bool_decide (a = b)) with true in H ]
    end.

Lemma dialogue_keys (p0 : DeletionPlan.t) (keys : list string)
  (m m' : models.Model) (cmds : list models.Cmd)
  (p : option DeletionPlan.t) :
  inDialogue p0 m →
  models.feed (map models.KeyMsg keys) m = Some (m', cmds) →
  models.cmdDelete p ∈ cmds →
  (2 ≤ confirmed (models.state m) + confirmations keys)%nat
  ∧ ∃ p',
      p = Some p'
      ∧ DeletionPlan.Worker p' = DeletionPlan.Worker p0
      ∧ DeletionPlan.ResourcesToDelete p' = DeletionPlan.ResourcesToDelete p0
      ∧ (DeletionPlan.DeleteShared p' = true →
         DeletionPlan.DeleteShared p0 = true
         ∨ (DeletionPlan.HasSharedResources p0 = true
            ∧ Config.ExclusiveOnly (models.config m) = false
            ∧ (3 ≤ confirmed (models.state m) + confirmations keys)%nat)).
Proof.
  revert m m' cmds. induction keys as [|key rest IH];
    intros m m' cmds Hd Hfeed Hin.
  { injection Hfeed as <- <-. by apply elem_of_nil in Hin. }
  rewrite confirmations_cons.
  destruct m as [s wk pl r e msg' cfg cd cs ss sd ap at_ aw tr].
  destruct Hd as [Hauto Hst]. cbn in Hauto, Hst. cbn [models.state models.config].
  cbn [map models.feed models.Update] in Hfeed.
  unfold models.handleKeyPress in Hfeed. cbn [models.state] in Hfeed.
  destruct s; try done; settle_state Hfeed; cbn in Hfeed.
  - (* the plan is shown *)
    subst pl. unfold models.handlePlanKeyPress in Hfeed.
    destruct (bool_decide (key ∈ ["ctrl+c"; "q"; "esc"; "n"; "N"])).
    { injection Hfeed as <- <-. apply list_elem_of_singleton in Hin. done. }
    destruct (bool_decide (key ∈ models.yesKeys)); cbn in Hfeed;
      rewrite ?Hauto in Hfeed; cbn in Hfeed.
    + destruct (models.feed _ _) as [[m2 cmds2]|] eqn:Hrest; [|done].
      injection Hfeed as <- <-.
      apply elem_of_cons in Hin as [Hin|Hin]; [done|].
      eapply IH in Hrest; [|split; cbn; done|exact Hin].
      cbn in Hrest. destruct Hrest as [H2 (p' & ? & ? & ? & H3)].
      cbn [confirmed]. split; [lia|]. exists p'. repeat split; try done.
      all: intros Hs; destruct (H3 Hs) as [?|(? & ? & ?)]; [by left|right].
      all: repeat split; try done; lia.
    + destruct (models.feed _ _) as [[m2 cmds2]|] eqn:Hrest; [|done].
      injection Hfeed as <- <-.
      apply elem_of_cons in Hin as [Hin|Hin]; [done|].
      eapply IH in Hrest; [|split; cbn; done|exact Hin].
      cbn in Hrest. destruct Hrest as [H2 (p' & ? & ? & ? & H3)].
      cbn [confirmed]. split; [lia|]. exists p'. repeat split; try done.
      all: intros Hs; destruct (H3 Hs) as [?|(? & ? & ?)]; [by left|right].
      all: repeat split; try done; lia.
  - (* the first confirmation *)
    subst pl. unfold models.handleConfirmDeletionKeyPress in Hfeed.
    cbn in Hfeed.
    destruct (bool_decide (key ∈ ["ctrl+c"; "q"; "esc"; "n"; "N"])).
    { injection Hfeed as <- <-. apply list_elem_of_singleton in Hin. done. }
    destruct (bool_decide (key ∈ models.yesKeys)); cbn in Hfeed.
    + destruct (DeletionPlan.HasSharedResources p0
                && negb (Config.ExclusiveOnly cfg)) eqn:Hshared;
        cbn in Hfeed.
      * apply andb_true_iff in Hshared as [Hhas Hex%negb_true_iff].
        destruct (models.feed _ _) as [[m2 cmds2]|] eqn:Hrest; [|done].
        injection Hfeed as <- <-.
        apply elem_of_cons in Hin as [Hin|Hin]; [done|].
        eapply IH in Hrest; [|split; cbn; done|exact Hin].
        cbn in Hrest. destruct Hrest as [H2 (p' & ? & ? & ? & H3)].
        cbn [confirmed]. split; [lia|]. exists p'. repeat split; try done.
        all: intros Hs; destruct (H3 Hs) as [?|(? & ? & ?)]; [by left|right].
        all: repeat split; try done; lia.
      * unfold models.startDeletion in Hfeed. cbn in Hfeed.
        rewrite feed_inert in Hfeed by (by left).
        injection Hfeed as <- <-.
        apply elem_of_cons in Hin as [[= ->]|Hin];
          [|by apply cmdDelete_not_nil in Hin].
        cbn [confirmed]. split; [lia|]. exists p0. repeat split; try done. by left.
    + destruct (models.feed _ _) as [[m2 cmds2]|] eqn:Hrest; [|done].
      injection Hfeed as <- <-.
      apply elem_of_cons in Hin as [Hin|Hin]; [done|].
      eapply IH in Hrest; [|split; cbn; done|exact Hin].
      cbn in Hrest. destruct Hrest as [H2 (p' & ? & ? & ? & H3)].
      cbn [confirmed]. split; [lia|]. exists p'. repeat split; try done.
      all: intros Hs; destruct (H3 Hs) as [?|(? & ? & ?)]; [by left|right].
      all: repeat split; try done; lia.
  - (* the question about shared resources *)
    destruct Hst as (-> & Hhas & Hex).
    unfold models.handleConfirmSharedKeyPress in Hfeed. cbn in Hfeed.
    destruct (bool_decide (key ∈ ["ctrl+c"; "q"; "esc"])).
    { injection Hfeed as <- <-. apply list_elem_of_singleton in Hin. done. }
    destruct (bool_decide (key ∈ ["n"; "N"])); cbn in Hfeed.
    { unfold models.startDeletion in Hfeed. cbn in Hfeed.
      rewrite feed_inert in Hfeed by (by left).
      injection Hfeed as <- <-.
      apply elem_of_cons in Hin as [[= ->]|Hin];
        [|by apply cmdDelete_not_nil in Hin].
      cbn [confirmed]. split; [lia|]. eexists. repeat split; done. }
    destruct (bool_decide (key ∈ models.yesKeys)); cbn in Hfeed.
    + unfold models.startDeletion in Hfeed. cbn in Hfeed.
      rewrite feed_inert in Hfeed by (by left).
      injection Hfeed as <- <-.
      apply elem_of_cons in Hin as [[= ->]|Hin];
        [|by apply cmdDelete_not_nil in Hin].
      cbn [confirmed]. split; [lia|]. eexists. repeat split; try done.
      intros _. right. repeat split; try done. lia.
    + destruct (models.feed _ _) as [[m2 cmds2]|] eqn:Hrest; [|done].
      injection Hfeed as <- <-.
      apply elem_of_cons in Hin as [Hin|Hin]; [done|].
      eapply IH in Hrest; [|split; cbn; done|exact Hin].
      cbn in Hrest. destruct Hrest as [H2 (p' & ? & ? & ? & H3)].
      cbn [confirmed]. split; [lia|]. exists p'. repeat split; try done.
      all: intros Hs; destruct (H3 Hs) as [?|(? & ? & ?)]; [by left|right].
      all: repeat split; try done; lia.
  - (* the deletion runs *)
    rewrite feed_inert in Hfeed by (by left).
    injection Hfeed as <- <-.
    apply elem_of_cons in Hin as [Hin|Hin];
      [done | by apply cmdDelete_not_nil in Hin].
Qed.

(** X23.  The dialogue before a deletion, in a session opened on a plan
    as built and without automatic yes.  Whatever keys are pressed, a
    deletion is started only after two answers of yes, and on the plan
    shown (its worker and its resources); it is started with
    [DeleteShared] set only when the plan has shared resources, the mode
    is not exclusive-only, and a third yes answered the question about
    them. *)
Theorem session_asks_before_deleting (worker : WorkerInfo.t)
  (p0 : DeletionPlan.t) (config : Config.t) (keys : list string)
  (m' : models.Model) (cmds : list models.Cmd) (p : option DeletionPlan.t) :
  Config.AutoYes config = false →
  DeletionPlan.DeleteShared p0 = false →
  models.feed (map models.KeyMsg keys)
    (models.NewModel worker (Some p0) config)
  = Some (m', cmds) →
  models.cmdDelete p ∈ cmds →
  (2 ≤ confirmations keys)%nat
  ∧ ∃ p',
      p = Some p'
      ∧ DeletionPlan.Worker p' = DeletionPlan.Worker p0
      ∧ DeletionPlan.ResourcesToDelete p' = DeletionPlan.ResourcesToDelete p0
      ∧ (DeletionPlan.DeleteShared p' = true →
         DeletionPlan.HasSharedResources p0 = true
         ∧ Config.ExclusiveOnly config = false
         ∧ (3 ≤ confirmations keys)%nat).
Proof.
  intros Hauto Hbuilt Hfeed Hin.
  destruct (dialogue_keys p0 keys (models.NewModel worker (Some p0) config)
              m' cmds p) as [H2 (p' & ? & ? & ? & H3)];
    [ | exact Hfeed | exact Hin |].
  { unfold inDialogue. cbn. tauto. }
  cbn in H2, H3. split; [done|]. exists p'. do 3 (split; [done|]).
  intros Hs. destruct (H3 Hs) as [?|?]; [congruence | done].
Qed.

Lemma session_asks_before_deleting_witness :
  let p0 :=
    DeletionPlan.mk fixtures.billing
      [ResourceUsage.mk "ns-1" BindingTypeKV "sessions"
         ["billing-svc"; "reports-svc"] RiskLevelCaution]
      true false false in
  (2 ≤ confirmations ["y"; "x"; "enter"; "Y"; "q"])%nat
  ∧ ∃ p',
      Some (DeletionPlan.setDeleteShared p0 true) = Some p'
      ∧ DeletionPlan.Worker p' = DeletionPlan.Worker p0
      ∧ DeletionPlan.ResourcesToDelete p' = DeletionPlan.ResourcesToDelete p0
      ∧ (DeletionPlan.DeleteShared p' = true →
         DeletionPlan.HasSharedResources p0 = true
         ∧ false = false
         ∧ (3 ≤ confirmations ["y"; "x"; "enter"; "Y"; "q"])%nat).
Proof.
  intros p0.
  eapply (session_asks_before_deleting fixtures.billing p0
            (Config.mk EmptyString EmptyString false false false false false
               false false false)
            ["y"; "x"; "enter"; "Y"; "q"]).
  - reflexivity.
  - reflexivity.
  - vm_compute. reflexivity.
  - apply elem_of_cons. right. apply elem_of_cons. right.
    apply elem_of_cons. right. apply elem_of_cons. left. reflexivity.
Defined.

(** X24.  While the analysis or the deletion runs the session ignores
    every key, the quit keys included: the model does not change and no
    command is issued. *)
Theorem session_ignores_keys_while_busy (keys : list string)
  (m : models.Model) :
  models.state m = models.stateDeleting
  ∨ models.state m = models.stateAnalyzing →
  models.feed (map models.KeyMsg keys) m
  = Some (m, map (fun _ => models.cmdNil) keys).
Proof. apply feed_inert. Qed.

Lemma session_ignores_keys_while_busy_witness :
  models.feed (map models.KeyMsg ["ctrl+c"; "q"])
    (models.setState
       (models.NewModel fixtures.billing None
          (Config.mk EmptyString EmptyString false false false false false
             false false false))
       models.stateDeleting)
  = Some
      (models.setState
         (models.NewModel fixtures.billing None
            (Config.mk EmptyString EmptyString false false false false false
               false false false))
         models.stateDeleting,
       [models.cmdNil; models.cmdNil]).
Proof.
  apply (session_ignores_keys_while_busy ["ctrl+c"; "q"]).
  left. reflexivity.
Defined.

(** X25.  How a deletion ends in the session.  When the worker is
    deleted the session receives the result, keeps it and ends in the
    complete state, whether or not resource deletions failed; when the
    worker delete fails it receives only the error and ends in the error
    state, and the result with its recorded error is dropped.  Either
    way the program is told to quit. *)
Theorem session_deletion_outcome {R : Type} (d : Deleter R)
  (plan : DeletionPlan.t) (w : World R) (m : models.Model) :
  let '(result, returned, w1) := Execute d plan w in
  let '(msg, w') := models.deletionMsg d plan w in
  w' = w1
  ∧ ∃ m',
      models.Update m msg = Some (m', models.cmdQuit)
      ∧ models.plan m' = models.plan m
      ∧ if DeletionResult.WorkerDeleted result
        then models.state m' = models.stateComplete
             ∧ models.Result m' = Some result
             ∧ models.Err m' = models.Err m
        else models.state m' = models.stateError
             ∧ models.Err m' = returned
             ∧ models.Result m' = models.Result m.
Proof.
  unfold models.deletionMsg. rewrite bind_run, ret_run.
  destruct (Execute_cases d plan w)
    as [[_ ->]|[(err & s & _ & ->)|(trace & w' & _ & _ & _ & _ & ->)]];
    cbn; (split; [done|]); eexists; (split; [reflexivity|]); done.
Qed.

(** *** The command *)

Lemma setDeletionFlags_fields (config : Config.t) (plan : DeletionPlan.t) :
  DeletionPlan.Worker (cmd.setDeletionFlags config plan)
  = DeletionPlan.Worker plan
  ∧ DeletionPlan.ResourcesToDelete (cmd.setDeletionFlags config plan)
    = DeletionPlan.ResourcesToDelete plan.
Proof.
  unfold cmd.setDeletionFlags.
  by destruct (Config.ExclusiveOnly config),
       (Config.Force config || Config.AutoYes config).
Qed.

Lemma setDeletionFlags_policy (config : Config.t) (worker : WorkerInfo.t)
  (resources : list ResourceUsage.t) (u : ResourceUsage.t) :
  cmd.isInteractive config = false →
  Config.DryRun config = false →
  Config.JSONOutput config = false →
  let plan :=
    CreateDeletionPlan worker resources (Config.ExclusiveOnly config) in
  u ∈ DeletionPlan.ResourcesToDelete plan →
  skippedByPolicy (cmd.setDeletionFlags config plan) u = false.
Proof.
  intros Hint Hdry Hjson plan. subst plan.
  rewrite CreateDeletionPlan_fields.
  unfold cmd.isInteractive in Hint. rewrite Hdry, Hjson in Hint.
  unfold cmd.setDeletionFlags, skippedByPolicy.
  destruct (Config.ExclusiveOnly config); cbn.
  - intros [Hsafe _]%list_elem_of_filter.
    by rewrite bool_decide_eq_false_2 by (by intros ?).
  - destruct (Config.Force config), (Config.AutoYes config); cbn in *;
      done.
Qed.

Lemma omap_issued_unskipped (plan : DeletionPlan.t)
  (resources : list ResourceUsage.t) :
  (∀ u, u ∈ resources → skippedByPolicy plan u = false) →
  omap (issued plan) resources = omap usageCall resources.
Proof.
  induction resources as [|u resources IH]; intros Hall; [done|].
  cbn. unfold issued at 1.
  rewrite (Hall u) by apply list_elem_of_here.
  rewrite IH; [done|]. intros u' Hin. apply Hall. by apply elem_of_cons; right.
Qed.

Lemma trace_unskipped (trace : list (ResourceUsage.t * Outcome)) :
  (∀ u o, (u, o) ∈ trace → o ≠ Kept) →
  length (namesWhere isSkipped trace) = length (failures trace)
  ∧ (failures trace = [] →
     namesWhere isSkipped trace = []
     ∧ namesWhere isRemoved trace
       = map ResourceUsage.ResourceName (map fst trace)).
Proof.
  unfold namesWhere, failures.
  induction trace as [|[u o] trace IH]; intros Hall; [done|].
  destruct IH as [IH1 IH2].
  { intros u' o' Hin. apply (Hall u' o'). by apply elem_of_cons; right. }
  assert (o ≠ Kept) as Ho by (apply (Hall u o), list_elem_of_here).
  destruct o as [| |err]; [|done|].
  - rewrite (filter_cons_False _ (u, Removed)) by done.
    rewrite (filter_cons_True _ (u, Removed)) by done.
    cbn. split; [done|]. intros Hnone.
    destruct (IH2 Hnone) as [-> ->]. done.
  - rewrite (filter_cons_True _ (u, Failed err)) by done.
    cbn. split; [by rewrite IH1 | done].
Qed.

(** X26.  With [--dry-run] or [--json] the command issues no delete
    call and changes nothing in the account, and the interactive
    session is not started: it ends with the error of the lookup or of
    the analysis, or with the plan built from the analysis, which it
    shows.  In particular it never runs the executor in dry-run mode. *)
Theorem run_changes_nothing {R : Type} (client : Client R)
  (program : cmd.Program R) (config : Config.t) (workerName : string)
  (w : World R) :
  Config.DryRun config = true ∨ Config.JSONOutput config = true →
  (cmd.run client program config workerName w).2 = w
  ∧ match (cmd.run client program config workerName w).1 with
    | cmd.failed err =>
        (∃ e, GetWorker client workerName = Err e
              ∧ err = Wrapf "failed to get worker" e)
        ∨ (∃ worker e,
             GetWorker client workerName = Ok worker
             ∧ AnalyzeDependencies client worker = Err e
             ∧ err = Wrapf "failed to analyze dependencies" e)
    | cmd.jsonOutput plan | cmd.showedPlan plan =>
        ∃ worker resources,
          GetWorker client workerName = Ok worker
          ∧ AnalyzeDependencies client worker = Ok resources
          ∧ plan = CreateDeletionPlan worker resources
                     (Config.ExclusiveOnly config)
    | cmd.sessionEnded _ | cmd.exited _ | cmd.completed _ => False
    end.
Proof.
  intros Hmode. unfold cmd.run.
  destruct (GetWorker client workerName) as [worker|e] eqn:Hget.
  2: { cbn. split; [done|]. left. by exists e. }
  assert (cmd.isInteractive config = false) as ->.
  { unfold cmd.isInteractive.
    destruct Hmode as [->| ->]; cbn; by rewrite ?andb_false_r. }
  destruct (AnalyzeDependencies client worker) as [resources|e] eqn:Hana.
  2: { cbn. split; [done|]. right. by exists worker, e. }
  destruct (Config.JSONOutput config) eqn:Hjson.
  { cbn. split; [done|]. by exists worker, resources. }
  destruct (Config.DryRun config) eqn:Hdry.
  { cbn. split; [done|]. by exists worker, resources. }
  destruct Hmode as [?|?]; congruence.
Qed.

Lemma run_changes_nothing_witness :
  let config :=
    Config.mk EmptyString "acct" true true false false false false false
      false in
  let w := mkWorld fixtures.billingItems [] in
  (cmd.run (fixtures.account fixtures.billingScripts [])
     (fun m => ret (Ok m)) config "billing-svc" w).2 = w.
Proof.
  intros config w.
  apply (run_changes_nothing
           (fixtures.account fixtures.billingScripts [])
           (fun m => ret (Ok m)) config "billing-svc" w).
  left. reflexivity.
Defined.

(** X27.  Without the session ([--force] or [--yes]), not in dry-run and
    not printing JSON, once the worker is found and analysed the command
    asks nothing and withholds nothing: it deletes the worker and then
    issues the delete of every resource of the plan, the shared ones
    included unless [--exclusive-only] removed them from the plan.  It
    ends normally exactly with the whole plan reported deleted; it exits
    with status 1 when the worker is gone but some resource delete
    failed (each skipped resource is then a failed one); it returns an
    error only when the worker delete itself failed, after that one
    call. *)
Theorem run_forced_deletes_whole_plan {R : Type} (client : Client R)
  (program : cmd.Program R) (config : Config.t) (workerName : string)
  (worker : WorkerInfo.t) (resources : list ResourceUsage.t) (w : World R) :
  cmd.isInteractive config = false →
  Config.DryRun config = false →
  Config.JSONOutput config = false →
  GetWorker client workerName = Ok worker →
  AnalyzeDependencies client worker = Ok resources →
  let plan :=
    CreateDeletionPlan worker resources (Config.ExclusiveOnly config) in
  let everything :=
    calls w
    ++ CallDeleteWorker (WorkerInfo.Name worker)
       :: omap usageCall (DeletionPlan.ResourcesToDelete plan) in
  let '(outcome, w') := cmd.run client program config workerName w in
  match outcome with
  | cmd.completed result =>
      calls w' = everything
      ∧ result
        = DeletionResult.mk true true
            (map ResourceUsage.ResourceName
               (DeletionPlan.ResourcesToDelete plan))
            [] []
  | cmd.exited result =>
      calls w' = everything
      ∧ DeletionResult.WorkerDeleted result = true
      ∧ DeletionResult.Errors result ≠ []
      ∧ length (DeletionResult.ResourcesSkipped result)
        = length (DeletionResult.Errors result)
  | cmd.failed err =>
      calls w' = calls w ++ [CallDeleteWorker (WorkerInfo.Name worker)]
      ∧ ∃ e, err = Wrapf "deletion failed"
                     (Wrapf "failed to delete worker" e)
  | _ => False
  end.
Proof.
  intros Hint Hdry Hjson Hget Hana plan everything.
  unfold cmd.run. rewrite Hget, Hint, Hana, Hjson, Hdry.
  fold plan. rewrite bind_run.
  pose proof (setDeletionFlags_fields config plan) as [Hworker Hres].
  pose proof (setDeletionFlags_policy config worker resources) as Hpolicy.
  specialize (fun u => Hpolicy u Hint Hdry Hjson). cbn zeta in Hpolicy.
  fold plan in Hpolicy.
  assert (DeletionPlan.Worker plan = worker) as Hw
    by (subst plan; by rewrite CreateDeletionPlan_fields).
  destruct (Execute_cases (NewDeleter client false)
              (cmd.setDeletionFlags config plan) w)
    as [[Hd _]|[(err & s & _ & ->)|(trace & w' & _ & Htr & Hcalls & Hout & ->)]].
  - done.
  - cbn. rewrite Hworker, Hw. eauto.
  - cbn [fst snd DeletionResult.Success].
    rewrite Hres, omap_issued_unskipped, Hworker, Hw in Hcalls
      by exact Hpolicy.
    destruct (trace_unskipped trace) as [Hlen Hnone].
    { intros u o Hin ->. destruct (Hout u Kept Hin) as [[Hk _] _].
      rewrite Hpolicy in Hk; [by specialize (Hk eq_refl)|].
      rewrite <- Hres, <- Htr. apply (list_elem_of_fmap_2 fst _ _ Hin). }
    case_bool_decide as Hfail; rewrite ret_run.
    + split; [done|]. destruct (Hnone Hfail) as [-> ->].
      by rewrite Hfail, Htr, Hres.
    + cbn. done.
Qed.

Lemma run_forced_deletes_whole_plan_witness :
  let config :=
    Config.mk EmptyString "acct" false true false false false false false
      false in
  let client := fixtures.account fixtures.billingScripts [] in
  let w := mkWorld fixtures.billingItems [] in
  match cmd.run client (fun m => ret (Ok m)) config "billing-svc" w with
  | (cmd.completed result, w') =>
      calls w'
      = [CallDeleteWorker "billing-svc"; CallDeleteKVNamespace "ns-1";
         CallDeleteD1Database "db-7"]
  | _ => False
  end.
Proof.
  intros config client w.
  pose proof (run_forced_deletes_whole_plan client (fun m => ret (Ok m))
                config "billing-svc" fixtures.billing
                [ResourceUsage.mk "ns-1" BindingTypeKV "sessions"
                   ["billing-svc"; "reports-svc"] RiskLevelCaution;
                 ResourceUsage.mk "db-7" BindingTypeD1 "ledger"
                   ["billing-svc"] RiskLevelSafe]
                w eq_refl eq_refl eq_refl eq_refl eq_refl) as H.
  vm_compute in H. vm_compute. tauto.
Defined.

(** ** Kinds without a delete endpoint, and repeated bindings *)










